(** * Ranking and trend engine of the e-commerce analytics system

    A shallow embedding of the scoring model ([storage/models.py]), the
    ranking engine ([analytics/ranking_engine.py]), the trend analyzer
    ([analytics/trend_analyzer.py]), the price-tier classifier and the
    popularity score of the enricher ([data_processing/data_enricher.py]),
    the handling of outliers ([data_processing/data_cleaner.py]), the
    read operations of the database manager ([storage/database.py]) and
    the category rankings and rating analysis of the orchestrator
    ([business_logic/orchestrator.py]), followed by the properties
    established about them.

    Conventions of the embedding.
    - SQL [Integer] columns and Python [int] values are [Z]; row counts
      ([limit], [days]) are [nat].
    - SQL [Float] columns and Python [float] values are rationals [Q]:
      a double is its exact value.  The growth rates that the code rounds
      with [round(x, 2)] are computed as Python computes them, every
      operation giving the nearest double ([Py.double]); the sums, means
      and rates of change of the trend frames are exact, their rounding
      error is not modelled.  The one transcendental function used by the
      code, [numpy.log1p], is the real [ln (1 + x)], so the two scores
      that use it live in [R].
    - A nullable string column holds [""] for NULL; both are falsy in
      Python and neither matches a filter on a non-empty value.  pandas
      drops the rows of a NULL group key and keeps those of an empty one;
      the two are one here, so nothing is stated about the group [""].
    - Exceptions are explicit: code that can raise returns a [result].
    - Charts (matplotlib) are opaque byte strings that play no part in any
      property: the drawing calls are taken to succeed and the images are
      left out of the result records.  Where a drawing call can fail on
      the data (the pie of the category shares), the analysis returns the
      empty dictionary; the properties of that analysis are stated of the
      results it returns.
    - The window of a trend analysis is labelled with the calendar days
      of its analysis period.  The period is computed here from the clock
      reading, as days since the epoch; the code takes it from the local
      date, which the offset of the time zone can move by a day.  The
      properties name the days of the window through the period the
      analysis returns, and the day of a snapshot is always the day of
      its timestamp.
    - pandas is modelled by what its operations are documented to do on
      the frames the code builds; [reindex] matches index labels by
      calendar day. *)

From Stdlib Require Import List String Ascii ZArith QArith Qminmax Qround.
From Stdlib Require Import Qabs Bool Lia Reals Qreals Psatz Sorted Permutation.
From Stdlib Require Floats.
Import ListNotations.

Set Implicit Arguments.

(** ** Python prelude: exceptions, truthiness, sorting, slicing *)

Module Py.

Inductive exn : Type :=
| Exception (msg : string).

Inductive result (A : Type) : Type :=
| Ok (a : A)
| Raise (e : exn).
Arguments Ok {A} a.
Arguments Raise {A} e.

Definition bind {A B} (m : result A) (k : A -> result B) : result B :=
  match m with
  | Ok a => k a
  | Raise e => Raise e
  end.

(** [try: body  except Exception as e: handler e]. *)
Definition try_except {A} (body : result A) (handler : exn -> result A)
  : result A :=
  match body with
  | Ok a => Ok a
  | Raise e => handler e
  end.

(** [try: body  finally: cleanup]: the cleanup always runs; when it
    raises, its exception replaces the outcome of the body. *)
Definition try_finally {A} (body : result A) (cleanup : result unit)
  : result A :=
  match cleanup with
  | Ok _ => body
  | Raise e => Raise e
  end.

(** [if s:] on an optional string: [None] and [""] are falsy. *)
Definition truthy (s : option string) : option string :=
  match s with
  | Some (String c t) => Some (String c t)
  | _ => None
  end.

Definition lower_ascii (c : ascii) : ascii :=
  let n := nat_of_ascii c in
  if ((65 <=? n) && (n <=? 90))%nat then ascii_of_nat (n + 32) else c.

(** [str.lower()], on the ASCII letters. *)
Fixpoint lower (s : string) : string :=
  match s with
  | EmptyString => EmptyString
  | String c t => String (lower_ascii c) (lower t)
  end.

(** A stable sort: [before x y] says that [x] may stand in front of [y].
    Elements are inserted from the right, so equal keys keep the order
    they had in the input. *)
Section Sort.
Variable A : Type.
Variable before : A -> A -> bool.

Fixpoint insert (x : A) (l : list A) : list A :=
  match l with
  | [] => [x]
  | y :: l' => if before x y then x :: l else y :: insert x l'
  end.

Definition sort (l : list A) : list A := fold_right insert [] l.
End Sort.

(** The values of a list without repetition, first occurrences kept. *)
Section Distinct.
Variable A : Type.
Variable eqb : A -> A -> bool.

Fixpoint distinct (l : list A) : list A :=
  match l with
  | [] => []
  | x :: l' => x :: filter (fun y => negb (eqb x y)) (distinct l')
  end.
End Distinct.

Definition non_empty (s : string) : bool :=
  match s with
  | EmptyString => false
  | String _ _ => true
  end.

(** A Python [dict] with string keys: insertion-ordered, one entry a key. *)
Fixpoint dict_set {V} (d : list (string * V)) (k : string) (v : V)
  : list (string * V) :=
  match d with
  | [] => [(k, v)]
  | (k', v') :: d' =>
      if String.eqb k' k then (k', v) :: d' else (k', v') :: dict_set d' k v
  end.

(** [enumerate(l, start)]. *)
Fixpoint enumerate {A} (start : nat) (l : list A) : list (nat * A) :=
  match l with
  | [] => []
  | x :: l' => (start, x) :: enumerate (S start) l'
  end.

(** The integer nearest to [q], ties to even. *)
Definition round_half_even (q : Q) : Z :=
  let f := Qfloor q in
  match Qcompare (q - inject_Z f) (1 # 2) with
  | Lt => f
  | Gt => (f + 1)%Z
  | Eq => if Z.even f then f else (f + 1)%Z
  end.

(** [2 ** k]. *)
Definition pow2 (k : Z) : Q :=
  if (0 <=? k)%Z then inject_Z (2 ^ k) else 1 / inject_Z (2 ^ (- k)).

(** The binade of [x > 0]: the [e] with [2 ** e <= x < 2 ** (e + 1)]. *)
Definition binade (x : Q) : Z :=
  let e := (Z.log2 (Qnum x) - Z.log2 (Zpos (Qden x)))%Z in
  if Qle_bool (pow2 e) x then e else (e - 1)%Z.

(** The double nearest to [x], ties to the even mantissa (IEEE 754
    binary64, the rounding of every Python float operation): 53 bits of
    mantissa, gradual underflow below [2 ** -1022].  Overflow to infinity,
    beyond [2 ** 1024], is out of reach of the integers of the store and
    has no value here. *)
Definition double (x : Q) : Q :=
  if Qeq_bool x 0 then 0
  else
    let e := Z.max (binade (Qabs x)) (-1022) in
    let quantum := pow2 (e - 52) in
    Qred (inject_Z (round_half_even (x / quantum)) * quantum).

(** [a / b] on two integers or two floats, and [a * b] on floats: the
    exact result, rounded once. *)
Definition true_div (a b : Q) : Q := double (a / b).

Definition float_mul (a b : Q) : Q := double (a * b).

(** [round(x, 2)] on a float: its exact value is rounded to the nearest
    multiple of 1/100, ties to even, and the double nearest to that is
    returned. *)
Definition round2 (x : Q) : Q :=
  double (inject_Z (round_half_even (x * 100)) / 100).

(** The exact value of a double of the machine, and the double of an
    integer: the arithmetic above is compared with the machine's on
    them. *)
Definition float_value (f : PrimFloat.float) : Q :=
  match FloatOps.Prim2SF f with
  | SpecFloat.S754_finite s m e =>
      Qred ((if s then -1 else 1) * inject_Z (Zpos m) * pow2 e)
  | _ => 0
  end.

Definition float_of_Z (z : Z) : PrimFloat.float :=
  if (z <? 0)%Z then PrimFloat.opp (PrimFloat.of_uint63 (Uint63.of_Z (- z)))
  else PrimFloat.of_uint63 (Uint63.of_Z z).

Definition Qltb (a b : Q) : bool := negb (Qle_bool b a).

Definition Qsum (l : list Q) : Q := fold_left Qplus l 0.

(** [numpy.log1p]. *)
Definition log1p (x : R) : R := ln (1 + x).

End Py.
Import Py.

Notation "x <- m ;; k" := (Py.bind m (fun x => k))
  (at level 61, m at next level, right associativity).

(** ** storage/models.py *)

Module Product.

Record t : Type := mk {
  id : Z;
  platform : string;
  product_id : string;
  name : string;
  price : Q;
  sales_volume : Z;
  rating : Q;
  reviews_count : Z;
  category : string;
  popularity_score : Q;
  keywords : list string
}.

Definition set_popularity_score (self : t) (v : Q) : t :=
  mk (id self) (platform self) (product_id self) (name self) (price self)
     (sales_volume self) (rating self) (reviews_count self)
     (category self) v (keywords self).

(** [Product.calculate_popularity_score]: stores the score in the record
    and returns it. *)
Definition calculate_popularity_score (self : t) : t * Q :=
  let sales_factor := Qmin (inject_Z (sales_volume self) / 1000) 1 * 60 in
  let rating_factor := (rating self / 5) * 25 in
  let reviews_factor :=
    Qmin (inject_Z (reviews_count self) / 500) 1 * 15 in
  let score := sales_factor + rating_factor + reviews_factor in
  (set_popularity_score self score, score).

End Product.

Module ProductHistory.

Record t : Type := mk {
  id : Z;
  product_id : string;
  platform : string;
  category : string;
  date : Q;
  price : Q;
  sales_volume : Z;
  rating : Q;
  reviews_count : Z
}.

End ProductHistory.


(** ** The store behind [self.db]: SQLAlchemy sessions and queries

    A query is built step by step ([filter], [order_by], [limit]) and sent
    to the database by [.all()], which is where a failure of the store shows
    up as an exception.  A [Session] is therefore an oracle answering each
    query with rows or with an exception; [connect] is the session of a
    database that is up, answering from its two tables.  Creating a session
    ([self.db.Session()]) and closing it do no I/O and do not fail. *)

Module Store.

Record ProductQuery : Type := mkProductQuery {
  where_platform : option string;
  where_category : option string;
  where_product_id : option string;
  where_price_ge : option Q;
  where_price_lt : option Q;
  order_desc : option (Product.t -> Q);
  limit_rows : option nat
}.

(** A query on the history names the columns it selects; [[]] is the
    whole row of [session.query(ProductHistory)]. *)
Record HistoryQuery : Type := mkHistoryQuery {
  h_columns : list string;
  h_where_product_id : option string;
  h_where_platform : option string;
  h_where_category : option string;
  h_where_date_ge : option Q;
  h_order_date_asc : bool
}.

Record Session : Type := mkSession {
  all_products : ProductQuery -> result (list Product.t);
  all_history : HistoryQuery -> result (list ProductHistory.t)
}.

Definition close (session : Session) : result unit := Ok tt.

(** [session.query(Product)] and the query methods. *)
Definition query_Product : ProductQuery :=
  mkProductQuery None None None None None None None.

Definition filter_platform (q : ProductQuery) (v : string) : ProductQuery :=
  mkProductQuery (Some v) (where_category q) (where_product_id q)
    (where_price_ge q) (where_price_lt q) (order_desc q) (limit_rows q).

Definition filter_category (q : ProductQuery) (v : string) : ProductQuery :=
  mkProductQuery (where_platform q) (Some v) (where_product_id q)
    (where_price_ge q) (where_price_lt q) (order_desc q) (limit_rows q).

Definition filter_by_product_id (q : ProductQuery) (v : string)
  : ProductQuery :=
  mkProductQuery (where_platform q) (where_category q) (Some v)
    (where_price_ge q) (where_price_lt q) (order_desc q) (limit_rows q).

Definition filter_price_ge (q : ProductQuery) (v : Q) : ProductQuery :=
  mkProductQuery (where_platform q) (where_category q) (where_product_id q)
    (Some v) (where_price_lt q) (order_desc q) (limit_rows q).

Definition filter_price_lt (q : ProductQuery) (v : Q) : ProductQuery :=
  mkProductQuery (where_platform q) (where_category q) (where_product_id q)
    (where_price_ge q) (Some v) (order_desc q) (limit_rows q).

Definition order_by_desc (q : ProductQuery) (key : Product.t -> Q)
  : ProductQuery :=
  mkProductQuery (where_platform q) (where_category q) (where_product_id q)
    (where_price_ge q) (where_price_lt q) (Some key) (limit_rows q).

Definition limit (q : ProductQuery) (n : nat) : ProductQuery :=
  mkProductQuery (where_platform q) (where_category q) (where_product_id q)
    (where_price_ge q) (where_price_lt q) (order_desc q) (Some n).

(** [session.query(ProductHistory)] and the query methods. *)
Definition query_ProductHistory : HistoryQuery :=
  mkHistoryQuery [] None None None None false.

(** [session.query(ProductHistory.date, ...)]. *)
Definition query_ProductHistory_columns (columns : list string)
  : HistoryQuery :=
  mkHistoryQuery columns None None None None false.

Definition h_filter_product_id (q : HistoryQuery) (v : string)
  : HistoryQuery :=
  mkHistoryQuery (h_columns q) (Some v) (h_where_platform q)
    (h_where_category q) (h_where_date_ge q) (h_order_date_asc q).

Definition h_filter_platform (q : HistoryQuery) (v : string) : HistoryQuery :=
  mkHistoryQuery (h_columns q) (h_where_product_id q) (Some v)
    (h_where_category q) (h_where_date_ge q) (h_order_date_asc q).

Definition h_filter_category (q : HistoryQuery) (v : string) : HistoryQuery :=
  mkHistoryQuery (h_columns q) (h_where_product_id q) (h_where_platform q)
    (Some v) (h_where_date_ge q) (h_order_date_asc q).

Definition h_filter_date_ge (q : HistoryQuery) (v : Q) : HistoryQuery :=
  mkHistoryQuery (h_columns q) (h_where_product_id q) (h_where_platform q)
    (h_where_category q) (Some v) (h_order_date_asc q).

Definition h_order_by_date_asc (q : HistoryQuery) : HistoryQuery :=
  mkHistoryQuery (h_columns q) (h_where_product_id q) (h_where_platform q)
    (h_where_category q) (h_where_date_ge q) true.

(** The database when it is up: two tables in storage order. *)
Record DB : Type := mkDB {
  products : list Product.t;
  product_history : list ProductHistory.t
}.

Definition eq_filter (f : option string) (v : string) : bool :=
  match f with
  | None => true
  | Some x => String.eqb v x
  end.

Definition ge_filter (f : option Q) (v : Q) : bool :=
  match f with
  | None => true
  | Some x => Qle_bool x v
  end.

Definition lt_filter (f : option Q) (v : Q) : bool :=
  match f with
  | None => true
  | Some x => Qltb v x
  end.

Definition product_matches (q : ProductQuery) (p : Product.t) : bool :=
  eq_filter (where_platform q) (Product.platform p)
  && eq_filter (where_category q) (Product.category p)
  && eq_filter (where_product_id q) (Product.product_id p)
  && ge_filter (where_price_ge q) (Product.price p)
  && lt_filter (where_price_lt q) (Product.price p).

(** [ORDER BY key DESC].  Rows with equal keys keep their storage order
    here; SQL leaves their order open, and no property below depends on
    it. *)
Definition desc_by {A} (key : A -> Q) (x y : A) : bool :=
  Qle_bool (key y) (key x).

(** [ORDER BY key ASC]. *)
Definition asc_by {A} (key : A -> Q) (x y : A) : bool :=
  Qle_bool (key x) (key y).

Definition run_product_query (db : DB) (q : ProductQuery) : list Product.t :=
  let rows := filter (product_matches q) (products db) in
  let rows :=
    match order_desc q with
    | Some key => sort (desc_by key) rows
    | None => rows
    end in
  match limit_rows q with
  | Some n => firstn n rows
  | None => rows
  end.

Definition history_matches (q : HistoryQuery) (h : ProductHistory.t) : bool :=
  eq_filter (h_where_product_id q) (ProductHistory.product_id h)
  && eq_filter (h_where_platform q) (ProductHistory.platform h)
  && eq_filter (h_where_category q) (ProductHistory.category h)
  && ge_filter (h_where_date_ge q) (ProductHistory.date h).

Definition run_history_query (db : DB) (q : HistoryQuery)
  : list ProductHistory.t :=
  let rows := filter (history_matches q) (product_history db) in
  if h_order_date_asc q then sort (asc_by ProductHistory.date) rows else rows.

Definition connect (db : DB) : Session :=
  mkSession (fun q => Ok (run_product_query db q))
            (fun q => Ok (run_history_query db q)).

(** A store that is down: every query raises. *)
Definition unavailable : Session :=
  mkSession (fun _ => Raise (Exception "OperationalError"))
            (fun _ => Raise (Exception "OperationalError")).

End Store.

(** ** analytics/ranking_engine.py *)

Module RankingEngine.
Import Store.

(** The dictionaries the rankings return: [Product.to_dict()] extended with
    ['rank'], and with ['growth_rate'] or ['value_score'] where the ranking
    computes one. *)
Record RankedProduct : Type := mkRanked {
  product : Product.t;
  rank : nat
}.

Record RisingProduct : Type := mkRising {
  rising_product : Product.t;
  growth_rate : Q;
  rising_rank : nat
}.

Record ValueProduct : Type := mkValue {
  value_product : Product.t;
  value_score : R;
  value_rank : nat
}.

(** A [for] loop whose body may raise. *)
Fixpoint for_each {A S} (l : list A) (body : S -> A -> result S) (acc : S)
  : result S :=
  match l with
  | [] => Ok acc
  | x :: l' => acc' <- body acc x ;; for_each l' body acc'
  end.

(** The expression the hot rankings order by. *)
Definition hot_score (p : Product.t) : Q :=
  inject_Z (Product.sales_volume p) * 1
  + Product.rating p * 20
  + inject_Z (Product.reviews_count p) * (1 # 10).

Definition with_rank (products : list Product.t) : list RankedProduct :=
  map (fun ip => mkRanked (snd ip) (fst ip + 1)) (enumerate 0 products).

Definition get_hot_products (db : Session) (platform category : option string)
  (time_range : string) (limit : nat) : result (list RankedProduct) :=
  let session := db in
  try_finally
    (try_except
       (let query := query_Product in
        let query :=
          match truthy platform with
          | Some p => filter_platform query (lower p)
          | None => query
          end in
        let query :=
          match truthy category with
          | Some c => filter_category query c
          | None => query
          end in
        let query := order_by_desc query hot_score in
        let query := Store.limit query limit in
        products <- all_products session query ;;
        Ok (with_rank products))
       (fun e => Ok []))
    (close session).

(** The growth of one product over its history in the window: the true
    division of two integers, then a float multiplication. *)
Definition growth_of (history : list ProductHistory.t) : Q :=
  match history with
  | first_record :: _ :: _ =>
      let last_record := last history first_record in
      if (0 <? ProductHistory.sales_volume first_record)%Z
      then float_mul
             (true_div
                (inject_Z (ProductHistory.sales_volume last_record
                           - ProductHistory.sales_volume first_record))
                (inject_Z (ProductHistory.sales_volume first_record)))
             100
      else 0
  | _ => 0
  end.

(** The body of the loop over [product_ids]: [Ok None] is [continue]. *)
Definition rising_entry (session : Session) (start_time : Q)
  (product_id : string) : result (option (Product.t * Q)) :=
  found <- all_products session
             (Store.limit (filter_by_product_id query_Product product_id) 1) ;;
  match found with
  | [] => Ok None
  | product :: _ =>
      history <- all_history session
                   (h_order_by_date_asc
                      (h_filter_date_ge
                         (h_filter_product_id query_ProductHistory product_id)
                         start_time)) ;;
      Ok (Some (product, round2 (growth_of history)))
  end.

(** The loop appends one dictionary per product id; an exception inside the
    body is logged and the product skipped. *)
Definition products_with_growth (session : Session) (start_time : Q)
  (product_ids : list string) : list (Product.t * Q) :=
  flat_map
    (fun product_id =>
       match rising_entry session start_time product_id with
       | Ok (Some entry) => [entry]
       | Ok None => []
       | Raise e => []
       end)
    product_ids.

Definition get_rising_products (db : Session) (now : Q)
  (platform category : option string) (days limit : nat)
  : result (list RisingProduct) :=
  let session := db in
  try_finally
    (try_except
       (let start_time := now - inject_Z (Z.of_nat days) * 86400 in
        let product_query := query_Product in
        let product_query :=
          match truthy platform with
          | Some p => filter_platform product_query (lower p)
          | None => product_query
          end in
        let product_query :=
          match truthy category with
          | Some c => filter_category product_query c
          | None => product_query
          end in
        rows <- all_products session product_query ;;
        let product_ids := map Product.product_id rows in
        match product_ids with
        | [] => Ok []
        | _ =>
            let scored := products_with_growth session start_time product_ids in
            let scored := sort (desc_by snd) scored in
            let scored := firstn limit scored in
            Ok (map (fun ip => mkRising (fst (snd ip)) (snd (snd ip))
                                 (fst ip + 1))
                    (enumerate 0 scored))
        end)
       (fun e => Ok []))
    (close session).

Definition get_category_rankings (db : Session) (platform : option string)
  (limit_per_category : nat)
  : result (list (string * list RankedProduct)) :=
  let session := db in
  try_finally
    (try_except
       (let category_query := query_Product in
        let category_query :=
          match truthy platform with
          | Some p => filter_platform category_query (lower p)
          | None => category_query
          end in
        rows <- all_products session category_query ;;
        let categories :=
          filter non_empty (distinct String.eqb (map Product.category rows)) in
        for_each categories
          (fun result category =>
             products <- get_hot_products db platform (Some category)
                           "week" limit_per_category ;;
             match products with
             | [] => Ok result
             | _ => Ok (dict_set result category products)
             end)
          [])
       (fun e => Ok []))
    (close session).

(** A price range; [max = None] is [float('inf')]. *)
Record PriceRange : Type := mkRange {
  min : Q;
  max : option Q;
  label : string
}.

Definition default_price_ranges : list PriceRange :=
  [ mkRange 0 (Some 50) "低价";
    mkRange 50 (Some 200) "中价";
    mkRange 200 (Some 1000) "高价";
    mkRange 1000 None "奢侈品" ].

Definition get_price_range_rankings (db : Session) (platform : option string)
  (price_ranges : list PriceRange) (limit_per_range : nat)
  : result (list (string * list RankedProduct)) :=
  let price_ranges :=
    match price_ranges with
    | [] => default_price_ranges
    | _ => price_ranges
    end in
  let session := db in
  try_finally
    (try_except
       (for_each price_ranges
          (fun result price_range =>
             let query := query_Product in
             let query :=
               match truthy platform with
               | Some p => filter_platform query (lower p)
               | None => query
               end in
             let query := filter_price_ge query (min price_range) in
             let query :=
               match max price_range with
               | Some max_price => filter_price_lt query max_price
               | None => query
               end in
             let query := order_by_desc query hot_score in
             let query := Store.limit query limit_per_range in
             products <- all_products session query ;;
             match with_rank products with
             | [] => Ok result
             | ranked => Ok (dict_set result (label price_range) ranked)
             end)
          [])
       (fun e => Ok []))
    (close session).

Definition get_cross_platform_comparison (db : Session)
  (category : option string) (limit : nat)
  : result (list (string * list RankedProduct)) :=
  try_except
    (let platforms := ["tiktok"; "amazon"; "shopee"]%string in
     for_each platforms
       (fun results platform =>
          products <- get_hot_products db (Some platform) category
                        "week" limit ;;
          match products with
          | [] => Ok results
          | _ => Ok (dict_set results platform products)
          end)
       [])
    (fun e => Ok []).

(** [pd.Series(keywords).value_counts()]: each keyword with its number of
    occurrences, the most frequent first. *)
Definition count_of (k : string) (l : list string) : nat :=
  List.length (filter (String.eqb k) l).

Definition desc_by_count (x y : string * nat) : bool :=
  (snd y <=? snd x)%nat.

Definition value_counts (l : list string) : list (string * nat) :=
  sort desc_by_count (map (fun k => (k, count_of k l)) (distinct String.eqb l)).

Definition Qmin_list (l : list Q) : Q :=
  match l with
  | [] => 0
  | x :: l' => fold_left Qmin l' x
  end.

Definition Qmax_list (l : list Q) : Q :=
  match l with
  | [] => 0
  | x :: l' => fold_left Qmax l' x
  end.

Definition average (l : list Q) : Q :=
  match l with
  | [] => 0
  | _ => Qsum l / inject_Z (Z.of_nat (List.length l))
  end.

(** [sorted(l)[len(l) // 2]]. *)
Definition median (l : list Q) : Q :=
  nth (Nat.div (List.length l) 2) (sort (asc_by (fun x => x)) l) 0.

Record PriceStats : Type := mkPriceStats {
  price_min : Q;
  price_max : Q;
  price_average : Q;
  price_median : Q
}.

Record RatingStats : Type := mkRatingStats {
  rating_average : Q;
  rating_min : Q;
  rating_max : Q
}.

Record PopularAttributes : Type := mkAttributes {
  top_keywords : list (string * nat);
  price_stats : PriceStats;
  rating_stats : RatingStats;
  total_products_analyzed : nat
}.

(** The result is a dictionary: [None] is the empty one, [{}]. *)
Definition get_popular_attributes (db : Session)
  (platform category : option string) (limit : nat)
  : result (option PopularAttributes) :=
  try_except
    (hot_products <- get_hot_products db platform category "week" 50 ;;
     match hot_products with
     | [] => Ok None
     | _ =>
         let keywords :=
           flat_map (fun p => Product.keywords (product p)) hot_products in
         let keyword_freq := value_counts keywords in
         let top_keywords := firstn limit (sort desc_by_count keyword_freq) in
         let prices :=
           filter (Qltb 0)
             (map (fun p => Product.price (product p)) hot_products) in
         let ratings :=
           filter (Qltb 0)
             (map (fun p => Product.rating (product p)) hot_products) in
         Ok (Some (mkAttributes top_keywords
                     (mkPriceStats (Qmin_list prices) (Qmax_list prices)
                        (average prices) (median prices))
                     (mkRatingStats (average ratings) (Qmin_list ratings)
                        (Qmax_list ratings))
                     (List.length hot_products)))
     end)
    (fun e => Ok None).

(** The score of the value ranking. *)
Definition value_score_of (p : Product.t) : R :=
  (Q2R (Product.rating p) / log1p (Q2R (Product.price p)))%R.

(** [sort_values(..., ascending=False)] on a real-valued column.  The order
    of the reals is decided classically, so this one ranking is defined
    but does not evaluate. *)
Definition desc_by_R {A} (key : A -> R) (x y : A) : bool :=
  if Rle_dec (key y) (key x) then true else false.

Definition get_price_performance_ranking (db : Session)
  (platform category : option string) (limit : nat)
  : result (list ValueProduct) :=
  let session := db in
  try_finally
    (try_except
       (let query := query_Product in
        let query :=
          match truthy platform with
          | Some p => filter_platform query p
          | None => query
          end in
        let query :=
          match truthy category with
          | Some c => filter_category query c
          | None => query
          end in
        products <- all_products session query ;;
        match products with
        | [] => Ok []
        | _ =>
            let df :=
              filter (fun p => Qltb 0 (Product.price p)
                               && Qltb 0 (Product.rating p)) products in
            match df with
            | [] => Ok []
            | _ =>
                let df := map (fun p => (p, value_score_of p)) df in
                let df := firstn limit (sort (desc_by_R snd) df) in
                Ok (map (fun ir => mkValue (fst (snd ir)) (snd (snd ir))
                                     (fst ir))
                        (enumerate 1 df))
            end
        end)
       (fun e => Ok []))
    (close session).

(** [_get_time_threshold]: the start of the named window, in seconds. *)
Definition _get_time_threshold (now : Q) (time_range : string) : Q :=
  if String.eqb time_range "day" then now - 86400
  else if String.eqb time_range "week" then now - 7 * 86400
  else if String.eqb time_range "month" then now - 30 * 86400
  else if String.eqb time_range "year" then now - 365 * 86400
  else now - 7 * 86400.

End RankingEngine.

(** ** data_processing/data_enricher.py *)

Module DataEnricher.

(** The raw product dictionary: a key may be absent or hold [None]. *)
Record product : Type := mkProduct {
  price : option Q;
  rating : option Q
}.

(** [not product.get(key)]: absent, [None] and zero are all falsy. *)
Definition falsy (v : option Q) : bool :=
  match v with
  | None => true
  | Some x => Qeq_bool x 0
  end.

Definition price_rating_ratio (price rating : Q) : R :=
  (Q2R rating / (log1p (Q2R price) + 1))%R.

Definition _calculate_price_rating (p : product) : string :=
  if falsy (price p) || falsy (rating p) then "Unknown"
  else
    match price p, rating p with
    | Some price, Some rating =>
        let ratio := price_rating_ratio price rating in
        if Rlt_dec 1 ratio then "Good Value"
        else if Rlt_dec (1 / 2) ratio then "Fair Value"
        else "Expensive"
    | _, _ => "Unknown"
    end.

(** The product dictionary with the two further keys that
    [_calculate_popularity_score] reads. *)
Record counted_product : Type := mkCounted {
  base : product;
  sales_volume : option Z;
  reviews_count : option Z
}.

(** [_calculate_popularity_score]: a key that is absent, [None] or zero
    adds nothing. *)
Definition _calculate_popularity_score (p : counted_product) : Q :=
  let score := 0 in
  let score :=
    match sales_volume p with
    | Some s => if Z.eqb s 0 then score
                else score + Qmin (inject_Z s / 100) 50
    | None => score
    end in
  let score :=
    match reviews_count p with
    | Some n => if Z.eqb n 0 then score
                else score + Qmin (inject_Z n / 20) 25
    | None => score
    end in
  let score :=
    match rating (base p) with
    | Some r => if Qeq_bool r 0 then score else score + (r / 5) * 25
    | None => score
    end in
  Qmin score 100.

End DataEnricher.

(** ** analytics/trend_analyzer.py

    Timestamps are seconds; a calendar day is the number of whole days
    since the epoch, and [now] is the clock reading of the call.  A float
    that may be NaN is an [option Q], [None] being NaN. *)

Module TrendAnalyzer.
Import Store.

Definition day_of (timestamp : Q) : Z := Qfloor (timestamp / 86400).

(** [pd.date_range(start=..., end=...)]: every day from the first to the
    last, both included. *)
Definition date_range (start_day end_day : Z) : list Z :=
  map (fun i => (start_day + Z.of_nat i)%Z)
      (seq 0 (Z.to_nat (end_day - start_day + 1))).

(** A DataFrame indexed by day: its index and its named columns, each
    column holding one value per index label. *)
Record DataFrame : Type := mkFrame {
  index : list Z;
  columns : list (string * list (option Q))
}.

Definition mean (l : list Q) : Q :=
  Qsum l / inject_Z (Z.of_nat (List.length l)).

(** [rows.groupby(key)[value].agg()]: one row per key, keys in ascending
    order. *)
Section GroupBy.
Variable K : Type.
Variable eqb : K -> K -> bool.
Variable leb : K -> K -> bool.

Definition groupby (agg : list Q -> Q) (rows : list (K * Q)) : list (K * Q) :=
  map (fun k => (k, agg (map snd (filter (fun r => eqb (fst r) k) rows))))
      (sort leb (distinct eqb (map fst rows))).
End GroupBy.

Definition key_eqb (a b : Z * string) : bool :=
  Z.eqb (fst a) (fst b) && String.eqb (snd a) (snd b).

Definition key_leb (a b : Z * string) : bool :=
  Z.ltb (fst a) (fst b) || (Z.eqb (fst a) (fst b) && String.leb (snd a) (snd b)).

Definition cell (grouped : list ((Z * string) * Q)) (d : Z) (c : string)
  : option Q :=
  option_map snd (find (fun r => key_eqb (fst r) (d, c)) grouped).

(** [grouped.pivot(index='date', columns=..., values=...)]: a row per day, a
    column per name, NaN where the pair has no row. *)
Definition pivot (grouped : list ((Z * string) * Q)) : DataFrame :=
  let idx := sort Z.leb (distinct Z.eqb (map (fun r => fst (fst r)) grouped)) in
  let cols :=
    sort String.leb
      (distinct String.eqb (map (fun r => snd (fst r)) grouped)) in
  mkFrame idx (map (fun c => (c, map (fun d => cell grouped d c) idx)) cols).

(** [grouped.set_index('date')] on a frame with one value column. *)
Definition set_index (name : string) (grouped : list (Z * Q)) : DataFrame :=
  mkFrame (map fst grouped) [(name, map (fun r => Some (snd r)) grouped)].

Definition fillna (v : Q) (df : DataFrame) : DataFrame :=
  mkFrame (index df)
    (map (fun c => (fst c,
                    map (fun x => match x with
                                  | Some y => Some y
                                  | None => Some v
                                  end) (snd c)))
         (columns df)).

Fixpoint ffill_from (prev : option Q) (col : list (option Q))
  : list (option Q) :=
  match col with
  | [] => []
  | x :: col' =>
      let v := match x with
               | Some y => Some y
               | None => prev
               end in
      v :: ffill_from v col'
  end.

(** [df.fillna(method='ffill')]. *)
Definition ffill (df : DataFrame) : DataFrame :=
  mkFrame (index df)
    (map (fun c => (fst c, ffill_from None (snd c))) (columns df)).

Definition value_at (idx : list Z) (col : list (option Q)) (d : Z)
  : option Q :=
  match find (fun iv => Z.eqb (fst iv) d) (combine idx col) with
  | Some iv => snd iv
  | None => None
  end.

(** [df.reindex(labels)]: the rows of the labels, NaN for a label the
    frame does not have. *)
Definition reindex (labels : list Z) (df : DataFrame) : DataFrame :=
  mkFrame labels
    (map (fun c => (fst c, map (value_at (index df) (snd c)) labels))
         (columns df)).

(** The values of row [i] that are not NaN. *)
Definition row_values (df : DataFrame) (i : nat) : list Q :=
  flat_map (fun c => match nth i (snd c) None with
                     | Some v => [v]
                     | None => []
                     end)
           (columns df).

(** [df.sum(axis=1)] and [df.mean(axis=1)], NaN skipped. *)
Definition sum_axis1 (df : DataFrame) : list (option Q) :=
  map (fun i => Some (Qsum (row_values df i)))
      (seq 0 (List.length (index df))).

Definition mean_axis1 (df : DataFrame) : list (option Q) :=
  map (fun i => match row_values df i with
                | [] => None
                | vs => Some (mean vs)
                end)
      (seq 0 (List.length (index df))).

Definition set_column (df : DataFrame) (name : string)
  (values : list (option Q)) : DataFrame :=
  mkFrame (index df) (dict_set (columns df) name values).

Definition column (df : DataFrame) (name : string) : list (option Q) :=
  match find (fun c => String.eqb (fst c) name) (columns df) with
  | Some c => snd c
  | None => []
  end.

Definition has_column (df : DataFrame) (name : string) : bool :=
  existsb (fun c => String.eqb (fst c) name) (columns df).

(** [df.to_dict()]: column name to (index label to value). *)
Definition to_dict (df : DataFrame) : list (string * list (Z * option Q)) :=
  map (fun c => (fst c, combine (index df) (snd c))) (columns df).

(** [(last - first) / first * 100 if first > 0 else 0] on the first and the
    last value of a column, both 0 when the frame is empty. *)
Definition rate_of_change (col : list (option Q)) : option Q :=
  match hd (Some 0) col with
  | Some first_day =>
      if Qltb 0 first_day
      then match last col (Some 0) with
           | Some last_day => Some ((last_day - first_day) / first_day * 100)
           | None => None
           end
      else Some 0
  | None => Some 0
  end.

Definition day_of_row (h : ProductHistory.t) : Z :=
  day_of (ProductHistory.date h).

Definition sales_of_row (h : ProductHistory.t) : Q :=
  inject_Z (ProductHistory.sales_volume h).

Record SalesTrend : Type := mkSalesTrend {
  sales_trend_data : list (string * list (Z * option Q));
  sales_growth_rate : option Q;
  sales_analysis_period : Z * Z
}.

Definition history_query (columns : list string) (start_timestamp : Q)
  (platform category : option string) : HistoryQuery :=
  let query :=
    h_filter_date_ge (query_ProductHistory_columns columns)
      start_timestamp in
  let query :=
    match truthy platform with
    | Some p => h_filter_platform query p
    | None => query
    end in
  match truthy category with
  | Some c => h_filter_category query c
  | None => query
  end.

Definition by_day_and (name : ProductHistory.t -> string)
  (value : ProductHistory.t -> Q) (results : list ProductHistory.t)
  : list ((Z * string) * Q) :=
  map (fun h => ((day_of_row h, name h), value h)) results.

Definition by_day (value : ProductHistory.t -> Q)
  (results : list ProductHistory.t) : list (Z * Q) :=
  map (fun h => (day_of_row h, value h)) results.

(** The result is a dictionary: [None] is the empty one, returned when
    the analysis failed. *)
Definition analyze_sales_trend (db : Session) (now : Q)
  (platform category : option string) (days : nat)
  : result (option SalesTrend) :=
  let session := db in
  try_finally
    (try_except
       (let end_time := now in
        let start_time := end_time - inject_Z (Z.of_nat days) * 86400 in
        results <- all_history session
                     (history_query
                        ["date"; "platform"; "category"; "sales_volume"]%string
                        start_time platform category) ;;
        let pivot_df :=
          match truthy platform, truthy category with
          | Some _, None =>
              fillna 0 (pivot (groupby key_eqb key_leb Qsum
                  (by_day_and ProductHistory.category sales_of_row results)))
          | None, Some _ =>
              fillna 0 (pivot (groupby key_eqb key_leb Qsum
                  (by_day_and ProductHistory.platform sales_of_row results)))
          | Some _, Some _ =>
              set_index "sales_volume"
                (groupby Z.eqb Z.leb Qsum (by_day sales_of_row results))
          | None, None =>
              (* summed per (date, platform, category) and then per
                 (date, platform): the sum per (date, platform) *)
              fillna 0 (pivot (groupby key_eqb key_leb Qsum
                  (by_day_and ProductHistory.platform sales_of_row results)))
          end in
        let dates := date_range (day_of start_time) (day_of end_time) in
        let pivot_df := fillna 0 (reindex dates pivot_df) in
        let pivot_df := set_column pivot_df "total" (sum_axis1 pivot_df) in
        Ok (Some (mkSalesTrend (to_dict pivot_df)
                    (rate_of_change (column pivot_df "total"))
                    (day_of start_time, day_of end_time))))
       (fun e => Ok None))
    (close session).

Record CategoryTrend : Type := mkCategoryTrend {
  category_trend_data : list (string * list (Z * option Q));
  category_totals : list (string * Q);
  growth_rates : list (string * option Q);
  category_analysis_period : Z * Z
}.

(** [series.head(5).index.tolist()]. *)
Definition top_categories (category_totals : list (string * Q))
  : list string :=
  map fst (firstn 5 category_totals).

(** The rates are read with [iloc[0]] and [iloc[-1]]: the index holds
    [days + 1] labels, so both exist. *)
Definition analyze_category_trend (db : Session) (now : Q)
  (platform : option string) (days : nat) : result (option CategoryTrend) :=
  let session := db in
  try_finally
    (try_except
       (let end_time := now in
        let start_time := end_time - inject_Z (Z.of_nat days) * 86400 in
        results <- all_history session
                     (history_query ["date"; "category"; "sales_volume"]%string
                        start_time platform None) ;;
        let grouped :=
          groupby key_eqb key_leb Qsum
            (by_day_and ProductHistory.category sales_of_row results) in
        let category_totals :=
          sort (desc_by snd)
            (groupby String.eqb String.leb Qsum
               (map (fun r => (snd (fst r), snd r)) grouped)) in
        let top := top_categories category_totals in
        let filtered_df :=
          filter (fun r => existsb (String.eqb (snd (fst r))) top) grouped in
        let pivot_df := fillna 0 (pivot filtered_df) in
        let dates := date_range (day_of start_time) (day_of end_time) in
        let pivot_df := fillna 0 (reindex dates pivot_df) in
        let growth_rates :=
          map (fun c => (fst c, rate_of_change (snd c))) (columns pivot_df) in
        Ok (Some (mkCategoryTrend (to_dict pivot_df) category_totals
                    growth_rates (day_of start_time, day_of end_time))))
       (fun e => Ok None))
    (close session).

Record PriceTrend : Type := mkPriceTrend {
  price_trend_data : list (string * list (Z * option Q));
  price_change_rate : option Q;
  price_analysis_period : Z * Z
}.

Definition analyze_price_trend (db : Session) (now : Q)
  (platform category : option string) (days : nat)
  : result (option PriceTrend) :=
  let session := db in
  try_finally
    (try_except
       (let end_time := now in
        let start_time := end_time - inject_Z (Z.of_nat days) * 86400 in
        results <- all_history session
                     (history_query ["date"; "platform"; "category"; "price"]%string
                        start_time platform category) ;;
        let pivot_df :=
          match truthy platform, truthy category with
          | Some _, Some _ =>
              set_index "average_price"
                (groupby Z.eqb Z.leb mean
                   (by_day ProductHistory.price results))
          | Some _, None =>
              fillna 0 (pivot (groupby key_eqb key_leb mean
                  (by_day_and ProductHistory.category ProductHistory.price
                     results)))
          | None, Some _ =>
              fillna 0 (pivot (groupby key_eqb key_leb mean
                  (by_day_and ProductHistory.platform ProductHistory.price
                     results)))
          | None, None =>
              fillna 0 (pivot (groupby key_eqb key_leb mean
                  (by_day_and ProductHistory.platform ProductHistory.price
                     results)))
          end in
        let dates := date_range (day_of start_time) (day_of end_time) in
        let pivot_df := ffill (reindex dates pivot_df) in
        let pivot_df :=
          if has_column pivot_df "average_price" then pivot_df
          else set_column pivot_df "average_price" (mean_axis1 pivot_df) in
        Ok (Some (mkPriceTrend (to_dict pivot_df)
                    (rate_of_change (column pivot_df "average_price"))
                    (day_of start_time, day_of end_time))))
       (fun e => Ok None))
    (close session).

(** [a > b] on floats: false when [a] is NaN. *)
Definition nan_gt (a : option Q) (b : Q) : bool :=
  match a with
  | Some x => Qltb b x
  | None => false
  end.

Definition nan_lt (a : option Q) (b : Q) : bool :=
  match a with
  | Some x => Qltb x b
  | None => false
  end.

Definition nan_gt_nan (a b : option Q) : bool :=
  match b with
  | Some y => nan_gt a y
  | None => false
  end.

(** [max(d.items(), key=lambda x: x[1]) if d else (None, default)]: the first
    item whose value no later item exceeds. *)
Definition max_item {V} (gt : V -> V -> bool) (items : list (string * V))
  (default : V) : option string * V :=
  match items with
  | [] => (None, default)
  | x :: l =>
      let best :=
        fold_left (fun best y => if gt (snd y) (snd best) then y else best)
                  l x in
      (Some (fst best), snd best)
  end.

(** The sentences appended to the summary text. *)
Inductive Note : Type :=
| StrongGrowth
| Decline
| StableMarket
| ExplosiveGrowth (category : option string)
| PricesRising
| PricesFalling.

(** [summary_text]: the values the template is filled with, and the
    sentences that follow it. *)
Record SummaryText : Type := mkSummaryText {
  text_period : Z * Z;
  text_sales_growth : option Q;
  text_top_category : option string * Q;
  text_fastest_growing : option string * option Q;
  text_price_change : option Q;
  text_notes : list Note
}.

Inductive TrendSummary : Type :=
| SummaryError (error : string) (sales_trend : option SalesTrend)
    (category_trend : option CategoryTrend) (price_trend : option PriceTrend)
| Summary (summary_text : SummaryText) (sales_trend : SalesTrend)
    (category_trend : CategoryTrend) (price_trend : PriceTrend).

(** What [get_trend_summary] makes of the three analyses once they have
    returned. *)
Definition summary_of (sales_trend : option SalesTrend)
  (category_trend : option CategoryTrend) (price_trend : option PriceTrend)
  : TrendSummary :=
  match sales_trend, category_trend, price_trend with
  | Some st, Some ct, Some pt =>
      let fastest_growing :=
        max_item nan_gt_nan (growth_rates ct) (Some 0) in
      let top_category :=
        max_item (fun a b => Qltb b a) (category_totals ct) 0 in
      let price_change := price_change_rate pt in
      let notes :=
        (if nan_gt (sales_growth_rate st) 20 then [StrongGrowth]
         else if nan_lt (sales_growth_rate st) (-10) then [Decline]
         else [StableMarket])
        ++ (if nan_gt (snd fastest_growing) 50
            then [ExplosiveGrowth (fst fastest_growing)]
            else [])
        ++ (if nan_gt price_change 10 then [PricesRising]
            else if nan_lt price_change (-10) then [PricesFalling]
            else []) in
      Summary
        (mkSummaryText (sales_analysis_period st) (sales_growth_rate st)
           top_category fastest_growing price_change notes)
        st ct pt
  | _, _, _ =>
      SummaryError "Failed to generate trend summary"
        sales_trend category_trend price_trend
  end.

(** [get_trend_summary] as the class ends up defining it: the second
    definition in the file replaces the first.  It has no [try] of its
    own. *)
Definition get_trend_summary (db : Session) (now : Q)
  (platform : option string) (days : nat) : result TrendSummary :=
  sales_trend <- analyze_sales_trend db now platform None days ;;
  category_trend <- analyze_category_trend db now platform days ;;
  price_trend <- analyze_price_trend db now platform None days ;;
  Ok (summary_of sales_trend category_trend price_trend).

(** The query of [get_sales_trend] and [get_rating_trend]. *)
Definition series_query (columns : list string) (start_time : Q)
  (product_id platform category : option string) : HistoryQuery :=
  let query :=
    h_filter_date_ge (query_ProductHistory_columns columns) start_time in
  let query :=
    match truthy product_id with
    | Some i => h_filter_product_id query i
    | None => query
    end in
  let query :=
    match truthy platform with
    | Some p => h_filter_platform query (lower p)
    | None => query
    end in
  let query :=
    match truthy category with
    | Some c => h_filter_category query c
    | None => query
    end in
  h_order_by_date_asc query.

(** The dictionary returned by [get_sales_trend]; a date stands for its
    ['%Y-%m-%d'] text. *)
Record SalesSeries : Type := mkSalesSeries {
  series_dates : list Z;
  series_sales : list Q;
  series_growth_rate : Q
}.

(** [((sales[-1] - sales[0]) / sales[0]) * 100] when [len(sales) > 1] and
    [sales[0] > 0], else 0. *)
Definition growth_between (sales : list Q) : Q :=
  match sales with
  | first_value :: _ :: _ =>
      if Qltb 0 first_value
      then float_mul
             (true_div (last sales first_value - first_value) first_value)
             100
      else 0
  | _ => 0
  end.

Definition get_sales_trend (db : Session) (now : Q)
  (product_id platform category : option string) (days : nat)
  : result SalesSeries :=
  let session := db in
  try_finally
    (try_except
       (let start_time := now - inject_Z (Z.of_nat days) * 86400 in
        results <- all_history session
                     (series_query ["date"; "sales_volume"]%string start_time
                        product_id platform category) ;;
        match results with
        | [] => Ok (mkSalesSeries [] [] 0)
        | _ =>
            match truthy product_id with
            | Some _ =>
                let dates := map day_of_row results in
                let sales := map sales_of_row results in
                Ok (mkSalesSeries dates sales (round2 (growth_between sales)))
            | None =>
                let daily_sales :=
                  groupby Z.eqb Z.leb Qsum (by_day sales_of_row results) in
                let dates := map fst daily_sales in
                let sales := map snd daily_sales in
                Ok (mkSalesSeries dates sales (round2 (growth_between sales)))
            end
        end)
       (fun e => Ok (mkSalesSeries [] [] 0)))
    (close session).

Inductive Trend : Type :=
| stable
| rising
| falling.

(** The dictionary returned by [get_rating_trend]. *)
Record RatingSeries : Type := mkRatingSeries {
  rating_dates : list Z;
  ratings : list Q;
  trend : Trend
}.

(** ['rising'] when the last rating is above the first, ['falling'] when it
    is below, ['stable'] otherwise and when there is one rating. *)
Definition trend_between (ratings : list Q) : Trend :=
  match ratings with
  | first_value :: _ :: _ =>
      let last_value := last ratings first_value in
      if Qltb first_value last_value then rising
      else if Qltb last_value first_value then falling
      else stable
  | _ => stable
  end.

Definition get_rating_trend (db : Session) (now : Q)
  (product_id platform category : option string) (days : nat)
  : result RatingSeries :=
  let session := db in
  try_finally
    (try_except
       (let start_time := now - inject_Z (Z.of_nat days) * 86400 in
        results <- all_history session
                     (series_query ["date"; "rating"]%string start_time
                        product_id platform category) ;;
        match results with
        | [] => Ok (mkRatingSeries [] [] stable)
        | _ =>
            match truthy product_id with
            | Some _ =>
                let dates := map day_of_row results in
                let ratings := map ProductHistory.rating results in
                Ok (mkRatingSeries dates ratings (trend_between ratings))
            | None =>
                let daily_ratings :=
                  groupby Z.eqb Z.leb mean
                    (by_day ProductHistory.rating results) in
                let dates := map fst daily_ratings in
                let ratings := map snd daily_ratings in
                Ok (mkRatingSeries dates ratings (trend_between ratings))
            end
        end)
       (fun e => Ok (mkRatingSeries [] [] stable)))
    (close session).

End TrendAnalyzer.

(** ** data_processing/data_cleaner.py

    The numeric columns of the frame the cleaner works on; the text
    columns play no part in the handling of outliers. *)

Module DataCleaner.
Import TrendAnalyzer.

(** What an assignment under a mask makes of one cell: NaN satisfies no
    comparison and stays. *)
Definition replaced (cond : Q -> bool) (value : Q) (x : option Q)
  : option Q :=
  match x with
  | Some y => if cond y then Some value else Some y
  | None => None
  end.

(** [df.loc[cond(df[name]), name] = value]. *)
Definition set_where (df : DataFrame) (name : string) (cond : Q -> bool)
  (value : Q) : DataFrame :=
  set_column df name (map (replaced cond value) (column df name)).

Definition _handle_outliers (df : DataFrame) : DataFrame :=
  let df :=
    if has_column df "price"
    then set_where df "price" (fun x => Qltb x 0) 0
    else df in
  let df :=
    if has_column df "sales_volume"
    then set_where df "sales_volume" (fun x => Qltb x 0) 0
    else df in
  let df :=
    if has_column df "rating"
    then
      let df := set_where df "rating" (fun x => Qltb x 0) 0 in
      set_where df "rating" (fun x => Qltb 5 x) 5
    else df in
  let df :=
    if has_column df "reviews_count"
    then set_where df "reviews_count" (fun x => Qltb x 0) 0
    else df in
  df.

End DataCleaner.

(** ** storage/database.py

    The read operations of the database manager.  A product row stands
    for the dictionary [to_dict] makes of it. *)

Module DatabaseManager.
Import Store.

(** [get_products]: the platform is compared as it is given, and the
    rows are ordered by the stored [popularity_score]. *)
Definition get_products (db : Session) (platform category : option string)
  (limit : nat) : result (list Product.t) :=
  let session := db in
  try_finally
    (try_except
       (let query := query_Product in
        let query :=
          match truthy platform with
          | Some p => filter_platform query p
          | None => query
          end in
        let query :=
          match truthy category with
          | Some c => filter_category query c
          | None => query
          end in
        let query := order_by_desc query Product.popularity_score in
        let query := Store.limit query limit in
        products <- all_products session query ;;
        Ok products)
       (fun e => Ok []))
    (close session).

(** [get_categories]: the distinct categories that are not empty,
    sorted. *)
Definition get_categories (db : Session) (platform : option string)
  : result (list string) :=
  let session := db in
  try_finally
    (try_except
       (let query := query_Product in
        let query :=
          match truthy platform with
          | Some p => filter_platform query p
          | None => query
          end in
        rows <- all_products session query ;;
        let categories :=
          filter non_empty (distinct String.eqb (map Product.category rows)) in
        Ok (sort String.leb categories))
       (fun e => Ok []))
    (close session).

End DatabaseManager.

(** ** business_logic/orchestrator.py

    The orchestrator holds one database manager, which its ranking engine
    shares: both read the same store. *)

Module SystemOrchestrator.
Import Store RankingEngine.

Definition get_categories (db : Session) (platform : option string)
  : result (list string) :=
  DatabaseManager.get_categories db platform.

Definition get_hot_products (db : Session) (platform category : option string)
  (time_range : string) (limit : nat) : result (list RankedProduct) :=
  RankingEngine.get_hot_products db platform category time_range limit.

(** [get_category_rankings]: the hot ranking of each of the first ten
    categories; [time_range] keeps its default. *)
Definition get_category_rankings (db : Session) (platform : option string)
  (limit_per_category : nat)
  : result (list (string * list RankedProduct)) :=
  categories <- get_categories db platform ;;
  for_each (firstn 10 categories)
    (fun result category =>
       products <- get_hot_products db platform (Some category) "week"
                     limit_per_category ;;
       match products with
       | [] => Ok result
       | _ => Ok (dict_set result category products)
       end)
    [].

(** [numpy.median]: the middle value, the mean of the two middle values
    when their number is even. *)
Definition np_median (a : list Q) : Q :=
  let sorted := sort (asc_by (fun x => x)) a in
  let n := List.length a in
  if Nat.even n
  then (nth (n / 2 - 1) sorted 0 + nth (n / 2) sorted 0) / 2
  else nth (n / 2) sorted 0.

(** [numpy.std]: the square root of the mean squared deviation. *)
Definition np_std (a : list Q) : R :=
  let mu := Q2R (TrendAnalyzer.mean a) in
  sqrt (fold_right Rplus 0%R
          (map (fun x => ((Q2R x - mu) * (Q2R x - mu))%R) a)
        / INR (List.length a)).

Record RatingArrayStats : Type := mkRatingArrayStats {
  stats_count : nat;
  stats_min : Q;
  stats_max : Q;
  stats_mean : Q;
  stats_median : Q;
  rating_std : R
}.

(** The bounds of bucket [i]: [i - 0.5 if i > 0 else 0] and
    [i + 0.5 if i < 5 else 5]. *)
Definition bucket_lower (i : Z) : Q :=
  if (0 <? i)%Z then inject_Z i - (1 # 2) else 0.

Definition bucket_upper (i : Z) : Q :=
  if (i <? 5)%Z then inject_Z i + (1 # 2) else 5.

(** [((rating_array >= lower) & (rating_array < upper)).sum()]. *)
Definition bucket_count (rating_array : list Q) (i : Z) : nat :=
  let lower := bucket_lower i in
  let upper := bucket_upper i in
  List.length
    (filter (fun r => Qle_bool lower r && Qltb r upper) rating_array).

(** The result of [analyze_rating_distribution]; a key of the
    distribution stands for its decimal text. *)
Record RatingDistribution : Type := mkRatingDistribution {
  rating_array_stats : RatingArrayStats;
  rating_distribution : list (Z * nat)
}.

(** [None] is the empty dictionary. *)
Definition analyze_rating_distribution (db : Session)
  (platform : option string) : result (option RatingDistribution) :=
  let session := db in
  try_finally
    (try_except
       (let query := query_Product in
        let query :=
          match truthy platform with
          | Some p => filter_platform query p
          | None => query
          end in
        rows <- all_products session query ;;
        let ratings := filter (Qltb 0) (map Product.rating rows) in
        match ratings with
        | [] => Ok None
        | _ =>
            let rating_array := ratings in
            let stats :=
              mkRatingArrayStats (List.length rating_array)
                (Qmin_list rating_array) (Qmax_list rating_array)
                (TrendAnalyzer.mean rating_array) (np_median rating_array)
                (np_std rating_array) in
            let rating_distribution :=
              map (fun i => (i, bucket_count rating_array i))
                  [0; 1; 2; 3; 4; 5]%Z in
            Ok (Some (mkRatingDistribution stats rating_distribution))
        end)
       (fun e => Ok None))
    (close session).

End SystemOrchestrator.

(** ** Properties: vocabulary *)

Module Spec.
Import Store RankingEngine.

(** A list in descending order of a rational key. *)
Definition sorted_desc {A} (key : A -> Q) (l : list A) : Prop :=
  Sorted (fun x y => key y <= key x) l.

(** A list in descending order of a real key. *)
Definition sorted_desc_R {A} (key : A -> R) (l : list A) : Prop :=
  Sorted (fun x y => (key y <= key x)%R) l.

(** Every entry's rank is its position, counted from 1. *)
Definition ranked_by_position {A} (rank : A -> nat) (l : list A) : Prop :=
  forall i e, nth_error l i = Some e -> rank e = S i.

(** The products a ranking is asked about: those of the platform and of
    the category, where one is given; [norm] is what the ranking does to the
    platform name before it compares. *)
Definition selected_by (norm : string -> string)
  (platform category : option string) (p : Product.t) : bool :=
  match truthy platform with
  | Some v => String.eqb (Product.platform p) (norm v)
  | None => true
  end
  && match truthy category with
     | Some c => String.eqb (Product.category p) c
     | None => true
     end.

(** The hot and the rising ranking compare the platform in lower case. *)
Definition candidates (db : DB) (platform category : option string)
  : list Product.t :=
  filter (selected_by lower platform category) (products db).

(** The value ranking compares the platform as it is given. *)
Definition candidates_as_given (db : DB) (platform category : option string)
  : list Product.t :=
  filter (selected_by (fun v => v) platform category) (products db).

(** A store with nothing to give: every product query raises or returns
    no row. *)
Definition no_data (s : Session) : Prop :=
  forall q, (exists e, all_products s q = Raise e) \/ all_products s q = Ok [].

(** The snapshots a trend analysis reads: those of the last [days] days,
    and of the platform and the category where one is given. *)
Definition in_trend_window (now : Q) (days : nat)
  (platform category : option string) (h : ProductHistory.t) : bool :=
  Qle_bool (now - inject_Z (Z.of_nat days) * 86400) (ProductHistory.date h)
  && match truthy platform with
     | Some v => String.eqb (ProductHistory.platform h) v
     | None => true
     end
  && match truthy category with
     | Some c => String.eqb (ProductHistory.category h) c
     | None => true
     end.

(** The platform and the category a trend analysis is asked about, as it
    compares them. *)
Definition in_trend_scope (platform category : option string)
  (h : ProductHistory.t) : bool :=
  match truthy platform with
  | Some v => String.eqb (ProductHistory.platform h) v
  | None => true
  end
  && match truthy category with
     | Some c => String.eqb (ProductHistory.category h) c
     | None => true
     end.


(** The snapshots of a product taken in the last [days] days, by date. *)
Definition history_window (db : DB) (now : Q) (days : nat)
  (product_id : string) : list ProductHistory.t :=
  sort (asc_by ProductHistory.date)
    (filter (fun h => String.eqb (ProductHistory.product_id h) product_id
                      && Qle_bool (now - inject_Z (Z.of_nat days) * 86400)
                                  (ProductHistory.date h))
            (product_history db)).

(** The growth in percent from a first to a last snapshot, exact. *)
Definition growth_percent (first_record last_record : ProductHistory.t) : Q :=
  inject_Z (ProductHistory.sales_volume last_record
            - ProductHistory.sales_volume first_record)
  / inject_Z (ProductHistory.sales_volume first_record) * 100.

(** The same growth as Python computes it: the quotient of the two
    integers is the nearest double, and so is its product with 100. *)
Definition float_growth_percent (first_record last_record : ProductHistory.t)
  : Q :=
  float_mul
    (true_div
       (inject_Z (ProductHistory.sales_volume last_record
                  - ProductHistory.sales_volume first_record))
       (inject_Z (ProductHistory.sales_volume first_record)))
    100.

(** The snapshots a series is drawn from: those of the last [days] days,
    and of the product, of the platform in lower case and of the category,
    where one is given. *)
Definition in_series_window (now : Q) (days : nat)
  (product_id platform category : option string) (h : ProductHistory.t)
  : bool :=
  Qle_bool (now - inject_Z (Z.of_nat days) * 86400) (ProductHistory.date h)
  && match truthy product_id with
     | Some i => String.eqb (ProductHistory.product_id h) i
     | None => true
     end
  && match truthy platform with
     | Some v => String.eqb (ProductHistory.platform h) (lower v)
     | None => true
     end
  && match truthy category with
     | Some c => String.eqb (ProductHistory.category h) c
     | None => true
     end.

(** An assignment under a mask that is made when the frame has the
    column. *)
Definition assigned_if_present (name : string) (cond : Q -> bool) (value : Q)
  (df : TrendAnalyzer.DataFrame) : TrendAnalyzer.DataFrame :=
  if TrendAnalyzer.has_column df name
  then DataCleaner.set_where df name cond value
  else df.

(** A count or a number read from a dictionary, 0 when the key is absent
    or holds [None]. *)
Definition int_or_zero (v : option Z) : Z :=
  match v with
  | Some x => x
  | None => 0%Z
  end.

Definition num_or_zero (v : option Q) : Q :=
  match v with
  | Some x => x
  | None => 0
  end.

(** The label of the default price range a price falls in. *)
Definition default_bucket (price : Q) : string :=
  if Qltb price 50 then "低价"
  else if Qltb price 200 then "中价"
  else if Qltb price 1000 then "高价"
  else "奢侈品".

End Spec.

(** ** Concrete stores used by the examples *)

Module Examples.
Import Store.

(** A product as [save_product] stores it: the popularity score is
    computed from the other fields. *)
Definition stored (product_id platform category : string) (price : Q)
  (sales_volume : Z) (rating : Q) (reviews_count : Z) : Product.t :=
  fst (Product.calculate_popularity_score
         (Product.mk 0 platform product_id product_id price sales_volume
            rating reviews_count category 0 [])).

Definition snapshot (product_id platform category : string) (date : Q)
  (price : Q) (sales_volume : Z) : ProductHistory.t :=
  ProductHistory.mk 0 product_id platform category date price sales_volume
    0 0.

Definition all_rounder : Product.t :=
  stored "B" "amazon" "toys" 10 1000 5 500.

(** One product whose sales went 100, 150, 300 on three days; the clock
    reads the third day. *)
Definition product_x : Product.t := stored "X" "amazon" "toys" 10 300 4 20.
Definition tripled_db : DB :=
  mkDB [product_x]
       [ snapshot "X" "amazon" "toys" 86400 10 100;
         snapshot "X" "amazon" "toys" 172800 10 150;
         snapshot "X" "amazon" "toys" 259200 10 300 ].

(** One product whose sales went from 3 to 4. *)
Definition product_y : Product.t := stored "Y" "amazon" "toys" 10 4 4 20.
Definition third_db : DB :=
  mkDB [product_y]
       [ snapshot "Y" "amazon" "toys" 86400 10 3;
         snapshot "Y" "amazon" "toys" 172800 10 4 ].


(** Two platforms observed on day 1, only one of them on day 2. *)
Definition gap_db : DB :=
  mkDB []
       [ snapshot "P1" "amazon" "toys" 86400 10 5;
         snapshot "P2" "tiktok" "toys" 86400 20 7;
         snapshot "P1" "amazon" "toys" 172800 12 6 ].


(** A store whose history table lacks the [price] column: a query that
    selects it raises, every other query is answered from [gap_db]. *)
Definition no_price_column : Session :=
  mkSession
    (fun q => Ok (run_product_query gap_db q))
    (fun q => if existsb (String.eqb "price") (h_columns q)
              then Raise (Exception "OperationalError")
              else Ok (run_history_query gap_db q)).

(** One product whose sales went from 160 to 183. *)
Definition product_z : Product.t := stored "Z" "amazon" "toys" 10 183 4 20.
Definition eighth_db : DB :=
  mkDB [product_z]
       [ snapshot "Z" "amazon" "toys" 86400 10 160;
         snapshot "Z" "amazon" "toys" 172800 10 183 ].

(** Pairs of integers [a], [b] with [-30 <= a < 30] and [1 <= b <= 60], and
    the comparison of the quotient [a / b] and of its product with 100
    with those of the machine. *)
Definition quotients : list (Z * Z) :=
  flat_map (fun a => map (fun b => ((Z.of_nat a - 30)%Z, Z.of_nat (S b)))
                         (seq 0 60))
           (seq 0 60).

Definition machine_agrees (ab : Z * Z) : bool :=
  let (a, b) := ab in
  Qeq_bool
    (float_value (PrimFloat.div (float_of_Z a) (float_of_Z b)))
    (true_div (inject_Z a) (inject_Z b))
  && Qeq_bool
       (float_value
          (PrimFloat.mul (PrimFloat.div (float_of_Z a) (float_of_Z b))
             (float_of_Z 100)))
       (float_mul (true_div (inject_Z a) (inject_Z b)) 100).

End Examples.

(** ** Properties of the Python prelude *)

Section SortFacts.
Variable A : Type.
Variable before : A -> A -> bool.

Lemma insert_perm (x : A) (l : list A) :
  Permutation (insert before x l) (x :: l).
Proof.
  induction l as [|y l IH]; simpl.
  - apply Permutation_refl.
  - destruct (before x y).
    + apply Permutation_refl.
    + eapply Permutation_trans.
      * apply perm_skip, IH.
      * apply perm_swap.
Qed.

Lemma sort_perm (l : list A) : Permutation (sort before l) l.
Proof.
  induction l as [|x l IH]; simpl.
  - constructor.
  - eapply Permutation_trans.
    + apply insert_perm.
    + apply perm_skip, IH.
Qed.

Lemma sort_In (l : list A) (x : A) : In x (sort before l) <-> In x l.
Proof.
  split; apply Permutation_in.
  - apply sort_perm.
  - apply Permutation_sym, sort_perm.
Qed.

Lemma sort_length (l : list A) : List.length (sort before l) = List.length l.
Proof. apply Permutation_length, sort_perm. Qed.

Hypothesis before_total : forall a b, before a b = false -> before b a = true.

Lemma insert_sorted (x : A) (l : list A) :
  Sorted (fun a b => before a b = true) l ->
  Sorted (fun a b => before a b = true) (insert before x l).
Proof.
  induction l as [|y l IH]; simpl; intro Hs.
  - repeat constructor.
  - destruct (before x y) eqn:Hxy.
    + constructor; [assumption | constructor; assumption].
    + inversion Hs as [|? ? Hl Hhd]; subst.
      constructor; [apply IH; assumption |].
      destruct l as [|z l]; simpl.
      * constructor. apply before_total, Hxy.
      * destruct (before x z) eqn:Hxz.
        -- constructor. apply before_total, Hxy.
        -- inversion Hhd; subst. constructor. assumption.
Qed.

Lemma sort_sorted (l : list A) :
  Sorted (fun a b => before a b = true) (sort before l).
Proof.
  induction l as [|x l IH]; simpl.
  - constructor.
  - apply insert_sorted, IH.
Qed.

End SortFacts.

Section ListFacts.
Variable A : Type.

Lemma Sorted_firstn (R : A -> A -> Prop) (n : nat) (l : list A) :
  Sorted R l -> Sorted R (firstn n l).
Proof.
  revert l; induction n as [|n IH]; intros l Hs; simpl.
  - constructor.
  - destruct l as [|x l]; [constructor |].
    inversion Hs as [|? ? Hl Hhd]; subst.
    constructor; [apply IH; assumption |].
    destruct l as [|y l]; destruct n; simpl; constructor.
    inversion Hhd; assumption.
Qed.

Lemma In_firstn (n : nat) (l : list A) (x : A) :
  In x (firstn n l) -> In x l.
Proof.
  revert l; induction n as [|n IH]; intros [|y l] H; simpl in H;
    try contradiction.
  destruct H as [H | H]; [left; exact H | right; apply IH; exact H].
Qed.


Lemma enumerate_length (s : nat) (l : list A) :
  List.length (enumerate s l) = List.length l.
Proof.
  revert s; induction l as [|x l IH]; intro s; simpl; [reflexivity |].
  now rewrite IH.
Qed.

Lemma enumerate_nth (l : list A) (s i : nat) (e : nat * A) :
  nth_error (enumerate s l) i = Some e -> fst e = (s + i)%nat.
Proof.
  revert s i; induction l as [|x l IH]; intros s i H.
  - destruct i; discriminate.
  - destruct i as [|i]; simpl in H.
    + injection H as <-. simpl. lia.
    + apply IH in H. lia.
Qed.

Lemma enumerate_snd (s : nat) (l : list A) : map snd (enumerate s l) = l.
Proof.
  revert s; induction l as [|x l IH]; intro s; simpl; [reflexivity |].
  now rewrite IH.
Qed.

End ListFacts.

Lemma desc_by_total (A : Type) (key : A -> Q) (a b : A) :
  Store.desc_by key a b = false -> Store.desc_by key b a = true.
Proof.
  unfold Store.desc_by. intro H.
  apply Qle_bool_iff. apply Qlt_le_weak, Qnot_le_lt.
  intro Hle. apply Qle_bool_iff in Hle. congruence.
Qed.

Lemma sort_desc_sorted (A : Type) (key : A -> Q) (l : list A) :
  Spec.sorted_desc key (sort (Store.desc_by key) l).
Proof.
  unfold Spec.sorted_desc.
  eapply Sorted_ind with
    (P := fun l => Sorted (fun x y => key y <= key x) l)
    (R := fun a b => Store.desc_by key a b = true).
  - constructor.
  - intros a l' _ IH Hhd. constructor; [exact IH |].
    destruct Hhd; constructor.
    apply Qle_bool_iff. assumption.
  - apply sort_sorted. apply desc_by_total.
Qed.

(** ** Properties of the scoring model *)

Section PopularityScore.
Import Product.

Lemma capped_share_bounds (n : Z) (d : Q) :
  0 < d -> (0 <= n)%Z -> 0 <= Qmin (inject_Z n / d) 1 <= 1.
Proof.
  intros Hd Hn. split.
  - apply Q.min_glb; [| discriminate].
    apply Qle_shift_div_l; [assumption |].
    rewrite Qmult_0_l. rewrite Zle_Qle in Hn. exact Hn.
  - apply Q.le_min_r.
Qed.

Lemma capped_share_monotone (n m : Z) (d : Q) :
  0 < d -> (n <= m)%Z -> Qmin (inject_Z n / d) 1 <= Qmin (inject_Z m / d) 1.
Proof.
  intros Hd Hnm. apply Q.min_le_compat_r.
  apply Qmult_le_compat_r.
  - rewrite Zle_Qle in Hnm. exact Hnm.
  - apply Qlt_le_weak, Qinv_lt_0_compat, Hd.
Qed.

Lemma weighted_sum_le (a r v a' r' v' : Q) :
  a <= a' -> r <= r' -> v <= v' ->
  a * 60 + r / 5 * 25 + v * 15 <= a' * 60 + r' / 5 * 25 + v' * 15.
Proof.
  intros Ha Hr Hv.
  assert (Hdiv : forall x, x / 5 * 25 == x * 5) by (intro x; field).
  rewrite !Hdiv. lra.
Qed.

(** C2. For a product whose rating lies in [0,5] and whose sales volume and
    review count are not negative, the popularity score lies in [0,100];
    and the score does not decrease when one of sales volume, rating and
    review count grows while the other two stay as they are. *)
Theorem popularity_score_bounded_and_monotone (p : Product.t) :
  0 <= rating p <= 5 ->
  (0 <= sales_volume p)%Z ->
  (0 <= reviews_count p)%Z ->
  (0 <= snd (calculate_popularity_score p) <= 100)
  /\ (forall p', rating p' == rating p -> reviews_count p' = reviews_count p ->
                 (sales_volume p <= sales_volume p')%Z ->
                 snd (calculate_popularity_score p)
                 <= snd (calculate_popularity_score p'))
  /\ (forall p', sales_volume p' = sales_volume p ->
                 reviews_count p' = reviews_count p ->
                 rating p <= rating p' ->
                 snd (calculate_popularity_score p)
                 <= snd (calculate_popularity_score p'))
  /\ (forall p', sales_volume p' = sales_volume p ->
                 rating p' == rating p ->
                 (reviews_count p <= reviews_count p')%Z ->
                 snd (calculate_popularity_score p)
                 <= snd (calculate_popularity_score p')).
Proof.
  intros [Hr0 Hr5] Hs Hv. unfold calculate_popularity_score; simpl.
  assert (H1000 : 0 < 1000) by reflexivity.
  assert (H500 : 0 < 500) by reflexivity.
  pose proof (capped_share_bounds H1000 Hs) as [Hs0 Hs1].
  pose proof (capped_share_bounds H500 Hv) as [Hv0 Hv1].
  split; [split | split; [| split]].
  - eapply Qle_trans;
      [| apply weighted_sum_le; [exact Hs0 | exact Hr0 | exact Hv0]].
    compute; discriminate.
  - eapply Qle_trans;
      [apply weighted_sum_le; [exact Hs1 | exact Hr5 | exact Hv1] |].
    compute; discriminate.
  - intros p' Hr Hv' Hle. rewrite Hv'.
    apply weighted_sum_le;
      [apply capped_share_monotone; assumption
      | rewrite Hr; apply Qle_refl | apply Qle_refl].
  - intros p' Hs' Hv' Hle. rewrite Hs', Hv'.
    apply weighted_sum_le; [apply Qle_refl | exact Hle | apply Qle_refl].
  - intros p' Hs' Hr Hle. rewrite Hs'.
    apply weighted_sum_le;
      [apply Qle_refl | rewrite Hr; apply Qle_refl
      | apply capped_share_monotone; assumption].
Qed.

End PopularityScore.

(** The theorem at a stored product with 1000 sales, rating 5 and 500
    reviews. *)
Lemma popularity_score_of_all_rounder :
  0 <= snd (Product.calculate_popularity_score Examples.all_rounder) <= 100.
Proof.
  apply (popularity_score_bounded_and_monotone Examples.all_rounder).
  - split; vm_compute; discriminate.
  - vm_compute; discriminate.
  - vm_compute; discriminate.
Defined.

(** ** Properties of the hot ranking *)

Section HotRanking.
Import Store RankingEngine Spec.

Lemma with_rank_products (l : list Product.t) :
  map product (with_rank l) = l.
Proof.
  unfold with_rank. rewrite map_map. simpl. apply enumerate_snd.
Qed.

Lemma with_rank_length (l : list Product.t) :
  List.length (with_rank l) = List.length l.
Proof.
  unfold with_rank. rewrite length_map. apply enumerate_length.
Qed.





(** C10. The hot ranking does not read its [time_range] argument: whatever
    the store answers, two calls that differ only in [time_range] return
    the same result. *)
Theorem hot_products_independent_of_time_range (db : Session)
  (platform category : option string) (t1 t2 : string) (limit : nat) :
  get_hot_products db platform category t1 limit
  = get_hot_products db platform category t2 limit.
Proof.
  unfold get_hot_products.
  destruct (truthy platform), (truthy category); reflexivity.
Qed.

End HotRanking.

(** ** Binary floating point *)

Section BinaryFloats.

Lemma round_half_even_floor (q : Q) : (Qfloor q <= round_half_even q)%Z.
Proof.
  unfold round_half_even.
  destruct (Qcompare (q - inject_Z (Qfloor q)) (1 # 2)); try lia.
  destruct (Z.even (Qfloor q)); lia.
Qed.

Lemma double_zero (x : Q) : x == 0 -> double x = 0.
Proof.
  intro H. unfold double. apply Qeq_bool_iff in H. rewrite H. reflexivity.
Qed.

Lemma binade_le (y : Q) (b : Z) :
  (0 <= b)%Z -> 0 < y -> y <= inject_Z (2 ^ b) -> (binade y <= b)%Z.
Proof.
  intros Hb Hy Hle. unfold binade.
  assert (He : (Z.log2 (Qnum y) - Z.log2 (Zpos (Qden y)) <= b)%Z).
  { destruct y as [n d]. unfold Qle in Hle. cbn [Qnum Qden inject_Z] in *.
    assert (Hn : (n <= Zpos d * 2 ^ b)%Z)
      by (rewrite Z.mul_1_r, Z.mul_comm in Hle; exact Hle).
    apply Z.log2_le_mono in Hn.
    rewrite Z.log2_mul_pow2 in Hn by lia. lia. }
  destruct (Qle_bool _ y); lia.
Qed.

Lemma round_half_even_ge (z : Z) (q : Q) :
  inject_Z z <= q -> (z <= round_half_even q)%Z.
Proof.
  intro H. eapply Z.le_trans; [| apply round_half_even_floor].
  rewrite <- (Qfloor_Z z). apply Qfloor_resp_le, H.
Qed.

Lemma pow2_pos (k : Z) : 0 < pow2 k.
Proof.
  unfold pow2. destruct (0 <=? k)%Z eqn:E.
  - rewrite <- (Zlt_Qlt 0). apply Z.pow_pos_nonneg; [lia |].
    apply Z.leb_le, E.
  - apply Z.leb_gt in E. apply Qlt_shift_div_l.
    + rewrite <- (Zlt_Qlt 0). apply Z.pow_pos_nonneg; lia.
    + rewrite Qmult_0_l. reflexivity.
Qed.

Lemma pow2_nonpos (k : Z) :
  (k <= 0)%Z -> pow2 k * inject_Z (2 ^ (- k)) == 1.
Proof.
  intro H. unfold pow2. destruct (0 <=? k)%Z eqn:E.
  - apply Z.leb_le in E. assert (k = 0%Z) by lia. subst k. reflexivity.
  - field. intro H0.
    assert (Hp : (0 < 2 ^ (- k))%Z) by (apply Z.pow_pos_nonneg; lia).
    rewrite Zlt_Qlt in Hp. rewrite H0 in Hp. discriminate Hp.
Qed.

(** Rounding to a double does not cross an integer of moderate size. *)
Lemma double_lower_bound (N : Z) (x : Q) :
  (0 <= N <= 2 ^ 52)%Z -> - inject_Z N <= x -> - inject_Z N <= double x.
Proof.
  intros HN Hx. unfold double.
  assert (HN0 : 0 <= inject_Z N) by (rewrite <- (Zle_Qle 0); lia).
  destruct (Qeq_bool x 0) eqn:E0; [lra |].
  set (e := Z.max (binade (Qabs x)) (-1022)).
  pose proof (pow2_pos (e - 52)) as Hq.
  rewrite Qred_correct.
  destruct (Qlt_le_dec x 0) as [Hneg | Hpos].
  - assert (He : (e - 52 <= 0)%Z).
    { unfold e. apply Z.max_case_strong; intros _; [| lia].
      assert (Hb : (binade (Qabs x) <= 52)%Z).
      { apply binade_le; [lia | |].
        - rewrite Qabs_neg by lra. lra.
        - rewrite Qabs_neg by lra.
          assert (H52 : inject_Z N <= inject_Z (2 ^ 52))
            by (rewrite <- Zle_Qle; lia).
          lra. }
      lia. }
    pose proof (pow2_nonpos He) as Hinv.
    set (P := (2 ^ (- (e - 52)))%Z) in *.
    assert (HP : 0 < inject_Z P).
    { rewrite <- (Zlt_Qlt 0). unfold P. apply Z.pow_pos_nonneg; lia. }
    assert (Hdiv : x / pow2 (e - 52) == x * inject_Z P).
    { apply Qmult_inj_r with (pow2 (e - 52)); [lra |].
      unfold Qdiv. rewrite <- !Qmult_assoc.
      rewrite (Qmult_comm (/ _)), Qmult_inv_r by lra.
      rewrite (Qmult_comm (inject_Z P)), Hinv. reflexivity. }
    assert (Hr : (- N * P <= round_half_even (x / pow2 (e - 52)))%Z).
    { apply round_half_even_ge. rewrite Hdiv, inject_Z_mult, inject_Z_opp.
      nra. }
    rewrite Zle_Qle, inject_Z_mult, inject_Z_opp in Hr.
    revert Hr Hinv HP Hq.
    generalize (inject_Z (round_half_even (x / pow2 (e - 52)))).
    generalize (pow2 (e - 52)), (inject_Z P). intros q p r Hr Hinv HP Hq.
    nra.
  - assert (Hr : (0 <= round_half_even (x / pow2 (e - 52)))%Z).
    { apply round_half_even_ge. change (inject_Z 0) with 0.
      apply Qle_shift_div_l; [exact Hq | lra]. }
    rewrite Zle_Qle in Hr. change (inject_Z 0) with 0 in Hr.
    revert Hr Hq. generalize (inject_Z (round_half_even (x / pow2 (e - 52)))).
    generalize (pow2 (e - 52)). intros; nra.
Qed.

Lemma round2_equal (q q' : Q) : q == q' -> round2 q = round2 q'.
Proof.
  intro H. unfold round2, round_half_even.
  assert (Hf : Qfloor (q * 100) = Qfloor (q' * 100))
    by (apply Qfloor_comp; rewrite H; reflexivity).
  rewrite Hf.
  assert (Hc : Qcompare (q * 100 - inject_Z (Qfloor (q' * 100))) (1 # 2)
               = Qcompare (q' * 100 - inject_Z (Qfloor (q' * 100))) (1 # 2))
    by (apply Qcompare_comp; [rewrite H; reflexivity | reflexivity]).
  rewrite Hc. reflexivity.
Qed.

Lemma round2_lower_bound (q : Q) : -100 <= q -> -100 <= round2 q.
Proof.
  intro H. unfold round2.
  apply (@double_lower_bound 100); [split; [lia | now vm_compute] |].
  assert (Hz : (-10000 <= round_half_even (q * 100))%Z).
  { apply round_half_even_ge. change (inject_Z (-10000)) with (-10000). lra. }
  change (- inject_Z 100) with (-100).
  apply Qle_shift_div_l; [reflexivity |].
  rewrite Zle_Qle in Hz. exact Hz.
Qed.

(** The rounding agrees with the machine's division and multiplication
    on 3600 quotients of small integers. *)
Example double_agrees_with_the_machine :
  forallb Examples.machine_agrees Examples.quotients = true.
Proof. vm_compute. reflexivity. Qed.

(** The quotient 23 / 160 is not a double; its product with 100 is the
    double just below 14.375, which [round(x, 2)] takes to 14.37. *)
Example growth_from_160_to_183 :
  float_mul (true_div 23 160) 100 < 14375 # 1000
  /\ round2 (float_mul (true_div 23 160) 100) = double (1437 # 100)
  /\ ~ double (1437 # 100) == double (1438 # 100).
Proof.
  split; [vm_compute; reflexivity |]. split; [vm_compute; reflexivity |].
  intro H. vm_compute in H. discriminate H.
Qed.

End BinaryFloats.

(** ** Properties of the rising ranking *)

Section RisingRanking.
Import Store RankingEngine Spec.

Lemma candidate_query (norm : string -> string) (db : DB)
  (platform category : option string) :
  run_product_query db
    (match truthy category with
     | Some c =>
         filter_category
           (match truthy platform with
            | Some p => filter_platform query_Product (norm p)
            | None => query_Product
            end) c
     | None =>
         match truthy platform with
         | Some p => filter_platform query_Product (norm p)
         | None => query_Product
         end
     end)
  = filter (selected_by norm platform category) (products db).
Proof.
  unfold run_product_query.
  assert (Hext : forall q,
             where_product_id q = None -> where_price_ge q = None ->
             where_price_lt q = None ->
             forall p, product_matches q p
                       = eq_filter (where_platform q) (Product.platform p)
                         && eq_filter (where_category q) (Product.category p)).
  { intros q H1 H2 H3 p0. unfold product_matches. rewrite H1, H2, H3. simpl.
    now rewrite !andb_true_r. }
  destruct (truthy platform) as [v|] eqn:Hp, (truthy category) as [c|] eqn:Hc;
    simpl; apply filter_ext; intro p0; rewrite Hext by reflexivity;
    unfold selected_by; rewrite Hp, Hc; reflexivity.
Qed.

Lemma window_query (db : DB) (now : Q) (days : nat) (pid : string) :
  run_history_query db
    (h_order_by_date_asc
       (h_filter_date_ge (h_filter_product_id query_ProductHistory pid)
          (now - inject_Z (Z.of_nat days) * 86400)))
  = history_window db now days pid.
Proof.
  unfold run_history_query, history_window. simpl. f_equal.
  apply filter_ext. intro h. unfold history_matches. simpl.
  now rewrite !andb_true_r.
Qed.

Lemma first_by_product_id (db : DB) (pid : string) :
  In pid (map Product.product_id (products db)) ->
  exists p rest,
    run_product_query db
      (Store.limit (filter_by_product_id query_Product pid) 1) = p :: rest
    /\ Product.product_id p = pid.
Proof.
  intro Hin. unfold run_product_query. simpl.
  apply in_map_iff in Hin as (p0 & Hid & Hp0).
  assert (Hf : In p0 (filter (product_matches
                                (Store.limit
                                   (filter_by_product_id query_Product pid) 1))
                             (products db))).
  { apply filter_In. split; [assumption |].
    unfold product_matches. simpl. rewrite Hid, String.eqb_refl. reflexivity. }
  destruct (filter _ (products db)) as [|p rest] eqn:Hfl; [destruct Hf |].
  exists p, []. split; [reflexivity |].
  assert (Hp : In p (p :: rest)) by (left; reflexivity).
  rewrite <- Hfl in Hp. apply filter_In in Hp as [_ Hm].
  unfold product_matches in Hm. simpl in Hm.
  rewrite !andb_true_r in Hm. apply String.eqb_eq in Hm. exact Hm.
Qed.

Lemma rising_entry_connect (db : DB) (now : Q) (days : nat) (pid : string) :
  In pid (map Product.product_id (products db)) ->
  exists p,
    rising_entry (connect db) (now - inject_Z (Z.of_nat days) * 86400) pid
    = Ok (Some (p, round2 (growth_of (history_window db now days pid))))
    /\ Product.product_id p = pid.
Proof.
  intro Hin.
  destruct (first_by_product_id db pid Hin) as (p & rest & Hq & Hid).
  exists p. split; [| exact Hid].
  unfold rising_entry. cbn [connect all_products all_history bind].
  rewrite Hq. cbn [bind]. rewrite window_query. reflexivity.
Qed.

(** The loop gives every product id one entry, in the order of the ids,
    scored from the product's history in the window. *)
Lemma products_with_growth_all (db : DB) (now : Q) (days : nat)
  (ids : list string) :
  (forall pid, In pid ids -> In pid (map Product.product_id (products db))) ->
  map (fun e => Product.product_id (fst e))
      (products_with_growth (connect db)
         (now - inject_Z (Z.of_nat days) * 86400) ids) = ids
  /\ Forall (fun e => snd e
                      = round2 (growth_of
                                  (history_window db now days
                                     (Product.product_id (fst e)))))
            (products_with_growth (connect db)
               (now - inject_Z (Z.of_nat days) * 86400) ids).
Proof.
  induction ids as [|pid ids IH]; intro Hall.
  - split; [reflexivity | constructor].
  - destruct IH as [IHm IHf].
    { intros x Hx. apply Hall. right. exact Hx. }
    destruct (@rising_entry_connect db now days pid) as (p & He & Hid).
    { apply Hall. left. reflexivity. }
    unfold products_with_growth in *. cbn [flat_map].
    rewrite He. cbn [app map fst]. split.
    + rewrite IHm, Hid. reflexivity.
    + constructor; [simpl; rewrite Hid; reflexivity | exact IHf].
Qed.

Lemma growth_of_two_or_more (first_record second : ProductHistory.t)
  (rest : list ProductHistory.t) :
  (0 < ProductHistory.sales_volume first_record)%Z ->
  growth_of (first_record :: second :: rest)
  = float_growth_percent first_record
      (last (first_record :: second :: rest) first_record).
Proof.
  intro Hpos. unfold growth_of, float_growth_percent.
  apply Z.ltb_lt in Hpos. rewrite Hpos. reflexivity.
Qed.

Lemma growth_of_short (h : list ProductHistory.t) :
  (List.length h < 2)%nat -> growth_of h = 0.
Proof.
  destruct h as [|a [|b h]]; simpl; intro H; try reflexivity; lia.
Qed.

Lemma growth_of_no_base (first_record : ProductHistory.t)
  (rest : list ProductHistory.t) :
  (ProductHistory.sales_volume first_record <= 0)%Z ->
  growth_of (first_record :: rest) = 0.
Proof.
  intro H. destruct rest as [|b rest]; [reflexivity |].
  unfold growth_of. apply Z.ltb_ge in H. rewrite H. reflexivity.
Qed.

(** C3, as the code has it. With the store up, the rising ranking scores
    every candidate product, none left out: a product with at least two
    snapshots in the window whose first snapshot has positive sales gets
    [round(((last - first) / first) * 100, 2)] as Python computes it in
    binary floating point, the quotient and the product each the nearest
    double and the result the double nearest to the two-decimal rounding
    of that product; a product with fewer than two snapshots, or whose
    first snapshot has no positive sales, gets 0.  The scored products are
    put in descending order of growth, the first [limit] are returned, and
    each carries its 1-based position as rank.  Sales of 100, 150, 300
    give a growth of 200. *)
Theorem rising_products_growth_sorted_truncated (db : DB) (now : Q)
  (platform category : option string) (days limit : nat) :
  exists out scored,
    get_rising_products (connect db) now platform category days limit = Ok out
    /\ Permutation (map (fun e => Product.product_id (fst e)) scored)
         (map Product.product_id (candidates db platform category))
    /\ (forall e, In e scored ->
          let h := history_window db now days (Product.product_id (fst e)) in
          (forall first_record rest,
              h = first_record :: rest -> rest <> [] ->
              (0 < ProductHistory.sales_volume first_record)%Z ->
              snd e = round2 (float_growth_percent first_record
                                (last h first_record)))
          /\ ((List.length h < 2)%nat -> snd e = 0)
          /\ (forall first_record rest,
                 h = first_record :: rest ->
                 (ProductHistory.sales_volume first_record <= 0)%Z ->
                 snd e = 0)
          /\ (map ProductHistory.sales_volume h = [100; 150; 300]%Z ->
              snd e = 200))
    /\ sorted_desc snd scored
    /\ map (fun r => (rising_product r, growth_rate r)) out
       = firstn limit scored
    /\ ranked_by_position rising_rank out.
Proof.
  unfold get_rising_products. simpl.
  rewrite (candidate_query lower). fold (candidates db platform category).
  set (start := now - inject_Z (Z.of_nat days) * 86400).
  remember (map Product.product_id (candidates db platform category))
    as ids eqn:Eids.
  destruct (@products_with_growth_all db now days ids) as [Hids Hgrowth].
  { intros pid Hpid. rewrite Eids in Hpid.
    apply in_map_iff in Hpid as (p & <- & Hp).
    apply in_map. unfold candidates in Hp. apply filter_In in Hp. tauto. }
  fold start in Hids, Hgrowth.
  set (pwg := products_with_growth (connect db) start ids) in *.
  set (scored := sort (desc_by snd) pwg).
  assert (Hperm : Permutation scored pwg) by apply sort_perm.
  assert (Hscored :
    forall e, In e scored ->
      let h := history_window db now days (Product.product_id (fst e)) in
      (forall first_record rest,
          h = first_record :: rest -> rest <> [] ->
          (0 < ProductHistory.sales_volume first_record)%Z ->
          snd e = round2 (float_growth_percent first_record
                            (last h first_record)))
      /\ ((List.length h < 2)%nat -> snd e = 0)
      /\ (forall first_record rest,
             h = first_record :: rest ->
             (ProductHistory.sales_volume first_record <= 0)%Z -> snd e = 0)
      /\ (map ProductHistory.sales_volume h = [100; 150; 300]%Z ->
          snd e = 200)).
  { intros e He h.
    assert (Hg : snd e = round2 (growth_of h)).
    { rewrite Forall_forall in Hgrowth. apply Hgrowth.
      eapply Permutation_in; eassumption. }
    repeat split.
    - intros f rest Hh Hrest Hpos. rewrite Hg, Hh.
      destruct rest as [|x rest]; [congruence |].
      rewrite growth_of_two_or_more by assumption. reflexivity.
    - intro Hlen. rewrite Hg, growth_of_short by assumption. reflexivity.
    - intros f rest Hh Hle. rewrite Hg, Hh, growth_of_no_base by assumption.
      reflexivity.
    - intro Hsales. rewrite Hg.
      destruct h as [|a [|b [|c [|d h']]]]; try discriminate.
      injection Hsales as Ha Hb Hc.
      unfold growth_of. simpl last. rewrite Ha, Hc. vm_compute.
      reflexivity. }
  assert (Hsorted : sorted_desc snd scored) by apply sort_desc_sorted.
  assert (Hkeys : Permutation (map (fun e => Product.product_id (fst e)) scored)
                    ids).
  { rewrite <- Hids. apply Permutation_map. exact Hperm. }
  clear Eids. destruct ids as [|pid ids'].
  - (* no candidate: the early return *)
    exists [], []. split; [reflexivity |]. split; [constructor |].
    split; [intros e [] |]. split; [constructor |].
    split; [now rewrite firstn_nil |].
    intros i e Hi. destruct i; discriminate.
  - eexists. exists scored. split; [reflexivity |].
    split; [exact Hkeys |]. split; [exact Hscored |].
    split; [exact Hsorted |]. split.
    + rewrite map_map. simpl.
      rewrite <- (enumerate_snd 0 (firstn limit scored)) at 2.
      apply map_ext. intros [i [p g]]. reflexivity.
    + intros i e Hi. rewrite nth_error_map in Hi.
      destruct (nth_error (enumerate 0 (firstn limit scored)) i) as [ip|] eqn:E;
        [| discriminate].
      injection Hi as <-. simpl. apply enumerate_nth in E. lia.
Qed.

(** C3 as stated fails: for sales going from 3 to 4 the code reports the
    double nearest to 33.33, which is neither (4 - 3) / 3 * 100 nor the
    double that Python computes for it. *)
Lemma rising_products_growth_is_rounded :
  exists out,
    get_rising_products (connect Examples.third_db) 172800 None None 7 20
    = Ok out
    /\ map growth_rate out = [double (3333 # 100)]
    /\ ~ (double (3333 # 100) == inject_Z (4 - 3) / inject_Z 3 * 100)
    /\ ~ (double (3333 # 100) == float_mul (true_div 1 3) 100).
Proof.
  eexists. split; [vm_compute; reflexivity |].
  split; [vm_compute; reflexivity |].
  split; intro H; vm_compute in H; discriminate H.
Qed.

(** Sales of 160 and then 183: the growth reported is 14.37, the exact
    growth of 14.375 would round to 14.38. *)
Example rising_products_from_160_to_183 :
  exists out,
    get_rising_products (connect Examples.eighth_db) 172800 None None 7 20
    = Ok out
    /\ map growth_rate out = [double (1437 # 100)]
    /\ inject_Z (183 - 160) / inject_Z 160 * 100 == 14375 # 1000.
Proof.
  eexists. split; [vm_compute; reflexivity |].
  split; [vm_compute; reflexivity | reflexivity].
Qed.

(** The scenario of the specification, run: sales of 100, 150, 300 over
    three days give a growth of 200. *)
Example rising_products_tripled :
  exists out,
    get_rising_products (connect Examples.tripled_db) 259200 None None 3 20
    = Ok out
    /\ map growth_rate out = [200] /\ map rising_rank out = [1%nat].
Proof.
  eexists. split; [vm_compute; reflexivity |].
  split; vm_compute; reflexivity.
Qed.

End RisingRanking.

(** ** Properties of the value ranking *)

Section ValueRanking.
Import Store RankingEngine Spec.

Lemma Qltb_lt (a b : Q) : Qltb a b = true <-> a < b.
Proof.
  unfold Qltb. rewrite negb_true_iff. split; intro H.
  - apply Qnot_le_lt. intro Hle. apply Qle_bool_iff in Hle. congruence.
  - destruct (Qle_bool b a) eqn:E; [| reflexivity].
    apply Qle_bool_iff in E. exfalso. exact (Qlt_not_le _ _ H E).
Qed.

Lemma desc_by_R_total (A : Type) (key : A -> R) (a b : A) :
  desc_by_R key a b = false -> desc_by_R key b a = true.
Proof.
  unfold desc_by_R. intro H.
  destruct (Rle_dec (key b) (key a)); [discriminate |].
  destruct (Rle_dec (key a) (key b)); [reflexivity | exfalso; lra].
Qed.

Lemma sort_desc_R_sorted (A : Type) (key : A -> R) (l : list A) :
  sorted_desc_R key (sort (desc_by_R key) l).
Proof.
  unfold sorted_desc_R.
  eapply Sorted_ind with
    (P := fun l => Sorted (fun x y => (key y <= key x)%R) l)
    (R := fun a b => desc_by_R key a b = true).
  - constructor.
  - intros a l' _ IH Hhd. constructor; [exact IH |].
    destruct Hhd as [|b l'' Hb]; constructor.
    unfold desc_by_R in Hb. destruct (Rle_dec (key b) (key a));
      [assumption | discriminate].
  - apply sort_sorted. apply desc_by_R_total.
Qed.

Lemma priced_and_rated (p : Product.t) :
  Qltb 0 (Product.price p) && Qltb 0 (Product.rating p) = true
  <-> ~ (Product.price p <= 0 \/ Product.rating p <= 0).
Proof.
  rewrite andb_true_iff, !Qltb_lt. split.
  - intros [Hp Hr] [H | H];
      [exact (Qlt_not_le _ _ Hp H) | exact (Qlt_not_le _ _ Hr H)].
  - intro H. split; apply Qnot_le_lt; intro Hc; apply H; [left | right];
      exact Hc.
Qed.

(** C4. With the store up, the value ranking scores products of the
    requested platform and category only, and leaves one of them out if
    and only if its price is at most 0 or its rating is at most 0.  Every
    scored product has value score rating / ln (1 + price); the scored
    products are put in descending order of value score, the first [limit]
    are returned, and each carries its 1-based position as rank. *)
Theorem price_performance_ranking_filtered_scored_sorted (db : DB)
  (platform category : option string) (limit : nat) :
  exists out scored,
    get_price_performance_ranking (connect db) platform category limit
    = Ok out
    /\ (forall p,
          In p (candidates_as_given db platform category) ->
          (~ In p (map fst scored)
           <-> (Product.price p <= 0 \/ Product.rating p <= 0)))
    /\ (forall p, In p (map fst scored) ->
                  In p (candidates_as_given db platform category))
    /\ (forall e, In e scored ->
          snd e = (Q2R (Product.rating (fst e))
                   / ln (1 + Q2R (Product.price (fst e))))%R)
    /\ sorted_desc_R snd scored
    /\ map (fun r => (value_product r, value_score r)) out
       = firstn limit scored
    /\ ranked_by_position value_rank out.
Proof.
  unfold get_price_performance_ranking. simpl.
  rewrite (candidate_query (fun v => v)).
  fold (candidates_as_given db platform category).
  set (rows := candidates_as_given db platform category).
  set (valid := fun p => Qltb 0 (Product.price p) && Qltb 0 (Product.rating p)).
  set (scored :=
         sort (desc_by_R snd)
           (map (fun p => (p, value_score_of p)) (filter valid rows))).
  assert (Hin : forall p, In p (map fst scored) <-> In p (filter valid rows)).
  { intro p. unfold scored. split; intro H.
    - apply in_map_iff in H as (e & <- & He). apply sort_In in He.
      apply in_map_iff in He as (p' & <- & Hp'). exact Hp'.
    - apply in_map_iff. exists (p, value_score_of p). split; [reflexivity |].
      apply sort_In. apply in_map_iff. exists p. split; [reflexivity | exact H]. }
  assert (Hout : forall p, In p rows ->
            (~ In p (map fst scored)
             <-> (Product.price p <= 0 \/ Product.rating p <= 0))).
  { intros p Hp. rewrite Hin, filter_In. unfold valid.
    rewrite priced_and_rated. split.
    - intro H.
      destruct (Qlt_le_dec 0 (Product.price p)) as [Hp0 | Hp0]; [| tauto].
      destruct (Qlt_le_dec 0 (Product.rating p)) as [Hr0 | Hr0]; [| tauto].
      exfalso. apply H. split; [assumption |].
      intros [H' | H'];
        [exact (Qlt_not_le _ _ Hp0 H') | exact (Qlt_not_le _ _ Hr0 H')].
    - tauto. }
  assert (Hsub : forall p, In p (map fst scored) -> In p rows).
  { intros p Hp. apply Hin, filter_In in Hp. tauto. }
  assert (Hscore : forall e, In e scored ->
            snd e = (Q2R (Product.rating (fst e))
                     / ln (1 + Q2R (Product.price (fst e))))%R).
  { intros e He. unfold scored in He. apply sort_In in He.
    apply in_map_iff in He as (p & <- & _). reflexivity. }
  assert (Hsorted : sorted_desc_R snd scored) by apply sort_desc_R_sorted.
  assert (Hranked : forall l : list (Product.t * R),
            map (fun r => (value_product r, value_score r))
                (map (fun ir => mkValue (fst (snd ir)) (snd (snd ir)) (fst ir))
                     (enumerate 1 l)) = l
            /\ ranked_by_position value_rank
                 (map (fun ir => mkValue (fst (snd ir)) (snd (snd ir)) (fst ir))
                      (enumerate 1 l))).
  { intro l. split.
    - rewrite map_map. simpl.
      rewrite <- (enumerate_snd 1 l) at 2.
      apply map_ext. intros [i [p v]]. reflexivity.
    - intros i e Hi. rewrite nth_error_map in Hi.
      destruct (nth_error (enumerate 1 l) i) as [ip|] eqn:E; [| discriminate].
      injection Hi as <-. simpl. apply enumerate_nth in E. lia. }
  assert (Hempty : filter valid rows = [] -> scored = []).
  { intro H. unfold scored. rewrite H. reflexivity. }
  destruct (Hranked (firstn limit scored)) as [Hmap Hrank].
  eexists. exists scored.
  split; [| split; [exact Hout | split; [exact Hsub | split; [exact Hscore |
    split; [exact Hsorted | split; [exact Hmap | exact Hrank]]]]]].
  destruct rows as [|r rows'] eqn:Hrows.
  - rewrite (Hempty eq_refl), firstn_nil. reflexivity.
  - destruct (filter valid (r :: rows')) as [|v vs] eqn:Hvalid.
    + rewrite (Hempty eq_refl), firstn_nil. reflexivity.
    + reflexivity.
Qed.

End ValueRanking.

(** ** Properties of the price-tier classifier *)

Section PriceRating.
Import DataEnricher.

Lemma ln_2_bounds : (0 < ln (1 + 1) < 1)%R.
Proof.
  split.
  - rewrite <- ln_1. apply ln_increasing; lra.
  - replace 1%R with (ln (exp 1)) at 3 by apply ln_exp.
    apply ln_increasing; [lra |].
    pose proof (exp_ineq1 1). lra.
Qed.

Lemma falsy_spec (v : option Q) :
  falsy v = true <-> v = None \/ exists x, v = Some x /\ x == 0.
Proof.
  destruct v as [x|]; simpl.
  - rewrite Qeq_bool_iff. split.
    + intro H. right. exists x. split; [reflexivity | exact H].
    + intros [H | (y & Hy & H0)]; [discriminate |].
      injection Hy as ->. exact H0.
  - split; [intros _; left; reflexivity | reflexivity].
Qed.

(** C5, as the code has it. The classifier answers "Unknown" when the price
    or the rating is missing or zero.  Otherwise, for a positive price, it
    compares the ratio rating / (ln (1 + price) + 1) with the two
    thresholds: "Good Value" when the ratio exceeds 1, "Fair Value" when
    it exceeds 1/2 but not 1, "Expensive" when it is at most 1/2. *)
Theorem price_rating_tiers (p : product) :
  ((price p = None \/ (exists x, price p = Some x /\ x == 0)
    \/ rating p = None \/ (exists x, rating p = Some x /\ x == 0)) ->
   _calculate_price_rating p = "Unknown"%string)
  /\ (forall price_ rating_,
        price p = Some price_ -> rating p = Some rating_ ->
        0 < price_ -> ~ rating_ == 0 ->
        let ratio := (Q2R rating_ / (ln (1 + Q2R price_) + 1))%R in
        ((1 < ratio)%R -> _calculate_price_rating p = "Good Value"%string)
        /\ ((1 / 2 < ratio <= 1)%R ->
            _calculate_price_rating p = "Fair Value"%string)
        /\ ((ratio <= 1 / 2)%R ->
            _calculate_price_rating p = "Expensive"%string)).
Proof.
  split.
  - intro H. unfold _calculate_price_rating.
    assert (Hf : falsy (price p) || falsy (rating p) = true).
    { apply orb_true_iff.
      destruct H as [H | [H | [H | H]]];
        [left | left | right | right]; apply falsy_spec; tauto. }
    rewrite Hf. reflexivity.
  - intros price_ rating_ Hp Hr Hpos Hnz ratio.
    unfold _calculate_price_rating. rewrite Hp, Hr. simpl falsy.
    assert (Hp0 : Qeq_bool price_ 0 = false).
    { destruct (Qeq_bool price_ 0) eqn:E; [| reflexivity].
      apply Qeq_bool_iff in E. rewrite E in Hpos. discriminate. }
    assert (Hr0 : Qeq_bool rating_ 0 = false).
    { destruct (Qeq_bool rating_ 0) eqn:E; [| reflexivity].
      apply Qeq_bool_iff in E. contradiction. }
    rewrite Hp0, Hr0. cbn [orb].
    fold (log1p (Q2R price_)). fold (price_rating_ratio price_ rating_).
    change (price_rating_ratio price_ rating_) with ratio.
    repeat split; intro H;
      destruct (Rlt_dec 1 ratio); try reflexivity; try lra;
      destruct (Rlt_dec (1 / 2) ratio); try reflexivity; lra.
Qed.

(** C5 as stated fails: at price 1 and rating 1 the value score
    rating / ln (1 + price) is 1 / ln 2, above 1, and the classifier
    answers "Fair Value". *)
Lemma price_rating_not_value_score :
  _calculate_price_rating (mkProduct (Some 1) (Some 1)) = "Fair Value"%string
  /\ (1 < Q2R 1 / ln (1 + Q2R 1))%R.
Proof.
  assert (H1 : Q2R 1 = 1%R) by (unfold Q2R; simpl; lra).
  pose proof ln_2_bounds as [Hl0 Hl1].
  split.
  - unfold _calculate_price_rating. simpl.
    unfold price_rating_ratio, log1p. rewrite H1.
    destruct (Rlt_dec 1 (1 / (ln (1 + 1) + 1))) as [Hgt | _].
    + exfalso. apply (Rmult_lt_compat_r (ln (1 + 1) + 1)) in Hgt; [| lra].
      unfold Rdiv in Hgt. rewrite Rmult_assoc, Rinv_l in Hgt; lra.
    + destruct (Rlt_dec (1 / 2) (1 / (ln (1 + 1) + 1))) as [_ | Hle];
        [reflexivity |].
      exfalso. apply Hle.
      apply Rmult_lt_reg_r with (ln (1 + 1) + 1)%R; [lra |].
      unfold Rdiv at 2. rewrite Rmult_assoc, Rinv_l; lra.
  - rewrite H1.
    apply Rmult_lt_reg_r with (ln (1 + 1)); [lra |].
    unfold Rdiv. rewrite Rmult_assoc, Rinv_l; lra.
Qed.

End PriceRating.

(** ** Error policy of the ranking operations *)

Section RankingErrors.
Import Store RankingEngine Spec.

Variable s : Session.
Hypothesis s_no_data : no_data s.

Ltac ask_store :=
  match goal with
  | |- context [all_products s ?q] =>
      destruct (s_no_data q) as [[?e ->] | ->]
  end.

Lemma hot_products_no_data (platform category : option string)
  (time_range : string) (limit : nat) :
  get_hot_products s platform category time_range limit = Ok [].
Proof. unfold get_hot_products. cbn zeta. ask_store; reflexivity. Qed.

Lemma rising_products_no_data (now : Q) (platform category : option string)
  (days limit : nat) :
  get_rising_products s now platform category days limit = Ok [].
Proof. unfold get_rising_products. cbn zeta. ask_store; reflexivity. Qed.







End RankingErrors.



Lemma empty_store_no_data : Spec.no_data (Store.connect (Store.mkDB [] [])).
Proof.
  intro q. right. unfold Store.connect, Store.run_product_query. simpl.
  destruct (Store.order_desc q), (Store.limit_rows q) as [n|]; simpl;
    try (destruct n); reflexivity.
Qed.


(** The scenario of the specification: on an empty store the hot and the
    rising ranking are empty. *)
Example rankings_on_empty_store :
  RankingEngine.get_hot_products (Store.connect (Store.mkDB [] [])) None None
    "week" 20 = Ok []
  /\ RankingEngine.get_rising_products (Store.connect (Store.mkDB [] [])) 0
       None None 7 20 = Ok [].
Proof.
  split.
  - apply hot_products_no_data, empty_store_no_data.
  - apply rising_products_no_data, empty_store_no_data.
Qed.

(** ** The trend summary *)

Section TrendSummary.
Import Store TrendAnalyzer.

Lemma analyze_sales_trend_returns (s : Session) (now : Q)
  (platform category : option string) (days : nat) :
  exists r, analyze_sales_trend s now platform category days = Ok r.
Proof.
  unfold analyze_sales_trend. cbn zeta.
  destruct (all_history s _); eexists; reflexivity.
Qed.

Lemma analyze_category_trend_returns (s : Session) (now : Q)
  (platform : option string) (days : nat) :
  exists r, analyze_category_trend s now platform days = Ok r.
Proof.
  unfold analyze_category_trend. cbn zeta.
  destruct (all_history s _); eexists; reflexivity.
Qed.

Lemma analyze_price_trend_returns (s : Session) (now : Q)
  (platform category : option string) (days : nat) :
  exists r, analyze_price_trend s now platform category days = Ok r.
Proof.
  unfold analyze_price_trend. cbn zeta.
  destruct (all_history s _); eexists; reflexivity.
Qed.

(** Whichever of the three analyses came back empty, the summary is the
    error object and carries all three as they came back. *)
Lemma summary_of_partial_results (sales : option SalesTrend)
  (category : option CategoryTrend) (price : option PriceTrend) :
  sales = None \/ category = None \/ price = None ->
  summary_of sales category price
  = SummaryError "Failed to generate trend summary" sales category price.
Proof.
  destruct sales, category, price; intros [H | [H | H]];
    try discriminate H; reflexivity.
Qed.

(** C9. Whatever the store answers, the trend summary returns normally.
    When one of the sales, category and price analyses comes back empty,
    what it returns is the error object: the ['error'] message together
    with the three sub-results as they came back, the ones that succeeded
    included.  The three analyses select different columns, so one can
    come back empty while the others succeed. *)
Theorem trend_summary_degrades_gracefully (s : Session) (now : Q)
  (platform : option string) (days : nat) :
  exists sales category price summary,
    analyze_sales_trend s now platform None days = Ok sales
    /\ analyze_category_trend s now platform days = Ok category
    /\ analyze_price_trend s now platform None days = Ok price
    /\ get_trend_summary s now platform days = Ok summary
    /\ (sales = None \/ category = None \/ price = None ->
        summary = SummaryError "Failed to generate trend summary"
                    sales category price).
Proof.
  destruct (analyze_sales_trend_returns s now platform None days) as [st Hst].
  destruct (analyze_category_trend_returns s now platform days) as [ct Hct].
  destruct (analyze_price_trend_returns s now platform None days) as [pt Hpt].
  exists st, ct, pt, (summary_of st ct pt).
  unfold get_trend_summary. rewrite Hst, Hct, Hpt. cbn [bind].
  repeat (split; [reflexivity |]).
  apply summary_of_partial_results.
Qed.

(** On a store without the [price] column the sales and the category
    analysis succeed and the price analysis comes back empty: the summary
    is the error object and carries the two results that succeeded. *)
Lemma trend_summary_keeps_partial_results :
  exists st ct,
    analyze_sales_trend Examples.no_price_column 172800 None None 1
    = Ok (Some st)
    /\ analyze_category_trend Examples.no_price_column 172800 None 1
       = Ok (Some ct)
    /\ analyze_price_trend Examples.no_price_column 172800 None None 1
       = Ok None
    /\ get_trend_summary Examples.no_price_column 172800 None 1
       = Ok (SummaryError "Failed to generate trend summary"
               (Some st) (Some ct) None).
Proof.
  destruct (trend_summary_degrades_gracefully Examples.no_price_column
              172800 None 1)
    as (sales & category & price & summary & Hs & Hc & Hp & Hsum & Himpl).
  assert (Hprice : analyze_price_trend Examples.no_price_column 172800 None
                     None 1 = Ok None) by reflexivity.
  assert (Eprice : price = None) by congruence.
  rewrite (Himpl (or_intror (or_intror Eprice))) in Hsum. subst price.
  destruct sales as [st|].
  - destruct category as [ct|].
    + exists st, ct. repeat split; assumption.
    + exfalso. vm_compute in Hc. discriminate Hc.
  - exfalso. vm_compute in Hs. discriminate Hs.
Defined.

(** A summary of partial results: the sales and price analyses succeeded,
    the category analysis came back empty. *)
Example summary_keeps_partial_results (st : SalesTrend) (pt : PriceTrend) :
  summary_of (Some st) None (Some pt)
  = SummaryError "Failed to generate trend summary" (Some st) None (Some pt).
Proof. reflexivity. Qed.

(** With the store down the three analyses come back empty and the summary
    is the error object. *)
Example trend_summary_on_unavailable_store :
  get_trend_summary unavailable 172800 None 30
  = Ok (SummaryError "Failed to generate trend summary" None None None).
Proof. reflexivity. Qed.

End TrendSummary.

(** ** The trend frames *)

Section Distinct.
Variable A : Type.
Variable eqb : A -> A -> bool.
Hypothesis eqb_eq : forall x y, eqb x y = true <-> x = y.

Lemma distinct_In (l : list A) (x : A) : In x (distinct eqb l) <-> In x l.
Proof.
  induction l as [|a l IH]; simpl; [tauto |].
  rewrite filter_In, IH, negb_true_iff. split.
  - intros [H | [H _]]; tauto.
  - intros [H | H]; [tauto |].
    destruct (eqb a x) eqn:E.
    + left. apply eqb_eq. exact E.
    + right. tauto.
Qed.

Lemma distinct_NoDup (l : list A) : NoDup (distinct eqb l).
Proof.
  induction l as [|a l IH]; simpl; constructor.
  - rewrite filter_In, negb_true_iff. intros [_ H].
    assert (eqb a a = true) by (apply eqb_eq; reflexivity). congruence.
  - apply NoDup_filter, IH.
Qed.

End Distinct.

Section CategoryTrend.
Import Store TrendAnalyzer Spec.

Lemma key_eqb_eq (a b : Z * string) : key_eqb a b = true <-> a = b.
Proof.
  destruct a as [d c], b as [d' c']. unfold key_eqb. simpl.
  rewrite andb_true_iff, Z.eqb_eq, String.eqb_eq. split.
  - intros [-> ->]. reflexivity.
  - intro H. injection H as -> ->. split; reflexivity.
Qed.

Lemma groupby_keys (K : Type) (eqb leb : K -> K -> bool) (agg : list Q -> Q)
  (rows : list (K * Q)) :
  map fst (groupby eqb leb agg rows)
  = sort leb (distinct eqb (map fst rows)).
Proof.
  unfold groupby. rewrite map_map. simpl. apply map_id.
Qed.






Lemma window_rows (columns : list string) (db : DB) (now : Q) (days : nat)
  (platform category : option string) :
  run_history_query db
    (history_query columns (now - inject_Z (Z.of_nat days) * 86400)
       platform category)
  = filter (in_trend_window now days platform category) (product_history db).
Proof.
  unfold run_history_query, history_query, in_trend_window.
  destruct (truthy platform) as [v|], (truthy category) as [c|]; simpl;
    apply filter_ext; intro h; unfold history_matches; simpl;
    repeat match goal with
           | |- context [String.eqb ?a ?b] => destruct (String.eqb a b)
           | |- context [Qle_bool ?a ?b] => destruct (Qle_bool a b)
           end; reflexivity.
Qed.

End CategoryTrend.

(** ** Fill policy of the sales and price trends *)

Section FillPolicy.
Import Store TrendAnalyzer.

Lemma value_at_absent (idx : list Z) (col : list (option Q)) (d : Z) :
  ~ In d idx -> value_at idx col d = None.
Proof.
  intro Hd. unfold value_at.
  destruct (find _ (combine idx col)) as [[d' v]|] eqn:E; [| reflexivity].
  apply find_some in E as [Hin Heq]. simpl in Heq.
  apply Z.eqb_eq in Heq. subst d'.
  apply in_combine_l in Hin. contradiction.
Qed.



Lemma nth_map_at (B : Type) (f : Z -> B) (l : list Z) (i : nat) (d : Z)
  (default : B) :
  nth_error l i = Some d -> nth i (map f l) default = f d.
Proof.
  revert i; induction l as [|a l IH]; intros [|i] H; try discriminate.
  - injection H as <-. reflexivity.
  - simpl. apply IH, H.
Qed.

Lemma dict_set_In (V : Type) (d : list (string * V)) (name : string)
  (vals : V) (k : string) (v : V) :
  In (k, v) (dict_set d name vals) -> (k = name /\ v = vals) \/ In (k, v) d.
Proof.
  induction d as [|[k' v'] d IH]; simpl.
  - intros [H | []]. injection H as <- <-. left. split; reflexivity.
  - destruct (String.eqb k' name) eqn:E.
    + intros [H | H].
      * injection H as <- <-. apply String.eqb_eq in E. left.
        split; [exact E | reflexivity].
      * right. right. exact H.
    + intros [H | H]; [right; left; exact H |].
      apply IH in H as [H | H]; [left; exact H | right; right; exact H].
Qed.

Lemma Qsum_zeros (l : list Q) : Forall (fun x => x == 0) l -> Qsum l == 0.
Proof.
  unfold Qsum. generalize 0 at 2 3 as acc.
  induction l as [|x l IH]; intros acc H; simpl; [reflexivity |].
  inversion H as [|? ? Hx Hl]; subst.
  rewrite IH by assumption. rewrite Hx. apply Qplus_0_r.
Qed.


Lemma grouped_days (name : ProductHistory.t -> string)
  (value : ProductHistory.t -> Q) (agg : list Q -> Q)
  (rows : list ProductHistory.t) (d : Z) :
  In d (index (fillna 0 (pivot (groupby key_eqb key_leb agg
                                  (by_day_and name value rows))))) ->
  exists h, In h rows /\ day_of_row h = d.
Proof.
  unfold fillna, pivot. simpl. intro H. apply sort_In in H.
  apply (proj1 (@distinct_In _ _ Z.eqb_eq _ _)) in H.
  apply in_map_iff in H as (r & <- & Hr).
  assert (Hk : In (fst r) (map fst (groupby key_eqb key_leb agg
                                      (by_day_and name value rows))))
    by (apply in_map; exact Hr).
  rewrite groupby_keys in Hk. apply sort_In in Hk.
  apply (proj1 (@distinct_In _ _ key_eqb_eq _ _)) in Hk.
  unfold by_day_and in Hk. rewrite map_map in Hk.
  apply in_map_iff in Hk as (h & Hh & Hin).
  exists h. split; [exact Hin |]. rewrite <- Hh. reflexivity.
Qed.

Lemma single_series_days (column_name : string)
  (value : ProductHistory.t -> Q) (agg : list Q -> Q)
  (rows : list ProductHistory.t) (d : Z) :
  In d (index (set_index column_name
                 (groupby Z.eqb Z.leb agg (by_day value rows)))) ->
  exists h, In h rows /\ day_of_row h = d.
Proof.
  unfold set_index. simpl. rewrite groupby_keys. intro H.
  apply sort_In in H. apply (proj1 (@distinct_In _ _ Z.eqb_eq _ _)) in H.
  unfold by_day in H. rewrite map_map in H.
  apply in_map_iff in H as (h & Hh & Hin).
  exists h. split; [exact Hin | exact Hh].
Qed.


(** A day of the window without any snapshot: every sales series, and the
    total, hold 0 on it.  Platforms amazon and tiktok are observed on days
    1 and 2; day 3 has no snapshot. *)
Example sales_trend_fills_missing_day_with_zero :
  exists r,
    analyze_sales_trend (connect Examples.gap_db) 259200 None None 2
    = Ok (Some r)
    /\ sales_trend_data r
       = [ ("amazon"%string, [(1%Z, Some 5); (2%Z, Some 6); (3%Z, Some 0)]);
           ("tiktok"%string, [(1%Z, Some 7); (2%Z, Some 0); (3%Z, Some 0)]);
           ("total"%string, [(1%Z, Some 12); (2%Z, Some 6); (3%Z, Some 0)]) ].
Proof. eexists. split; [vm_compute; reflexivity | reflexivity]. Qed.

(** With platform and category both given there is one price series, and
    the day without a snapshot carries the price of the day before. *)
Example price_trend_single_series_carries_forward :
  exists r,
    analyze_price_trend (connect Examples.gap_db) 259200 (Some "amazon"%string)
      (Some "toys"%string) 2 = Ok (Some r)
    /\ price_trend_data r
       = [ ("average_price"%string,
            [(1%Z, Some 10); (2%Z, Some 12); (3%Z, Some 12)]) ].
Proof. eexists. split; [vm_compute; reflexivity | reflexivity]. Qed.

(** C7, where the code departs from it. Broken down by platform, the price
    trend of a window in which tiktok has a price (20) on day 1 and none on
    day 2, while amazon has one on both days, holds 0 for tiktok on day 2,
    not the 20 of the day before; the average of day 2 counts that 0. *)
Theorem price_trend_fills_missing_series_day_with_zero :
  exists r,
    analyze_price_trend (connect Examples.gap_db) 172800 None None 1
    = Ok (Some r)
    /\ price_trend_data r
       = [ ("amazon"%string, [(1%Z, Some 10); (2%Z, Some 12)]);
           ("tiktok"%string, [(1%Z, Some 20); (2%Z, Some 0)]);
           ("average_price"%string,
            [(1%Z, Some (30 # 2)); (2%Z, Some (12 # 2))]) ].
Proof. eexists. split; [vm_compute; reflexivity | reflexivity]. Qed.

End FillPolicy.

(** ** More about the rankings of a store that is up *)

Section RankingContents.
Import Store RankingEngine Spec.

Lemma firstn_before_skipn (A : Type) (R : A -> A -> Prop) (n : nat)
  (l : list A) (x y : A) :
  StronglySorted R l -> In x (firstn n l) -> In y (skipn n l) -> R x y.
Proof.
  revert l; induction n as [|n IH]; intros l Hs Hx Hy; [destruct Hx |].
  destruct l as [|a l]; [destruct Hx |].
  inversion Hs as [|? ? Hl Hall]; subst. simpl in Hx, Hy.
  destruct Hx as [<- | Hx].
  - rewrite Forall_forall in Hall. apply Hall.
    rewrite <- (firstn_skipn n l). apply in_or_app. right. exact Hy.
  - apply IH with l; assumption.
Qed.

Lemma sort_desc_strongly_sorted (A : Type) (key : A -> Q) (l : list A) :
  StronglySorted (fun x y => key y <= key x) (sort (desc_by key) l).
Proof.
  apply Sorted_StronglySorted.
  - intros x y z Hxy Hyz. eapply Qle_trans; eassumption.
  - apply sort_desc_sorted.
Qed.

(** The hot ranking of a store that is up, in one expression. *)
Lemma hot_products_connect (db : DB) (platform category : option string)
  (time_range : string) (limit : nat) :
  get_hot_products (connect db) platform category time_range limit
  = Ok (with_rank
          (firstn limit
             (sort (desc_by hot_score) (candidates db platform category)))).
Proof.
  unfold candidates. rewrite <- (candidate_query lower).
  unfold get_hot_products.
  destruct (truthy platform), (truthy category); reflexivity.
Qed.


(** The loops that fill a result map: a ranking is computed for each
    element and stored under the element's key unless it is empty. *)
Section ResultMap.
Variable A : Type.
Variable key : A -> string.
Variable ranking : A -> list RankedProduct.
Variable body :
  list (string * list RankedProduct) -> A ->
  result (list (string * list RankedProduct)).
Hypothesis body_stores :
  forall acc x,
    body acc x = Ok (match ranking x with
                     | [] => acc
                     | _ => dict_set acc (key x) (ranking x)
                     end).

Lemma dict_set_keys (V : Type) (d : list (string * V)) (k : string) (v : V)
  (k' : string) :
  In k' (map fst (dict_set d k v)) <-> k' = k \/ In k' (map fst d).
Proof.
  induction d as [|[k0 v0] d IH]; simpl.
  - split; [intros [H | []]; left; symmetry; exact H
           | intros [H | []]; left; symmetry; exact H].
  - destruct (String.eqb k0 k) eqn:E; simpl.
    + apply String.eqb_eq in E. subst k0. split.
      * intros [H | H]; [left; symmetry; exact H | right; right; exact H].
      * intros [H | [H | H]];
          [left; symmetry; exact H | left; exact H | right; exact H].
    + rewrite IH. tauto.
Qed.

Lemma dict_set_NoDup (V : Type) (d : list (string * V)) (k : string) (v : V) :
  NoDup (map fst d) -> NoDup (map fst (dict_set d k v)).
Proof.
  induction d as [|[k0 v0] d IH]; simpl; intro H.
  - constructor; [intros [] | constructor].
  - inversion H as [|? ? Hk0 Hd]; subst.
    destruct (String.eqb k0 k) eqn:E; simpl.
    + constructor; assumption.
    + constructor; [| apply IH, Hd].
      rewrite dict_set_keys. intros [-> | Hin]; [| contradiction].
      rewrite String.eqb_refl in E. discriminate.
Qed.

Lemma result_map_loop (l : list A) (acc : list (string * list RankedProduct)) :
  exists res,
    for_each l body acc = Ok res
    /\ (forall k r, In (k, r) res ->
          In (k, r) acc
          \/ exists x, In x l /\ key x = k /\ ranking x = r /\ r <> [])
    /\ (forall x, In x l -> ranking x <> [] -> In (key x) (map fst res))
    /\ (forall k, In k (map fst acc) -> In k (map fst res))
    /\ (NoDup (map fst acc) -> NoDup (map fst res)).
Proof.
  revert acc; induction l as [|x l IH]; intro acc.
  - exists acc. split; [reflexivity |]. split; [tauto |].
    split; [intros x [] |]. split; tauto.
  - cbn [for_each]. rewrite body_stores. cbn [bind].
    set (acc' := match ranking x with
                 | [] => acc
                 | _ => dict_set acc (key x) (ranking x)
                 end).
    destruct (IH acc') as (res & Hres & Hin & Hkeys & Hacc & Hnd).
    assert (Hacc' : forall k r, In (k, r) acc' ->
              In (k, r) acc \/ (key x = k /\ ranking x = r /\ r <> [])).
    { intros k r H. unfold acc' in H.
      destruct (ranking x) as [|e es] eqn:E; [left; exact H |].
      apply dict_set_In in H as [[-> ->] | H]; [right | left; exact H].
      repeat split. discriminate. }
    assert (Hkeep : forall k, In k (map fst acc) -> In k (map fst acc')).
    { intros k H. unfold acc'. destruct (ranking x); [exact H |].
      apply dict_set_keys. right. exact H. }
    exists res. split; [exact Hres |]. split; [| split; [| split]].
    + intros k r H. apply Hin in H as [H | (y & Hy & Hk & Hr & Hne)].
      * apply Hacc' in H as [H | (Hk & Hr & Hne)]; [left; exact H |].
        right. exists x. split; [left; reflexivity | tauto].
      * right. exists y. split; [right; exact Hy | tauto].
    + intros y [<- | Hy] Hne; [| apply Hkeys; assumption].
      apply Hacc. unfold acc'.
      destruct (ranking x) as [|e es] eqn:E; [contradiction |].
      apply dict_set_keys. left. reflexivity.
    + intros k H. apply Hacc, Hkeep, H.
    + intro H. apply Hnd. unfold acc'. destruct (ranking x); [exact H |].
      apply dict_set_NoDup, H.
Qed.

End ResultMap.

Lemma with_rank_In (l : list Product.t) (e : RankedProduct) :
  In e (with_rank l) -> In (product e) l.
Proof.
  intro H. rewrite <- (with_rank_products l). apply in_map. exact H.
Qed.

Lemma with_rank_nil (l : list Product.t) : with_rank l = [] -> l = [].
Proof. destruct l; [reflexivity | discriminate]. Qed.

Lemma hot_products_listed (db : DB) (platform category : option string)
  (limit : nat) (e : RankedProduct) :
  In e (with_rank
          (firstn limit
             (sort (desc_by hot_score) (candidates db platform category)))) ->
  selected_by lower platform category (product e) = true.
Proof.
  intro H. apply with_rank_In, In_firstn, sort_In in H.
  unfold candidates in H. apply filter_In in H. tauto.
Qed.

(** X3. With the store up, the category rankings hold one entry per
    category, none of them empty and none under an empty category name;
    each entry is the hot ranking of its category; and with a positive
    limit every named category of a product of the requested platform has
    an entry. *)
Theorem category_rankings_are_hot_rankings (db : DB)
  (platform : option string) (limit_per_category : nat) :
  exists result,
    get_category_rankings (connect db) platform limit_per_category = Ok result
    /\ NoDup (map fst result)
    /\ (forall c ranked,
          In (c, ranked) result ->
          c <> ""%string /\ ranked <> []
          /\ get_hot_products (connect db) platform (Some c) "week"
               limit_per_category = Ok ranked)
    /\ ((0 < limit_per_category)%nat ->
        forall p, In p (candidates db platform None) ->
                  Product.category p <> ""%string ->
                  In (Product.category p) (map fst result)).
Proof.
  set (ranking := fun c : string =>
         with_rank
           (firstn limit_per_category
              (sort (desc_by hot_score) (candidates db platform (Some c))))).
  assert (Hhot : forall c, get_hot_products (connect db) platform (Some c)
                             "week" limit_per_category = Ok (ranking c))
    by (intro c; apply hot_products_connect).
  set (categories := filter non_empty
                       (distinct String.eqb
                          (map Product.category (candidates db platform None)))).
  destruct (@result_map_loop string (fun c => c) ranking
              (fun result category =>
                 products <- get_hot_products (connect db) platform
                               (Some category) "week" limit_per_category ;;
                 match products with
                 | [] => Ok result
                 | _ => Ok (dict_set result category products)
                 end)) with (l := categories) (acc := @nil (string * list RankedProduct))
    as (res & Hres & Hin & Hkeys & _ & Hnd).
  { intros acc c. rewrite Hhot. cbn [bind]. destruct (ranking c); reflexivity. }
  exists res. split; [| split; [apply Hnd; constructor | split]].
  - unfold get_category_rankings. cbn zeta.
    cbn [connect all_products bind try_except try_finally close].
    pose proof (candidate_query lower db platform None) as Hq.
    cbn [truthy] in Hq. rewrite Hq. fold (candidates db platform None).
    fold categories. rewrite Hres. reflexivity.
  - intros c ranked H. apply Hin in H as [[] | (c' & Hc' & <- & <- & Hne)].
    unfold categories in Hc'. apply filter_In in Hc' as [_ Hc'].
    split; [intros ->; discriminate | split; [exact Hne | apply Hhot]].
  - intros Hlimit p Hp Hc.
    apply (Hkeys (Product.category p)).
    + unfold categories. apply filter_In. split.
      * apply (proj2 (@distinct_In _ _ String.eqb_eq _ _)).
        apply in_map. exact Hp.
      * destruct (Product.category p); [contradiction | reflexivity].
    + unfold ranking. intro Hnil. apply with_rank_nil in Hnil.
      assert (Hin' : In p (sort (desc_by hot_score)
                            (candidates db platform
                               (Some (Product.category p))))).
      { apply sort_In. unfold candidates in *. apply filter_In in Hp as [Hp Hs].
        apply filter_In. split; [exact Hp |].
        unfold selected_by in *. simpl in Hs. rewrite andb_true_r in Hs.
        rewrite Hs. destruct (Product.category p) eqn:E; [contradiction |].
        simpl. rewrite Ascii.eqb_refl, String.eqb_refl. reflexivity. }
      destruct (sort (desc_by hot_score) _) as [|a l]; [destruct Hin' |].
      destruct limit_per_category; [lia | discriminate].
Qed.

(** X4. With the store up, the cross-platform comparison holds at most one
    entry for each of tiktok, amazon and shopee and for no other platform;
    no entry is empty; each is the hot ranking of its platform, so every
    product listed under a platform is a product of that platform. *)
Theorem cross_platform_comparison_by_platform (db : DB)
  (category : option string) (limit : nat) :
  exists results,
    get_cross_platform_comparison (connect db) category limit = Ok results
    /\ NoDup (map fst results)
    /\ (forall platform ranked,
          In (platform, ranked) results ->
          In platform ["tiktok"; "amazon"; "shopee"]%string
          /\ ranked <> []
          /\ get_hot_products (connect db) (Some platform) category "week"
               limit = Ok ranked
          /\ (forall e, In e ranked ->
                        Product.platform (product e) = platform)).
Proof.
  set (ranking := fun platform : string =>
         with_rank
           (firstn limit
              (sort (desc_by hot_score)
                 (candidates db (Some platform) category)))).
  assert (Hhot : forall platform,
             get_hot_products (connect db) (Some platform) category "week"
               limit = Ok (ranking platform))
    by (intro platform; apply hot_products_connect).
  destruct (@result_map_loop string (fun c => c) ranking
              (fun results platform =>
                 products <- get_hot_products (connect db) (Some platform)
                               category "week" limit ;;
                 match products with
                 | [] => Ok results
                 | _ => Ok (dict_set results platform products)
                 end))
    with (l := ["tiktok"; "amazon"; "shopee"]%string)
         (acc := @nil (string * list RankedProduct))
    as (res & Hres & Hin & _ & _ & Hnd).
  { intros acc c. rewrite Hhot. cbn [bind]. destruct (ranking c); reflexivity. }
  exists res. split; [| split; [apply Hnd; constructor |]].
  - unfold get_cross_platform_comparison. cbn zeta. rewrite Hres. reflexivity.
  - intros platform ranked H.
    apply Hin in H as [[] | (k & Hk & <- & <- & Hne)].
    split; [exact Hk | split; [exact Hne | split; [apply Hhot |]]].
    intros e He. apply hot_products_listed in He.
    unfold selected_by in He. apply andb_true_iff in He as [He _].
    destruct Hk as [<- | [<- | [<- | []]]]; apply String.eqb_eq in He;
      exact He.
Qed.

Lemma price_range_query_rows (db : DB) (platform : option string)
  (price_range : PriceRange) (limit : nat) (p : Product.t) :
  In p (run_product_query db
          (Store.limit
             (order_by_desc
                (match max price_range with
                 | Some max_price =>
                     filter_price_lt
                       (filter_price_ge
                          (match truthy platform with
                           | Some v => filter_platform query_Product (lower v)
                           | None => query_Product
                           end) (min price_range)) max_price
                 | None =>
                     filter_price_ge
                       (match truthy platform with
                        | Some v => filter_platform query_Product (lower v)
                        | None => query_Product
                        end) (min price_range)
                 end) hot_score) limit)) ->
  In p (products db)
  /\ selected_by lower platform None p = true
  /\ min price_range <= Product.price p
  /\ (forall m, max price_range = Some m -> Product.price p < m).
Proof.
  unfold run_product_query, selected_by. cbn [truthy].
  destruct (truthy platform) as [v|], (max price_range) as [m|];
    cbn [limit_rows order_desc Store.limit order_by_desc];
    intro H; apply In_firstn, sort_In, filter_In in H as [Hin Hm];
    unfold product_matches in Hm; simpl in Hm;
    rewrite ?andb_true_r in Hm; rewrite ?andb_true_iff in Hm;
    (split; [exact Hin |]); rewrite ?andb_true_r.
  - destruct Hm as [[Hv Hge] Hlt]. split; [exact Hv |].
    split; [apply Qle_bool_iff, Hge |].
    intros m' Hm'. injection Hm' as <-. apply Qltb_lt, Hlt.
  - destruct Hm as [Hv Hge]. split; [exact Hv |].
    split; [apply Qle_bool_iff, Hge | discriminate].
  - destruct Hm as [Hge Hlt]. split; [reflexivity |].
    split; [apply Qle_bool_iff, Hge |].
    intros m' Hm'. injection Hm' as <-. apply Qltb_lt, Hlt.
  - split; [reflexivity |]. split; [apply Qle_bool_iff, Hm | discriminate].
Qed.

(** X5. With the store up, every product listed by the price-range
    rankings under a label lies in a range of that label: its price is at
    least the range's minimum and below its maximum, when it has one.
    With the default ranges a product is listed only under the label of
    the range its price falls in, a price on a boundary (50, 200, 1000)
    belonging to the range that starts there. *)
Theorem price_range_rankings_respect_ranges (db : DB)
  (platform : option string) (price_ranges : list PriceRange)
  (limit_per_range : nat) :
  exists result,
    get_price_range_rankings (connect db) platform price_ranges
      limit_per_range = Ok result
    /\ NoDup (map fst result)
    /\ (forall l ranked e,
          In (l, ranked) result -> In e ranked ->
          exists r,
            In r (match price_ranges with
                  | [] => default_price_ranges
                  | _ => price_ranges
                  end)
            /\ label r = l
            /\ min r <= Product.price (product e)
            /\ (forall m, max r = Some m -> Product.price (product e) < m))
    /\ (price_ranges = [] ->
        forall l ranked e,
          In (l, ranked) result -> In e ranked ->
          l = default_bucket (Product.price (product e))).
Proof.
  set (ranges := match price_ranges with
                 | [] => default_price_ranges
                 | _ => price_ranges
                 end).
  set (rows := fun r : PriceRange =>
         run_product_query db
           (Store.limit
              (order_by_desc
                 (match max r with
                  | Some max_price =>
                      filter_price_lt
                        (filter_price_ge
                           (match truthy platform with
                            | Some v =>
                                filter_platform query_Product (lower v)
                            | None => query_Product
                            end) (min r)) max_price
                  | None =>
                      filter_price_ge
                        (match truthy platform with
                         | Some v => filter_platform query_Product (lower v)
                         | None => query_Product
                         end) (min r)
                  end) hot_score) limit_per_range)).
  destruct (@result_map_loop PriceRange label (fun r => with_rank (rows r))
              (fun result price_range =>
                 let query := query_Product in
                 let query :=
                   match truthy platform with
                   | Some p => filter_platform query (lower p)
                   | None => query
                   end in
                 let query := filter_price_ge query (min price_range) in
                 let query :=
                   match max price_range with
                   | Some max_price => filter_price_lt query max_price
                   | None => query
                   end in
                 let query := order_by_desc query hot_score in
                 let query := Store.limit query limit_per_range in
                 products <- all_products (connect db) query ;;
                 match with_rank products with
                 | [] => Ok result
                 | ranked => Ok (dict_set result (label price_range) ranked)
                 end))
    with (l := ranges) (acc := @nil (string * list RankedProduct))
    as (res & Hres & Hin & _ & _ & Hnd).
  { intros acc r. cbn zeta. cbn [connect all_products bind].
    unfold rows. destruct (max r); destruct (with_rank _); reflexivity. }
  assert (Hlisted : forall l ranked e,
            In (l, ranked) res -> In e ranked ->
            exists r, In r ranges /\ label r = l
                      /\ min r <= Product.price (product e)
                      /\ (forall m, max r = Some m ->
                                    Product.price (product e) < m)).
  { intros l ranked e H He.
    apply Hin in H as [[] | (r & Hr & <- & <- & _)].
    apply with_rank_In in He. unfold rows in He.
    apply price_range_query_rows in He as (_ & _ & Hge & Hlt).
    exists r. repeat split; assumption. }
  exists res. split; [| split; [apply Hnd; constructor | split]].
  - unfold get_price_range_rankings. cbv zeta in Hres |- *. fold ranges.
    unfold try_finally, close. rewrite Hres. reflexivity.
  - exact Hlisted.
  - intros Hdefault l ranked e H He.
    destruct (Hlisted l ranked e H He) as (r & Hr & <- & Hge & Hlt).
    unfold ranges in Hr. rewrite Hdefault in Hr. unfold default_bucket.
    assert (Hbelow : forall b, Product.price (product e) < b ->
                               Qltb (Product.price (product e)) b = true)
      by (intros b Hb; apply Qltb_lt; exact Hb).
    assert (Habove : forall b, b <= Product.price (product e) ->
                               Qltb (Product.price (product e)) b = false).
    { intros b Hb. destruct (Qltb _ b) eqn:E; [| reflexivity].
      apply Qltb_lt in E. exfalso. exact (Qlt_not_le _ _ E Hb). }
    destruct Hr as [<- | [<- | [<- | [<- | []]]]]; simpl in Hge; simpl.
    + rewrite (Hbelow 50) by (apply Hlt; reflexivity). reflexivity.
    + rewrite (Habove 50), (Hbelow 200)
        by (assumption || apply Hlt; reflexivity). reflexivity.
    + rewrite (Habove 50), (Habove 200), (Hbelow 1000)
        by (assumption || (apply Hlt; reflexivity)
            || (eapply Qle_trans; [| exact Hge]; discriminate)).
      reflexivity.
    + rewrite (Habove 50), (Habove 200), (Habove 1000)
        by (assumption
            || (eapply Qle_trans; [| exact Hge]; discriminate)).
      reflexivity.
Qed.

Lemma Qsum_from (l : list Q) (a : Q) :
  fold_left Qplus l a == a + Qsum l.
Proof.
  unfold Qsum. revert a; induction l as [|x l IH]; intro a; simpl.
  - symmetry. apply Qplus_0_r.
  - rewrite IH, (IH (0 + x)). ring.
Qed.

Lemma Qsum_cons (x : Q) (l : list Q) : Qsum (x :: l) == x + Qsum l.
Proof. unfold Qsum at 1. simpl. rewrite Qsum_from. ring. Qed.

Lemma Qsum_bounds (l : list Q) (a b : Q) :
  (forall x, In x l -> a <= x <= b) ->
  inject_Z (Z.of_nat (List.length l)) * a <= Qsum l
  /\ Qsum l <= inject_Z (Z.of_nat (List.length l)) * b.
Proof.
  induction l as [|x l IH]; intro H.
  - split; simpl; rewrite Qmult_0_l; apply Qle_refl.
  - destruct IH as [IHa IHb]; [intros y Hy; apply H; right; exact Hy |].
    destruct (H x (or_introl eq_refl)) as [Hax Hxb].
    rewrite Qsum_cons. cbn [List.length].
    rewrite Nat2Z.inj_succ. unfold Z.succ. rewrite inject_Z_plus.
    change (inject_Z 1) with 1. split; nra.
Qed.

Lemma average_bounds (l : list Q) (a b : Q) :
  l <> [] -> (forall x, In x l -> a <= x <= b) -> a <= average l <= b.
Proof.
  intros Hne H. destruct (Qsum_bounds l H) as [Ha Hb].
  unfold average. destruct l as [|x l]; [contradiction |].
  set (n := inject_Z (Z.of_nat (List.length (x :: l)))) in *.
  assert (Hn : 0 < n).
  { unfold n. rewrite <- (Zlt_Qlt 0). simpl. lia. }
  split.
  - apply Qle_shift_div_l; [exact Hn |]. rewrite Qmult_comm. exact Ha.
  - apply Qle_shift_div_r; [exact Hn |]. rewrite Qmult_comm. exact Hb.
Qed.

Lemma fold_Qmin_le (l : list Q) (a x : Q) :
  In x (a :: l) -> fold_left Qmin l a <= x.
Proof.
  revert a x; induction l as [|y l IH]; intros a x H; simpl.
  - destruct H as [H | []]. rewrite H. apply Qle_refl.
  - destruct H as [H | [H | H]].
    + eapply Qle_trans; [apply (IH _ (Qmin a y)); left; reflexivity |].
      rewrite <- H. apply Q.le_min_l.
    + eapply Qle_trans; [apply (IH _ (Qmin a y)); left; reflexivity |].
      rewrite <- H. apply Q.le_min_r.
    + apply IH. right. exact H.
Qed.

Lemma fold_Qmax_ge (l : list Q) (a x : Q) :
  In x (a :: l) -> x <= fold_left Qmax l a.
Proof.
  revert a x; induction l as [|y l IH]; intros a x H; simpl.
  - destruct H as [H | []]. rewrite H. apply Qle_refl.
  - destruct H as [H | [H | H]].
    + eapply Qle_trans; [| apply (IH _ (Qmax a y)); left; reflexivity].
      rewrite <- H. apply Q.le_max_l.
    + eapply Qle_trans; [| apply (IH _ (Qmax a y)); left; reflexivity].
      rewrite <- H. apply Q.le_max_r.
    + apply IH. right. exact H.
Qed.

Lemma fold_Qmin_In (l : list Q) (a : Q) : In (fold_left Qmin l a) (a :: l).
Proof.
  revert a; induction l as [|y l IH]; intro a; simpl; [left; reflexivity |].
  destruct (IH (Qmin a y)) as [H | H]; [| right; right; exact H].
  rewrite <- H. unfold Qmin, GenericMinMax.gmin.
  destruct (a ?= y); tauto.
Qed.

Lemma list_stats_bounds (l : list Q) :
  (forall x, In x l -> Qmin_list l <= x <= Qmax_list l)
  /\ (Qmin_list l <= average l <= Qmax_list l)
  /\ (Qmin_list l <= median l <= Qmax_list l)
  /\ (l <> [] -> In (Qmin_list l) l /\ In (median l) l).
Proof.
  assert (Hall : forall x, In x l -> Qmin_list l <= x <= Qmax_list l).
  { intros x H. destruct l as [|a l]; [destruct H |].
    split; [apply fold_Qmin_le | apply fold_Qmax_ge]; exact H. }
  assert (Hmedian : l <> [] -> In (median l) l).
  { intro Hne. unfold median. apply (sort_In (asc_by (fun x => x))).
    apply nth_In. rewrite sort_length.
    destruct l as [|a l]; [contradiction |].
    apply Nat.div_lt; simpl; lia. }
  split; [exact Hall |].
  destruct l as [|a l].
  - split; [split; compute; discriminate |].
    split; [split; compute; discriminate |].
    intro H. contradiction.
  - split; [apply average_bounds; [discriminate | exact Hall] |].
    split; [apply Hall, Hmedian; discriminate |].
    intros _. split; [apply fold_Qmin_In | apply Hmedian; discriminate].
Qed.

Lemma desc_by_count_total (x y : string * nat) :
  desc_by_count x y = false -> desc_by_count y x = true.
Proof.
  unfold desc_by_count. rewrite Nat.leb_gt, Nat.leb_le. lia.
Qed.

(** X6. With the store up, the attribute analysis is empty when the
    request has no candidate product.  Whenever it returns an analysis,
    that analysis is of the hot ranking of at most 50 products; it reports
    at most [limit] keywords, each once, in descending order of their
    count, which is at least 1; and the statistics are consistent:
    minimum <= median <= maximum and minimum <= average <= maximum for
    the prices, minimum <= average <= maximum for the ratings, none of
    them negative, and either the four price statistics are all 0 or the
    median is the positive price of a candidate product. *)
Theorem popular_attributes_are_consistent (db : DB)
  (platform category : option string) (limit : nat) :
  exists out,
    get_popular_attributes (connect db) platform category limit = Ok out
    /\ (candidates db platform category = [] -> out = None)
    /\ (forall a,
          out = Some a ->
           total_products_analyzed a
           = Nat.min 50 (List.length (candidates db platform category))
           /\ (List.length (top_keywords a) <= limit)%nat
           /\ NoDup (map fst (top_keywords a))
           /\ Sorted (fun x y => (snd y <= snd x)%nat) (top_keywords a)
           /\ (forall k n, In (k, n) (top_keywords a) -> (1 <= n)%nat)
           /\ (0 <= price_min (price_stats a)
               /\ price_min (price_stats a) <= price_median (price_stats a)
                  <= price_max (price_stats a)
               /\ price_min (price_stats a) <= price_average (price_stats a)
                  <= price_max (price_stats a))
           /\ (0 <= rating_min (rating_stats a)
               /\ rating_min (rating_stats a)
                  <= rating_average (rating_stats a)
                  <= rating_max (rating_stats a))
           /\ ((price_min (price_stats a) = 0
                /\ price_max (price_stats a) = 0
                /\ price_average (price_stats a) = 0
                /\ price_median (price_stats a) = 0)
               \/ exists p, In p (candidates db platform category)
                            /\ 0 < Product.price p
                            /\ Product.price p
                               = price_median (price_stats a))).
Proof.
  unfold get_popular_attributes. rewrite hot_products_connect. cbn [bind].
  set (cands := candidates db platform category).
  remember (with_rank (firstn 50 (sort (desc_by hot_score) cands)))
    as hot eqn:Ehot.
  assert (Hlen : List.length hot = Nat.min 50 (List.length cands)).
  { rewrite Ehot, with_rank_length, length_firstn, sort_length.
    reflexivity. }
  assert (Hcands : forall e, In e hot -> In (product e) cands).
  { intros e He. rewrite Ehot in He.
    apply with_rank_In, In_firstn, sort_In in He. exact He. }
  clear Ehot. destruct hot as [|e0 hot'].
  - exists None. split; [reflexivity |]. split; [reflexivity |].
    intros a Ha. discriminate Ha.
  - eexists. split; [reflexivity |]. set (hot := e0 :: hot') in *.
    split.
    { intro Hnone. exfalso. rewrite Hnone in Hlen. discriminate Hlen. }
    intros a Ha.
    pose proof (f_equal (fun o => match o with
                                  | Some x => x
                                  | None => a
                                  end) Ha) as Ha'.
    cbv beta iota in Ha'. rewrite <- Ha'. clear Ha Ha' a.
    cbn [total_products_analyzed top_keywords price_stats rating_stats
         price_min price_max price_average price_median rating_min rating_max
         rating_average].
    set (keywords := flat_map (fun p => Product.keywords (product p)) hot).
    set (prices := filter (Qltb 0)
                     (map (fun p => Product.price (product p)) hot)).
    set (ratings := filter (Qltb 0)
                      (map (fun p => Product.rating (product p)) hot)).
    assert (Hpositive : forall l, 0 <= Qmin_list (filter (Qltb 0) l)).
    { intro l. destruct (filter (Qltb 0) l) as [|a l'] eqn:E;
        [apply Qle_refl |].
      destruct (list_stats_bounds (a :: l')) as (_ & _ & _ & Hin).
      destruct Hin as [Hin _]; [discriminate |].
      rewrite <- E in Hin at 2. apply filter_In in Hin as [_ Hin].
      apply Qltb_lt in Hin. apply Qlt_le_weak. exact Hin. }
    split; [exact Hlen |]. split; [apply firstn_le_length |].
    split; [| split; [| split; [| split; [| split]]]].
    + (* keywords are listed once *)
      assert (Hnd : NoDup (map fst (sort desc_by_count
                                      (value_counts keywords)))).
      { eapply Permutation_NoDup.
        - apply Permutation_sym, Permutation_map.
          eapply Permutation_trans; [apply sort_perm |].
          unfold value_counts. apply sort_perm.
        - rewrite map_map. simpl. rewrite map_id.
          apply distinct_NoDup, String.eqb_eq. }
      revert Hnd. generalize (sort desc_by_count (value_counts keywords)).
      intros l Hnd. revert limit.
      induction l as [|x l IH]; intros [|n]; simpl; try constructor.
      * inversion Hnd as [|? ? Hx Hl]; subst. intro H. apply Hx.
        apply in_map_iff in H as (y & Hy & Hin).
        apply in_map_iff. exists y. split; [exact Hy |].
        eapply In_firstn. exact Hin.
      * inversion Hnd; subst. apply IH. assumption.
    + apply Sorted_firstn.
      eapply Sorted_ind with
        (P := fun l => Sorted (fun x y => (snd y <= snd x)%nat) l)
        (R := fun a b => desc_by_count a b = true).
      * constructor.
      * intros a l _ IH Hhd. constructor; [exact IH |].
        destruct Hhd; constructor. apply Nat.leb_le. assumption.
      * apply sort_sorted. exact desc_by_count_total.
    + intros k n H. apply In_firstn, sort_In in H.
      unfold value_counts in H. apply sort_In in H.
      apply in_map_iff in H as (k' & Heq & Hk').
      injection Heq as <- <-.
      apply (proj1 (@distinct_In _ _ String.eqb_eq _ _)) in Hk'.
      unfold count_of.
      assert (Hf : In k' (filter (String.eqb k') keywords))
        by (apply filter_In; split; [exact Hk' | apply String.eqb_refl]).
      destruct (filter (String.eqb k') keywords); [destruct Hf | simpl; lia].
    + split; [apply Hpositive |].
      destruct (list_stats_bounds prices) as (_ & Havg & Hmed & _).
      split; assumption.
    + split; [apply Hpositive |].
      destruct (list_stats_bounds ratings) as (_ & Havg & _ & _).
      exact Havg.
    + destruct prices as [|a l] eqn:E; [left; repeat split; reflexivity |].
      right. rewrite <- E.
      destruct (list_stats_bounds prices) as (_ & _ & _ & Hin).
      destruct Hin as [_ Hin]; [rewrite E; discriminate |].
      unfold prices in Hin at 2. apply filter_In in Hin as [Hin Hpos].
      apply in_map_iff in Hin as (e & He & Hin).
      exists (product e). split; [| split].
      * apply Hcands. exact Hin.
      * rewrite He. apply Qltb_lt. exact Hpos.
      * exact He.
Qed.

End RankingContents.

(** ** More about the rising ranking *)

Section RisingBounds.
Import Store RankingEngine Spec.

Lemma last_default (A : Type) (l : list A) (a b : A) :
  l <> [] -> last l a = last l b.
Proof.
  induction l as [|x l IH]; intro H; [contradiction |].
  destruct l as [|y l]; [reflexivity |].
  change (last (y :: l) a = last (y :: l) b). apply IH. discriminate.
Qed.

Lemma last_of_list (A : Type) (a : A) (l : list A) :
  In (last (a :: l) a) (a :: l).
Proof.
  revert a; induction l as [|b l IH]; intro a; [left; reflexivity |].
  right. change (In (last (b :: l) a) (b :: l)).
  rewrite (@last_default _ (b :: l) a b) by discriminate. apply IH.
Qed.

Lemma growth_of_lower_bound (h : list ProductHistory.t) :
  (forall x, In x h -> (0 <= ProductHistory.sales_volume x)%Z) ->
  -100 <= growth_of h.
Proof.
  intro Hall. destruct h as [|f [|s rest]]; [discriminate | discriminate |].
  unfold growth_of.
  destruct (0 <? ProductHistory.sales_volume f)%Z eqn:E; [| discriminate].
  apply Z.ltb_lt in E.
  set (l := last (f :: s :: rest) f).
  assert (Hl : (0 <= ProductHistory.sales_volume l)%Z).
  { apply Hall. unfold l. apply last_of_list. }
  assert (Hf : 0 < inject_Z (ProductHistory.sales_volume f))
    by (rewrite <- (Zlt_Qlt 0); exact E).
  assert (Hd : -1 <= inject_Z (ProductHistory.sales_volume l
                                - ProductHistory.sales_volume f)
                     / inject_Z (ProductHistory.sales_volume f)).
  { apply Qle_shift_div_l; [exact Hf |].
    unfold Z.sub. rewrite inject_Z_plus, inject_Z_opp.
    rewrite Zle_Qle in Hl. change (inject_Z 0) with 0 in Hl. revert Hl.
    generalize (inject_Z (ProductHistory.sales_volume l)).
    generalize (inject_Z (ProductHistory.sales_volume f)).
    intros; lra. }
  unfold float_mul, true_div.
  apply (@double_lower_bound 1) in Hd; [| split; [lia | discriminate]].
  apply (@double_lower_bound 100); [split; [lia | discriminate] |].
  change (- inject_Z 100) with (-100). change (- inject_Z 1) with (-1) in Hd.
  revert Hd.
  generalize (double
                (inject_Z (ProductHistory.sales_volume l
                           - ProductHistory.sales_volume f)
                 / inject_Z (ProductHistory.sales_volume f))).
  intros; lra.
Qed.

Lemma growth_of_flat (f : ProductHistory.t) (rest : list ProductHistory.t) :
  ProductHistory.sales_volume (last (f :: rest) f)
  = ProductHistory.sales_volume f ->
  growth_of (f :: rest) == 0.
Proof.
  intro H. destruct rest as [|s rest]; [reflexivity |].
  unfold growth_of.
  destruct (0 <? ProductHistory.sales_volume f)%Z; [| reflexivity].
  rewrite H, Z.sub_diag. unfold float_mul, true_div.
  assert (H0 : double (inject_Z 0
                       / inject_Z (ProductHistory.sales_volume f)) = 0)
    by (apply double_zero; unfold Qdiv; apply Qmult_0_l).
  rewrite H0. rewrite double_zero by reflexivity. reflexivity.
Qed.

(** X7. With the store up and no negative sales volume in the history, no
    growth rate reported by the rising ranking is below -100.  And, whatever
    the history holds, a product whose first and last snapshot in the
    window have the same sales volume is reported with growth 0. *)
Theorem rising_products_growth_bounds (db : DB) (now : Q)
  (platform category : option string) (days limit : nat) :
  exists out,
    get_rising_products (connect db) now platform category days limit = Ok out
    /\ ((forall h, In h (product_history db) ->
                   (0 <= ProductHistory.sales_volume h)%Z) ->
        forall r, In r out -> -100 <= growth_rate r)
    /\ (forall r first_record rest,
          In r out ->
          history_window db now days (Product.product_id (rising_product r))
          = first_record :: rest ->
          ProductHistory.sales_volume (last (first_record :: rest) first_record)
          = ProductHistory.sales_volume first_record ->
          growth_rate r = 0).
Proof.
  unfold get_rising_products. simpl.
  rewrite (candidate_query lower). fold (candidates db platform category).
  remember (map Product.product_id (candidates db platform category))
    as ids eqn:Eids.
  destruct (@products_with_growth_all db now days ids) as [_ Hgrowth].
  { intros pid Hpid. rewrite Eids in Hpid.
    apply in_map_iff in Hpid as (p & <- & Hp).
    apply in_map. unfold candidates in Hp. apply filter_In in Hp. tauto. }
  set (pwg := products_with_growth (connect db)
                (now - inject_Z (Z.of_nat days) * 86400) ids) in *.
  set (scored := firstn limit (sort (desc_by snd) pwg)).
  assert (Hentry : forall r,
            In r (map (fun ip => mkRising (fst (snd ip)) (snd (snd ip))
                                   (fst ip + 1))
                      (enumerate 0 scored)) ->
            growth_rate r
            = round2 (growth_of
                        (history_window db now days
                           (Product.product_id (rising_product r))))).
  { intros r Hr. apply in_map_iff in Hr as ([i [p g]] & <- & Hin). simpl.
    assert (Hpg : In (p, g) scored).
    { rewrite <- (enumerate_snd 0 scored).
      apply in_map_iff. exists (i, (p, g)). split; [reflexivity | exact Hin]. }
    unfold scored in Hpg. apply In_firstn, sort_In in Hpg.
    rewrite Forall_forall in Hgrowth. exact (Hgrowth _ Hpg). }
  clear Eids. destruct ids as [|pid ids'].
  - exists []. split; [reflexivity |]. split; [intros _ r [] |].
    intros r f rest [].
  - eexists. split; [reflexivity |]. split.
    + intros Hsales r Hr. rewrite (Hentry r Hr).
      apply round2_lower_bound, growth_of_lower_bound.
      intros x Hx. apply Hsales. unfold history_window in Hx.
      apply sort_In, filter_In in Hx. tauto.
    + intros r f rest Hr Hh Hflat. rewrite (Hentry r Hr), Hh.
      rewrite (round2_equal (growth_of_flat f rest Hflat)). reflexivity.
Qed.

End RisingBounds.

(** ** More about the two popularity scores *)

Section ScoreCaps.
Import Spec.

Lemma capped_share_full (n : Z) (d cap : Q) :
  0 < d -> cap * d <= inject_Z n -> Qmin (inject_Z n / d) cap == cap.
Proof.
  intros Hd H. apply Q.min_r. apply Qle_shift_div_l; assumption.
Qed.

(** X8. In the stored popularity score the sales share stops growing at
    1000 sales and the review share at 500 reviews: two products with the
    same rating and review count and at least 1000 sales each have the same
    score, likewise for two products with at least 500 reviews each, and a
    product with at least 1000 sales and 500 reviews scores
    75 + 5 * rating. *)
Theorem popularity_score_saturates (p p' : Product.t) :
  (Product.rating p' == Product.rating p ->
   Product.reviews_count p' = Product.reviews_count p ->
   (1000 <= Product.sales_volume p)%Z ->
   (1000 <= Product.sales_volume p')%Z ->
   snd (Product.calculate_popularity_score p)
   == snd (Product.calculate_popularity_score p'))
  /\ (Product.rating p' == Product.rating p ->
      Product.sales_volume p' = Product.sales_volume p ->
      (500 <= Product.reviews_count p)%Z ->
      (500 <= Product.reviews_count p')%Z ->
      snd (Product.calculate_popularity_score p)
      == snd (Product.calculate_popularity_score p'))
  /\ ((1000 <= Product.sales_volume p)%Z ->
      (500 <= Product.reviews_count p)%Z ->
      snd (Product.calculate_popularity_score p)
      == 75 + 5 * Product.rating p).
Proof.
  assert (Hsales : forall n, (1000 <= n)%Z ->
                             Qmin (inject_Z n / 1000) 1 == 1).
  { intros n Hn. apply capped_share_full; [reflexivity |].
    rewrite Zle_Qle in Hn. exact Hn. }
  assert (Hreviews : forall n, (500 <= n)%Z ->
                               Qmin (inject_Z n / 500) 1 == 1).
  { intros n Hn. apply capped_share_full; [reflexivity |].
    rewrite Zle_Qle in Hn. exact Hn. }
  unfold Product.calculate_popularity_score; simpl. repeat split.
  - intros Hr Hv H1 H2. rewrite Hv, Hr, (Hsales _ H1), (Hsales _ H2).
    reflexivity.
  - intros Hr Hs H1 H2. rewrite Hs, Hr, (Hreviews _ H1), (Hreviews _ H2).
    reflexivity.
  - intros H1 H2. rewrite (Hsales _ H1), (Hreviews _ H2). field.
Qed.

Import DataEnricher.

(** The enricher's score without its truthiness tests. *)
Lemma enricher_score_closed_form (p : counted_product) :
  _calculate_popularity_score p
  == Qmin (Qmin (inject_Z (int_or_zero (sales_volume p)) / 100) 50
           + Qmin (inject_Z (int_or_zero (reviews_count p)) / 20) 25
           + num_or_zero (rating (base p)) / 5 * 25)
          100.
Proof.
  unfold _calculate_popularity_score. cbv zeta.
  assert (Hs : (match sales_volume p with
                | Some s => if Z.eqb s 0 then 0
                            else 0 + Qmin (inject_Z s / 100) 50
                | None => 0
                end)
               == Qmin (inject_Z (int_or_zero (sales_volume p)) / 100) 50).
  { destruct (sales_volume p) as [s|]; simpl; [| reflexivity].
    destruct (Z.eqb_spec s 0) as [-> | _]; [reflexivity | apply Qplus_0_l]. }
  set (a := match sales_volume p with
            | Some s => if Z.eqb s 0 then 0
                        else 0 + Qmin (inject_Z s / 100) 50
            | None => 0
            end) in *.
  assert (Hv : (match reviews_count p with
                | Some n => if Z.eqb n 0 then a
                            else a + Qmin (inject_Z n / 20) 25
                | None => a
                end)
               == a + Qmin (inject_Z (int_or_zero (reviews_count p)) / 20) 25).
  { assert (Hz : Qmin (inject_Z 0 / 20) 25 == 0) by reflexivity.
    destruct (reviews_count p) as [n|]; unfold int_or_zero.
    - destruct (Z.eqb_spec n 0) as [-> | _]; [| reflexivity].
      rewrite Hz. symmetry. apply Qplus_0_r.
    - rewrite Hz. symmetry. apply Qplus_0_r. }
  set (b := match reviews_count p with
            | Some n => if Z.eqb n 0 then a
                        else a + Qmin (inject_Z n / 20) 25
            | None => a
            end) in *.
  assert (Hr : (match rating (base p) with
                | Some r => if Qeq_bool r 0 then b else b + r / 5 * 25
                | None => b
                end)
               == b + num_or_zero (rating (base p)) / 5 * 25).
  { destruct (rating (base p)) as [r|]; simpl.
    - destruct (Qeq_bool r 0) eqn:E; [| reflexivity].
      apply Qeq_bool_iff in E. rewrite E. field.
    - field. }
  rewrite Hr, Hv, Hs. reflexivity.
Qed.

(** X9. The enricher's popularity score never exceeds 100; it is not
    negative when sales volume, review count and rating are not; and it
    does not decrease when any of the three grows, an absent key counting
    as 0. *)
Theorem enricher_popularity_score_bounded_and_monotone (p : counted_product) :
  _calculate_popularity_score p <= 100
  /\ ((0 <= int_or_zero (sales_volume p))%Z ->
      (0 <= int_or_zero (reviews_count p))%Z ->
      0 <= num_or_zero (rating (base p)) ->
      0 <= _calculate_popularity_score p)
  /\ (forall p',
        (int_or_zero (sales_volume p) <= int_or_zero (sales_volume p'))%Z ->
        (int_or_zero (reviews_count p) <= int_or_zero (reviews_count p'))%Z ->
        num_or_zero (rating (base p)) <= num_or_zero (rating (base p')) ->
        _calculate_popularity_score p <= _calculate_popularity_score p').
Proof.
  assert (Hshare : forall n m d cap, 0 < d -> (n <= m)%Z ->
            Qmin (inject_Z n / d) cap <= Qmin (inject_Z m / d) cap).
  { intros n m d cap Hd Hnm. apply Q.min_le_compat_r.
    apply Qmult_le_compat_r.
    - rewrite Zle_Qle in Hnm. exact Hnm.
    - apply Qlt_le_weak, Qinv_lt_0_compat, Hd. }
  assert (Hdiv : forall x, x / 5 * 25 == x * 5) by (intro x; field).
  split; [| split].
  - unfold _calculate_popularity_score. cbv zeta. apply Q.le_min_r.
  - intros Hs Hv Hr. rewrite enricher_score_closed_form.
    apply Q.min_glb; [| discriminate].
    pose proof (Hshare 0%Z _ 100 50 eq_refl Hs) as H1.
    pose proof (Hshare 0%Z _ 20 25 eq_refl Hv) as H2.
    assert (Hz1 : Qmin (inject_Z 0 / 100) 50 == 0) by reflexivity.
    assert (Hz2 : Qmin (inject_Z 0 / 20) 25 == 0) by reflexivity.
    rewrite Hz1 in H1. rewrite Hz2 in H2. clear Hz1 Hz2.
    rewrite Hdiv. revert H1 H2 Hr.
    generalize (Qmin (inject_Z (int_or_zero (sales_volume p)) / 100) 50).
    generalize (Qmin (inject_Z (int_or_zero (reviews_count p)) / 20) 25).
    intros; lra.
  - intros p' Hs Hv Hr. rewrite !enricher_score_closed_form.
    apply Q.min_le_compat_r.
    pose proof (Hshare _ _ 100 50 eq_refl Hs) as H1.
    pose proof (Hshare _ _ 20 25 eq_refl Hv) as H2.
    rewrite !Hdiv. revert H1 H2 Hr.
    generalize (Qmin (inject_Z (int_or_zero (sales_volume p)) / 100) 50).
    generalize (Qmin (inject_Z (int_or_zero (reviews_count p)) / 20) 25).
    generalize (Qmin (inject_Z (int_or_zero (sales_volume p')) / 100) 50).
    generalize (Qmin (inject_Z (int_or_zero (reviews_count p')) / 20) 25).
    intros; lra.
Qed.

End ScoreCaps.

(** ** The daily series of sales and ratings *)

Section DailySeries.
Import Store TrendAnalyzer Spec.

Lemma series_rows (columns : list string) (db : DB) (now : Q) (days : nat)
  (product_id platform category : option string) :
  run_history_query db
    (series_query columns (now - inject_Z (Z.of_nat days) * 86400)
       product_id platform category)
  = sort (asc_by ProductHistory.date)
      (filter (in_series_window now days product_id platform category)
         (product_history db)).
Proof.
  unfold run_history_query, series_query, in_series_window.
  destruct (truthy product_id) as [i|], (truthy platform) as [v|],
    (truthy category) as [c|]; simpl;
    f_equal; apply filter_ext; intro h; unfold history_matches; simpl;
    repeat match goal with
           | |- context [String.eqb ?a ?b] => destruct (String.eqb a b)
           | |- context [Qle_bool ?a ?b] => destruct (Qle_bool a b)
           end; reflexivity.
Qed.

Lemma Qsum_perm (l l' : list Q) : Permutation l l' -> Qsum l == Qsum l'.
Proof.
  induction 1 as [| x l l' _ IH | x y l | l l' l'' _ IH1 _ IH2].
  - reflexivity.
  - rewrite !Qsum_cons, IH. reflexivity.
  - rewrite !Qsum_cons. ring.
  - rewrite IH1. exact IH2.
Qed.

Lemma Qsum_map_ext (A : Type) (f g : A -> Q) (l : list A) :
  (forall x, In x l -> f x == g x) -> Qsum (map f l) == Qsum (map g l).
Proof.
  induction l as [|a l IH]; intro H; [reflexivity |]. simpl.
  rewrite !Qsum_cons, IH, (H a (or_introl eq_refl)).
  - reflexivity.
  - intros x Hx. apply H. right. exact Hx.
Qed.

Lemma Qsum_map_plus (A : Type) (f g : A -> Q) (l : list A) :
  Qsum (map (fun x => f x + g x) l) == Qsum (map f l) + Qsum (map g l).
Proof.
  induction l as [|a l IH]; [reflexivity |]. simpl.
  rewrite !Qsum_cons, IH. ring.
Qed.

Lemma filter_perm (A : Type) (f : A -> bool) (l l' : list A) :
  Permutation l l' -> Permutation (filter f l) (filter f l').
Proof.
  induction 1 as [| x l l' _ IH | x y l | l l' l'' _ IH1 _ IH2]; simpl.
  - constructor.
  - destruct (f x); [apply perm_skip |]; exact IH.
  - destruct (f x), (f y); try apply Permutation_refl. apply perm_swap.
  - eapply Permutation_trans; eassumption.
Qed.

Lemma filter_by_key (A K : Type) (key : A -> K) (value : A -> Q)
  (p : K -> bool) (l : list A) :
  map snd (filter (fun r => p (fst r)) (map (fun h => (key h, value h)) l))
  = map value (filter (fun h => p (key h)) l).
Proof.
  induction l as [|a l IH]; [reflexivity |]. simpl.
  destruct (p (key a)); simpl; rewrite IH; reflexivity.
Qed.

Section Grouped.
Variable K : Type.
Variable eqb : K -> K -> bool.
Variable leb : K -> K -> bool.
Hypothesis eqb_eq : forall x y, eqb x y = true <-> x = y.

Lemma Qsum_indicator (k0 : K) (v : Q) (ks : list K) :
  NoDup ks ->
  Qsum (map (fun k => if eqb k0 k then v else 0) ks)
  == if existsb (eqb k0) ks then v else 0.
Proof.
  induction 1 as [|k ks Hk _ IH]; [reflexivity |]. simpl.
  rewrite Qsum_cons, IH. destruct (eqb k0 k) eqn:E; simpl.
  - apply eqb_eq in E. subst k.
    destruct (existsb (eqb k0) ks) eqn:Ex; [| apply Qplus_0_r].
    apply existsb_exists in Ex as (x & Hx & Ex). apply eqb_eq in Ex.
    subst x. contradiction.
  - apply Qplus_0_l.
Qed.

(** The sums of the groups add up to the sum of the rows. *)
Lemma grouped_sums (ks : list K) (rows : list (K * Q)) :
  NoDup ks -> (forall r, In r rows -> In (fst r) ks) ->
  Qsum (map (fun k => Qsum (map snd (filter (fun r => eqb (fst r) k) rows)))
            ks)
  == Qsum (map snd rows).
Proof.
  intro Hnd. induction rows as [|[k0 v] rows IH]; intro Hin.
  - apply Qsum_zeros. apply Forall_forall. intros x Hx.
    apply in_map_iff in Hx as (k & <- & _). reflexivity.
  - transitivity
      (Qsum (map (fun k => (if eqb k0 k then v else 0)
                           + Qsum (map snd (filter (fun r => eqb (fst r) k)
                                              rows)))
                 ks)).
    + apply Qsum_map_ext. intros k _. simpl.
      destruct (eqb k0 k); simpl.
      * apply Qsum_cons.
      * symmetry. apply Qplus_0_l.
    + rewrite Qsum_map_plus, IH, Qsum_indicator by
        (try assumption; intros r Hr; apply Hin; right; exact Hr).
      simpl map. rewrite Qsum_cons.
      assert (Hk : existsb (eqb k0) ks = true).
      { apply existsb_exists. exists k0. split.
        - apply (Hin (k0, v)). left. reflexivity.
        - apply eqb_eq. reflexivity. }
      rewrite Hk. reflexivity.
Qed.

Lemma groupby_sum_total (rows : list (K * Q)) :
  Qsum (map snd (groupby eqb leb Qsum rows)) == Qsum (map snd rows).
Proof.
  unfold groupby. rewrite map_map. simpl. apply grouped_sums.
  - apply (Permutation_NoDup (Permutation_sym (sort_perm leb _))).
    apply distinct_NoDup, eqb_eq.
  - intros r Hr. apply sort_In. apply (proj2 (@distinct_In _ _ eqb_eq _ _)).
    apply in_map, Hr.
Qed.

Lemma groupby_entry (agg : list Q -> Q) (rows : list (K * Q)) (k : K) (v : Q) :
  In (k, v) (groupby eqb leb agg rows) ->
  In k (map fst rows)
  /\ v = agg (map snd (filter (fun r => eqb (fst r) k) rows)).
Proof.
  unfold groupby. intro H. apply in_map_iff in H as (k' & Heq & Hk).
  injection Heq as -> <-. split; [| reflexivity].
  apply sort_In in Hk. apply (proj1 (@distinct_In _ _ eqb_eq _ _)) in Hk.
  exact Hk.
Qed.

End Grouped.

Lemma combine_fst_snd (A B : Type) (l : list (A * B)) :
  combine (map fst l) (map snd l) = l.
Proof.
  induction l as [|[a b] l IH]; [reflexivity |]. simpl. now rewrite IH.
Qed.

Lemma sort_days_increasing (l : list Z) :
  NoDup l -> StronglySorted Z.lt (sort Z.leb l).
Proof.
  intro Hnd.
  assert (Hs : StronglySorted (fun a b => Z.leb a b = true) (sort Z.leb l)).
  { apply Sorted_StronglySorted.
    - intros x y z Hxy Hyz. apply Z.leb_le in Hxy, Hyz. apply Z.leb_le. lia.
    - apply sort_sorted. intros a b H. apply Z.leb_gt in H.
      apply Z.leb_le. lia. }
  assert (Hnd' : NoDup (sort Z.leb l))
    by (apply (Permutation_NoDup (Permutation_sym (sort_perm Z.leb l))), Hnd).
  induction Hs as [|a s Hs IH Hall]; constructor.
  - apply IH. inversion Hnd'; assumption.
  - inversion Hnd' as [|? ? Ha _]; subst.
    rewrite Forall_forall in *. intros x Hx.
    specialize (Hall x Hx). apply Z.leb_le in Hall.
    assert (a <> x) by (intros ->; contradiction). lia.
Qed.

Lemma groupby_days_increasing (agg : list Q -> Q) (rows : list (Z * Q)) :
  StronglySorted Z.lt (map fst (groupby Z.eqb Z.leb agg rows)).
Proof.
  rewrite groupby_keys. apply sort_days_increasing.
  apply distinct_NoDup, Z.eqb_eq.
Qed.

Lemma mean_bounds (l : list Q) (a b : Q) :
  l <> [] -> (forall x, In x l -> a <= x <= b) -> a <= mean l <= b.
Proof.
  intros Hne H. destruct (Qsum_bounds l H) as [Ha Hb].
  unfold mean. destruct l as [|x l]; [contradiction |].
  set (n := inject_Z (Z.of_nat (List.length (x :: l)))) in *.
  assert (Hn : 0 < n).
  { unfold n. rewrite <- (Zlt_Qlt 0). simpl. lia. }
  split.
  - apply Qle_shift_div_l; [exact Hn |]. rewrite Qmult_comm. exact Ha.
  - apply Qle_shift_div_r; [exact Hn |]. rewrite Qmult_comm. exact Hb.
Qed.

Lemma trend_between_level (l : list Q) (c : Q) :
  (forall x, In x l -> c <= x <= c) -> trend_between l = stable.
Proof.
  intro H. destruct l as [|a [|b l]]; try reflexivity.
  unfold trend_between.
  pose proof (H a (or_introl eq_refl)) as Ha.
  pose proof (H _ (last_of_list a (b :: l))) as Hl.
  destruct (Qltb a (last (a :: b :: l) a)) eqn:E1.
  { apply Qltb_lt in E1. lra. }
  destruct (Qltb (last (a :: b :: l) a) a) eqn:E2.
  { apply Qltb_lt in E2. lra. }
  reflexivity.
Qed.

(** The rows a series is drawn from, in the order the query returns
    them. *)
Lemma series_rows_In (db : DB) (now : Q) (days : nat)
  (product_id platform category : option string) (h : ProductHistory.t) :
  In h (sort (asc_by ProductHistory.date)
          (filter (in_series_window now days product_id platform category)
             (product_history db)))
  <-> In h (product_history db)
      /\ in_series_window now days product_id platform category h = true.
Proof. rewrite sort_In. apply filter_In. Qed.

(** X10. With the store up, the sales series has a sales value for each of
    its dates; its dates are the days on which the window holds a
    snapshot of the requested product, platform and category, and no
    other day; and its values add up to the sales volumes of all these
    snapshots.  Without a product id every such day is listed once, in
    ascending order, with the sum of the sales volumes of its snapshots. *)
Theorem sales_series_sums_snapshots_by_day (db : DB) (now : Q)
  (product_id platform category : option string) (days : nat) :
  exists out,
    get_sales_trend (connect db) now product_id platform category days
    = Ok out
    /\ List.length (series_dates out) = List.length (series_sales out)
    /\ (forall d,
          In d (series_dates out)
          <-> exists h,
                In h (product_history db)
                /\ in_series_window now days product_id platform category h
                   = true
                /\ day_of_row h = d)
    /\ Qsum (series_sales out)
       == Qsum (map sales_of_row
                  (filter
                     (in_series_window now days product_id platform category)
                     (product_history db)))
    /\ (truthy product_id = None ->
        StronglySorted Z.lt (series_dates out)
        /\ forall d v,
             In (d, v) (combine (series_dates out) (series_sales out)) ->
             v == Qsum (map sales_of_row
                          (filter (fun h => Z.eqb (day_of_row h) d)
                             (filter
                                (in_series_window now days product_id
                                   platform category)
                                (product_history db))))).
Proof.
  unfold get_sales_trend. cbn zeta.
  cbn [connect all_history bind try_except try_finally close].
  rewrite series_rows.
  pose proof (series_rows_In db now days product_id platform category)
    as Hrows.
  pose proof (sort_perm (asc_by ProductHistory.date)
                (filter
                   (in_series_window now days product_id platform category)
                   (product_history db))) as Hperm.
  set (window := filter _ (product_history db)) in *.
  set (rows := sort (asc_by ProductHistory.date) window) in *.
  assert (Hout : exists g,
             match rows with
             | [] => Ok (mkSalesSeries [] [] 0)
             | _ :: _ =>
                 match truthy product_id with
                 | Some _ =>
                     Ok (mkSalesSeries (map day_of_row rows)
                           (map sales_of_row rows)
                           (round2 (growth_between (map sales_of_row rows))))
                 | None =>
                     Ok (mkSalesSeries
                           (map fst (groupby Z.eqb Z.leb Qsum
                                       (by_day sales_of_row rows)))
                           (map snd (groupby Z.eqb Z.leb Qsum
                                       (by_day sales_of_row rows)))
                           (round2
                              (growth_between
                                 (map snd (groupby Z.eqb Z.leb Qsum
                                             (by_day sales_of_row rows))))))
                 end
             end
             = Ok (match truthy product_id with
                   | Some _ =>
                       mkSalesSeries (map day_of_row rows)
                         (map sales_of_row rows) g
                   | None =>
                       mkSalesSeries
                         (map fst (groupby Z.eqb Z.leb Qsum
                                     (by_day sales_of_row rows)))
                         (map snd (groupby Z.eqb Z.leb Qsum
                                     (by_day sales_of_row rows)))
                         g
                   end)).
  { destruct rows; destruct (truthy product_id); eexists; reflexivity. }
  destruct Hout as (g & ->). eexists. split; [reflexivity |].
  assert (Hdays : forall d,
             In d (map fst (by_day sales_of_row rows))
             <-> exists h,
                   In h (product_history db)
                   /\ in_series_window now days product_id platform category h
                      = true
                   /\ day_of_row h = d).
  { intro d. unfold by_day. rewrite map_map. simpl. rewrite in_map_iff.
    split.
    - intros (h & Hd & Hh). apply Hrows in Hh as [Hin Hw]. eauto.
    - intros (h & Hin & Hw & Hd). exists h. split; [exact Hd |].
      apply Hrows. split; assumption. }
  assert (Hsum : Qsum (map sales_of_row rows) == Qsum (map sales_of_row window))
    by (apply Qsum_perm, Permutation_map, Hperm).
  destruct (truthy product_id) as [i|]; cbn [series_dates series_sales].
  - split; [now rewrite !length_map |]. split; [| split; [exact Hsum |]].
    + intro d. rewrite <- Hdays. unfold by_day. rewrite map_map. reflexivity.
    + discriminate.
  - split; [now rewrite !length_map |]. split; [| split; [| intros _; split]].
    + intro d. rewrite <- Hdays, groupby_keys, sort_In.
      apply distinct_In, Z.eqb_eq.
    + rewrite (@groupby_sum_total _ _ Z.leb Z.eqb_eq). rewrite <- Hsum.
      unfold by_day. rewrite map_map. reflexivity.
    + apply groupby_days_increasing.
    + intros d v Hdv. rewrite combine_fst_snd in Hdv.
      apply (@groupby_entry _ _ Z.leb Z.eqb_eq) in Hdv as [_ ->].
      unfold by_day.
      rewrite (filter_by_key day_of_row sales_of_row (fun k => Z.eqb k d)).
      apply Qsum_perm, Permutation_map, filter_perm, Hperm.
Qed.

(** X11. With the store up, the rating series has a rating for each of
    its dates, and its dates are the days on which the window holds a
    snapshot of the requested product, platform and category.  With a
    product id every rating it reports is the rating of one of these
    snapshots, and when they all carry the same rating the trend is
    'stable'.  Without a product id each such day is listed once, in
    ascending order, and a day with a single snapshot reports the rating
    of that snapshot. *)
Theorem rating_series_reports_snapshot_ratings (db : DB) (now : Q)
  (product_id platform category : option string) (days : nat) :
  exists out,
    get_rating_trend (connect db) now product_id platform category days
    = Ok out
    /\ List.length (rating_dates out) = List.length (ratings out)
    /\ (forall d,
          In d (rating_dates out)
          <-> exists h,
                In h (product_history db)
                /\ in_series_window now days product_id platform category h
                   = true
                /\ day_of_row h = d)
    /\ (truthy product_id <> None ->
        (forall r,
           In r (ratings out) ->
           exists h,
             In h (product_history db)
             /\ in_series_window now days product_id platform category h
                = true
             /\ ProductHistory.rating h = r)
        /\ (forall c,
              (forall h,
                 In h (product_history db) ->
                 in_series_window now days product_id platform category h
                 = true ->
                 ProductHistory.rating h == c) ->
              trend out = stable))
    /\ (truthy product_id = None ->
        StronglySorted Z.lt (rating_dates out)
        /\ forall d r h,
             In (d, r) (combine (rating_dates out) (ratings out)) ->
             filter (fun h' => Z.eqb (day_of_row h') d)
               (filter
                  (in_series_window now days product_id platform category)
                  (product_history db))
             = [h] ->
             r == ProductHistory.rating h).
Proof.
  unfold get_rating_trend. cbn zeta.
  cbn [connect all_history bind try_except try_finally close].
  rewrite series_rows.
  pose proof (series_rows_In db now days product_id platform category)
    as Hrows.
  pose proof (sort_perm (asc_by ProductHistory.date)
                (filter
                   (in_series_window now days product_id platform category)
                   (product_history db))) as Hperm.
  set (window := filter _ (product_history db)) in *.
  set (rows := sort (asc_by ProductHistory.date) window) in *.
  assert (Hout :
             match rows with
             | [] => Ok (mkRatingSeries [] [] stable)
             | _ :: _ =>
                 match truthy product_id with
                 | Some _ =>
                     Ok (mkRatingSeries (map day_of_row rows)
                           (map ProductHistory.rating rows)
                           (trend_between (map ProductHistory.rating rows)))
                 | None =>
                     Ok (mkRatingSeries
                           (map fst (groupby Z.eqb Z.leb mean
                                       (by_day ProductHistory.rating rows)))
                           (map snd (groupby Z.eqb Z.leb mean
                                       (by_day ProductHistory.rating rows)))
                           (trend_between
                              (map snd (groupby Z.eqb Z.leb mean
                                          (by_day ProductHistory.rating
                                             rows)))))
                 end
             end
             = Ok (match truthy product_id with
                   | Some _ =>
                       mkRatingSeries (map day_of_row rows)
                         (map ProductHistory.rating rows)
                         (trend_between (map ProductHistory.rating rows))
                   | None =>
                       mkRatingSeries
                         (map fst (groupby Z.eqb Z.leb mean
                                     (by_day ProductHistory.rating rows)))
                         (map snd (groupby Z.eqb Z.leb mean
                                     (by_day ProductHistory.rating rows)))
                         (trend_between
                            (map snd (groupby Z.eqb Z.leb mean
                                        (by_day ProductHistory.rating
                                           rows))))
                   end)).
  { destruct rows; destruct (truthy product_id); reflexivity. }
  rewrite Hout. clear Hout. eexists. split; [reflexivity |].
  assert (Hdays : forall d,
             In d (map day_of_row rows)
             <-> exists h,
                   In h (product_history db)
                   /\ in_series_window now days product_id platform category h
                      = true
                   /\ day_of_row h = d).
  { intro d. rewrite in_map_iff. split.
    - intros (h & Hd & Hh). apply Hrows in Hh as [Hin Hw]. eauto.
    - intros (h & Hin & Hw & Hd). exists h. split; [exact Hd |].
      apply Hrows. split; assumption. }
  destruct (truthy product_id) as [i|]; cbn [rating_dates ratings trend].
  - split; [now rewrite !length_map |]. split; [exact Hdays |].
    split; [| intro H; discriminate H]. intros _. split.
    + intros r Hr. apply in_map_iff in Hr as (h & <- & Hh).
      apply Hrows in Hh as [Hin Hw]. exists h. repeat split; assumption.
    + intros c Hc. apply trend_between_level with c. intros x Hx.
      apply in_map_iff in Hx as (h & <- & Hh).
      apply Hrows in Hh as [Hin Hw]. rewrite (Hc h Hin Hw).
      split; apply Qle_refl.
  - split; [now rewrite !length_map |]. split.
    + intro d. rewrite <- Hdays, groupby_keys, sort_In.
      rewrite (@distinct_In _ _ Z.eqb_eq). unfold by_day.
      rewrite map_map. reflexivity.
    + split; [intro H; now contradiction H |]. intros _.
      split; [apply groupby_days_increasing |].
      intros d r h Hdr Hone. rewrite combine_fst_snd in Hdr.
      apply (@groupby_entry _ _ Z.leb Z.eqb_eq) in Hdr as [_ ->].
      unfold by_day.
      rewrite (filter_by_key day_of_row ProductHistory.rating
                 (fun k => Z.eqb k d)).
      assert (Hp : Permutation (filter (fun h' => Z.eqb (day_of_row h') d)
                                  rows) [h]).
      { rewrite <- Hone. apply filter_perm, Hperm. }
      apply Permutation_sym, Permutation_length_1_inv in Hp. rewrite Hp.
      unfold mean. simpl. unfold Qsum. simpl. field.
Qed.

End DailySeries.

(** ** The totals and the series of the category trend *)

Section CategoryTotals.
Import Store TrendAnalyzer Spec.






End CategoryTotals.

(** ** What the rates of change read *)

Section FirstAndLastDay.
Import Store TrendAnalyzer Spec.

Lemma window_in_scope (now : Q) (days : nat)
  (platform category : option string) (h : ProductHistory.t) :
  in_trend_window now days platform category h = true ->
  in_trend_scope platform category h = true.
Proof.
  unfold in_trend_window, in_trend_scope. rewrite !andb_true_iff. tauto.
Qed.

Lemma column_set_column (df : DataFrame) (name : string)
  (values : list (option Q)) :
  column (set_column df name values) name = values.
Proof.
  unfold column, set_column. simpl.
  induction (columns df) as [|[k v] d IH]; simpl.
  - rewrite String.eqb_refl. reflexivity.
  - destruct (String.eqb k name) eqn:E; simpl; rewrite E;
      [reflexivity | exact IH].
Qed.

Lemma window_days_ordered (now : Q) (days : nat) :
  (day_of (now - inject_Z (Z.of_nat days) * 86400) <= day_of now)%Z.
Proof.
  unfold day_of. apply Qfloor_resp_le.
  apply Qmult_le_compat_r; [| discriminate].
  assert (H : 0 <= inject_Z (Z.of_nat days))
    by (rewrite <- (Zle_Qle 0); lia).
  revert H. generalize (inject_Z (Z.of_nat days)). intros; lra.
Qed.

(** The days of a window, counted from its first day. *)
Lemma date_range_by_offset (s e : Z) :
  (s <= e)%Z ->
  exists m,
    date_range s e = map (fun i => (s + Z.of_nat i)%Z) (seq 0 (S m))
    /\ (s + Z.of_nat m = e)%Z.
Proof.
  intro H. exists (Z.to_nat (e - s)). unfold date_range.
  replace (Z.to_nat (e - s + 1)) with (S (Z.to_nat (e - s))) by lia.
  split; [reflexivity | lia].
Qed.

Lemma nth_error_map_seq (B : Type) (g : nat -> B) (n i : nat) :
  (i < n)%nat -> nth_error (map g (seq 0 n)) i = Some (g i).
Proof.
  intro H. rewrite nth_error_map.
  rewrite (nth_error_nth' (seq 0 n) 0%nat) by (rewrite length_seq; exact H).
  rewrite seq_nth by exact H. reflexivity.
Qed.

Lemma last_map_seq (B : Type) (g : nat -> B) (m : nat) (default : B) :
  last (map g (seq 0 (S m))) default = g m.
Proof. rewrite seq_S, map_app. simpl. apply last_last. Qed.

(** In a reindexed frame the row of a label the frame did not have holds
    NaN in every column. *)
Lemma reindexed_row_absent (df : DataFrame) (dates : list Z) (i : nat) (d : Z)
  (c : string * list (option Q)) :
  nth_error dates i = Some d -> ~ In d (index df) ->
  In c (columns (reindex dates df)) -> nth i (snd c) None = None.
Proof.
  intros Hi Hd Hc. unfold reindex in Hc. simpl in Hc.
  apply in_map_iff in Hc as (c0 & <- & _). simpl.
  rewrite (nth_map_at _ _ _ _ Hi). apply value_at_absent, Hd.
Qed.

Lemma zero_filled_row_absent (df : DataFrame) (dates : list Z) (i : nat)
  (d : Z) :
  nth_error dates i = Some d -> ~ In d (index df) ->
  Qsum (row_values (fillna 0 (reindex dates df)) i) == 0.
Proof.
  intros Hi Hd. apply Qsum_zeros. unfold row_values.
  apply Forall_flat_map. apply Forall_forall. intros c Hc.
  unfold fillna, reindex in Hc. cbn [columns] in Hc.
  rewrite map_map in Hc. apply in_map_iff in Hc as (c0 & <- & _).
  cbn [fst snd]. rewrite map_map.
  rewrite (nth_map_at _ _ _ _ Hi), value_at_absent by exact Hd.
  constructor; [reflexivity | constructor].
Qed.

(** The rate of change of the row sums of a frame reads its first and
    its last row. *)
Lemma rate_of_row_sums (F : DataFrame) (m : nat) :
  List.length (index F) = S m ->
  exists x,
    rate_of_change (sum_axis1 F) = Some x
    /\ (Qsum (row_values F 0) == 0 -> x == 0)
    /\ (Qsum (row_values F m) == 0 -> x == 0 \/ x == -100).
Proof.
  intro Hlen. unfold sum_axis1, rate_of_change. rewrite Hlen.
  rewrite last_map_seq. cbn [seq map hd].
  generalize (Qsum (row_values F 0)), (Qsum (row_values F m)).
  intros b a. destruct (Qltb 0 b) eqn:E.
  - eexists. split; [reflexivity |]. apply Qltb_lt in E. split.
    + intro Hb. rewrite Hb in E. discriminate E.
    + intro Ha. right. rewrite Ha. field. intro H0. rewrite H0 in E.
      discriminate E.
  - exists 0. split; [reflexivity |]. split; [reflexivity |].
    intros _. left. reflexivity.
Qed.

(** X12. With the store up, the growth rate of the sales trend is always a
    number, and it reads only the first and the last day of the analysis
    period it returns: it is 0 when no snapshot of the platform and
    category falls on the first day of the period, whatever the other days
    hold, and it is 0 or -100 when none falls on the last day.  The day of
    a snapshot is the day of its timestamp. *)
Theorem sales_growth_reads_first_and_last_day (db : DB) (now : Q)
  (platform category : option string) (days : nat) :
  exists r x,
    analyze_sales_trend (connect db) now platform category days = Ok (Some r)
    /\ sales_growth_rate r = Some x
    /\ ((forall h,
           In h (product_history db) ->
           in_trend_scope platform category h = true ->
           day_of_row h <> fst (sales_analysis_period r)) ->
        x == 0)
    /\ ((forall h,
           In h (product_history db) ->
           in_trend_scope platform category h = true ->
           day_of_row h <> snd (sales_analysis_period r)) ->
        x == 0 \/ x == -100).
Proof.
  unfold analyze_sales_trend. cbn zeta.
  cbn [connect all_history bind try_except try_finally close].
  rewrite window_rows.
  set (rows := filter (in_trend_window now days platform category)
                 (product_history db)).
  destruct (date_range_by_offset (window_days_ordered now days))
    as (m & Hdates & Hlast).
  rewrite Hdates.
  match goal with
  | |- context [reindex _ ?f] =>
      set (df := f);
      assert (Hdays : forall d, In d (index df) ->
                                exists h, In h rows /\ day_of_row h = d)
  end.
  { subst df. destruct (truthy platform), (truthy category);
      first [apply grouped_days | apply single_series_days]. }
  set (start_day := day_of (now - inject_Z (Z.of_nat days) * 86400)) in *.
  set (dates := map (fun i => (start_day + Z.of_nat i)%Z) (seq 0 (S m))).
  assert (Habsent : forall d,
             (forall h, In h (product_history db) ->
                        in_trend_scope platform category h = true ->
                        day_of_row h <> d) ->
             ~ In d (index df)).
  { intros d Hnone Hd. destruct (Hdays d Hd) as (h & Hh & Hday).
    apply filter_In in Hh as [Hin Hw].
    exact (Hnone h Hin (window_in_scope _ _ _ _ _ Hw) Hday). }
  assert (Hfirst : nth_error dates 0 = Some start_day).
  { unfold dates. rewrite nth_error_map_seq by lia. f_equal. simpl. lia. }
  assert (Hend : nth_error dates m = Some (day_of now)).
  { unfold dates. rewrite nth_error_map_seq by lia. f_equal. exact Hlast. }
  set (F := fillna 0 (reindex dates df)).
  assert (Hlen : List.length (index F) = S m).
  { unfold F, dates. cbn [index fillna reindex].
    now rewrite length_map, length_seq. }
  destruct (rate_of_row_sums F Hlen) as (x & Hx & Hzero & Hdrop).
  eexists. exists x. split; [reflexivity |].
  cbn [sales_growth_rate sales_analysis_period fst snd].
  rewrite column_set_column. split; [exact Hx |]. split.
  - intro Hnone. apply Hzero.
    apply (zero_filled_row_absent df dates 0 Hfirst (Habsent _ Hnone)).
  - intro Hnone. apply Hdrop.
    apply (zero_filled_row_absent df dates m Hend (Habsent _ Hnone)).
Qed.

Lemma ffill_from_defined (y : Q) (col : list (option Q)) :
  Forall (fun v => v <> None) (ffill_from (Some y) col).
Proof.
  revert y; induction col as [|[v|] col IH]; intro y; simpl; constructor;
    try discriminate; apply IH.
Qed.

(** A forward-filled column that starts with a number holds a number on
    every row. *)
Lemma ffill_defined_from_first (col : list (option Q)) :
  hd None (ffill_from None col) <> None ->
  Forall (fun v => v <> None) (ffill_from None col).
Proof.
  destruct col as [|[v|] col]; simpl; intro H.
  - constructor.
  - constructor; [discriminate | apply ffill_from_defined].
  - contradiction.
Qed.

Lemma ffill_from_length (prev : option Q) (col : list (option Q)) :
  List.length (ffill_from prev col) = List.length col.
Proof.
  revert prev; induction col as [|v col IH]; intro prev; simpl;
    [reflexivity | now rewrite IH].
Qed.

Lemma rate_of_change_defined (col : list (option Q)) :
  (hd None col <> None -> Forall (fun v => v <> None) col) ->
  exists x, rate_of_change col = Some x.
Proof.
  intro H. unfold rate_of_change. destruct col as [|[f|] col]; cbn [hd].
  - exists 0. reflexivity.
  - destruct (Qltb 0 f); [| eauto].
    destruct (last (Some f :: col) (Some 0)) as [l|] eqn:E; [eauto |].
    exfalso.
    rewrite (@last_default _ (Some f :: col) (Some 0) (Some f)) in E
      by discriminate.
    pose proof (last_of_list (Some f) col) as Hin. rewrite E in Hin.
    assert (Hall : Forall (fun v : option Q => v <> None) (Some f :: col))
      by (apply H; discriminate).
    rewrite Forall_forall in Hall. exact (Hall None Hin eq_refl).
  - eauto.
Qed.

Lemma row_values_nonempty (F : DataFrame) (i : nat) :
  row_values F i <> []
  <-> exists c, In c (columns F) /\ nth i (snd c) None <> None.
Proof.
  unfold row_values. induction (columns F) as [|c cs IH]; simpl.
  - split; [intro H; now contradiction H | intros (c & [] & _)].
  - destruct (nth i (snd c) None) as [v|] eqn:E; simpl.
    + split; [| discriminate]. intros _. exists c. split; [now left |].
      rewrite E. discriminate.
    + rewrite IH. split.
      * intros (c' & Hc' & Hn). exists c'. split; [now right | exact Hn].
      * intros (c' & [<- | Hc'] & Hn); [now rewrite E in Hn |].
        exists c'. split; assumption.
Qed.

(** The row means of a frame whose columns are forward-filled: a number
    on the first row gives a number on every row. *)
Lemma mean_axis1_defined (F : DataFrame) :
  (forall c, In c (columns F) ->
             List.length (snd c) = List.length (index F)
             /\ (hd None (snd c) <> None ->
                 Forall (fun v => v <> None) (snd c))) ->
  hd None (mean_axis1 F) <> None ->
  Forall (fun v => v <> None) (mean_axis1 F).
Proof.
  intros Hcols Hhd. unfold mean_axis1 in *.
  destruct (List.length (index F)) as [|m] eqn:Hlen; [constructor |].
  cbn [seq map hd] in Hhd.
  assert (H0 : row_values F 0 <> []).
  { intro E. rewrite E in Hhd. now apply Hhd. }
  apply row_values_nonempty in H0 as (c & Hc & Hn).
  destruct (Hcols c Hc) as [Hl Hall].
  assert (Hfilled : Forall (fun v => v <> None) (snd c)).
  { apply Hall. destruct (snd c); exact Hn. }
  rewrite Forall_forall in *. intros v Hv.
  apply in_map_iff in Hv as (i & <- & Hi). apply in_seq in Hi.
  assert (Hrow : row_values F i <> []).
  { apply row_values_nonempty. exists c. split; [exact Hc |].
    apply Hfilled, nth_In. lia. }
  destruct (row_values F i); [contradiction | discriminate].
Qed.

(** X13. With the store up, the price change rate is always a number, and
    it is 0 when no snapshot of the platform and category falls on the
    first day of the analysis period the trend returns, whatever the
    prices of the other days are.  The day of a snapshot is the day of its
    timestamp. *)
Theorem price_change_zero_without_first_day (db : DB) (now : Q)
  (platform category : option string) (days : nat) :
  exists r x,
    analyze_price_trend (connect db) now platform category days = Ok (Some r)
    /\ price_change_rate r = Some x
    /\ ((forall h,
           In h (product_history db) ->
           in_trend_scope platform category h = true ->
           day_of_row h <> fst (price_analysis_period r)) ->
        x = 0).
Proof.
  unfold analyze_price_trend. cbn zeta.
  cbn [connect all_history bind try_except try_finally close].
  rewrite window_rows.
  set (rows := filter (in_trend_window now days platform category)
                 (product_history db)).
  destruct (date_range_by_offset (window_days_ordered now days))
    as (m & Hdates & _).
  rewrite Hdates.
  match goal with
  | |- context [reindex _ ?f] =>
      set (df := f);
      assert (Hdays : forall d, In d (index df) ->
                                exists h, In h rows /\ day_of_row h = d)
  end.
  { subst df. destruct (truthy platform), (truthy category);
      first [apply grouped_days | apply single_series_days]. }
  set (start_day := day_of (now - inject_Z (Z.of_nat days) * 86400)) in *.
  set (dates := map (fun i => (start_day + Z.of_nat i)%Z) (seq 0 (S m))).
  set (F := ffill (reindex dates df)).
  set (col := column (if has_column F "average_price" then F
                      else set_column F "average_price" (mean_axis1 F))
                "average_price").
  assert (Hfilled : forall c, In c (columns F) ->
             List.length (snd c) = List.length (index F)
             /\ (hd None (snd c) <> None ->
                 Forall (fun v => v <> None) (snd c))).
  { intros c Hc. unfold F, ffill, reindex in Hc. cbn [columns index] in Hc.
    rewrite map_map in Hc. apply in_map_iff in Hc as (c0 & <- & _).
    cbn [fst snd]. split.
    - unfold F. cbn [index ffill reindex].
      now rewrite ffill_from_length, length_map.
    - apply ffill_defined_from_first. }
  assert (Hcol : hd None col <> None -> Forall (fun v => v <> None) col).
  { unfold col. destruct (has_column F "average_price").
    - unfold column.
      destruct (find _ (columns F)) as [c|] eqn:Ef; [| constructor].
      apply find_some in Ef as [Hc _]. apply Hfilled, Hc.
    - rewrite column_set_column. apply mean_axis1_defined, Hfilled. }
  destruct (@rate_of_change_defined col Hcol) as (x & Hx).
  eexists. exists x. split; [reflexivity |].
  cbn [price_change_rate price_analysis_period fst].
  fold F. fold col. split; [exact Hx |]. intro Hnone.
  assert (Habsent : ~ In start_day (index df)).
  { intro Hd. destruct (Hdays _ Hd) as (h & Hh & Hday).
    apply filter_In in Hh as [Hin Hw].
    exact (Hnone h Hin (window_in_scope _ _ _ _ _ Hw) Hday). }
  assert (Hfirst : nth_error dates 0 = Some start_day).
  { unfold dates. rewrite nth_error_map_seq by lia. f_equal. simpl. lia. }
  assert (Hcols : forall c, In c (columns F) -> hd None (snd c) = None).
  { intros c Hc. unfold F, ffill in Hc. cbn [columns] in Hc.
    apply in_map_iff in Hc as (c0 & <- & Hc0). cbn [snd].
    pose proof (reindexed_row_absent df dates 0 c0 Hfirst Habsent Hc0) as Hn.
    destruct (snd c0) as [|[v|] l]; simpl in *;
      [reflexivity | discriminate | reflexivity]. }
  assert (Hrate : forall l, hd None l = None -> rate_of_change l = Some 0).
  { intros [|[v|] l]; simpl; intro H;
      [reflexivity | discriminate | reflexivity]. }
  assert (Hzero : rate_of_change col = Some 0).
  { apply Hrate. unfold col. destruct (has_column F "average_price").
    - unfold column.
      destruct (find _ (columns F)) as [c|] eqn:Ef; [| reflexivity].
      apply find_some in Ef as [Hc _]. apply Hcols, Hc.
    - rewrite column_set_column. unfold mean_axis1.
      replace (List.length (index F)) with (S m)
        by (unfold F, dates; cbn [index ffill reindex];
            now rewrite length_map, length_seq).
      cbn [seq map hd].
      assert (Hrow : row_values F 0 = []).
      { destruct (row_values F 0) eqn:E; [reflexivity |]. exfalso.
        assert (Hne : row_values F 0 <> []) by (rewrite E; discriminate).
        apply row_values_nonempty in Hne as (c & Hc & Hn).
        apply Hn. pose proof (Hcols c Hc) as H0.
        destruct (snd c); [reflexivity | exact H0]. }
      rewrite Hrow. reflexivity. }
  rewrite Hzero in Hx. injection Hx as <-. reflexivity.
Qed.

End FirstAndLastDay.

(** ** The lists the database manager reads *)

Section StoredLists.
Import Store RankingEngine Spec.

Lemma get_products_connect (db : DB) (platform category : option string)
  (limit : nat) :
  DatabaseManager.get_products (connect db) platform category limit
  = Ok (firstn limit
          (sort (desc_by Product.popularity_score)
             (candidates_as_given db platform category))).
Proof.
  unfold candidates_as_given. rewrite <- (candidate_query (fun v => v)).
  unfold DatabaseManager.get_products.
  destruct (truthy platform), (truthy category); reflexivity.
Qed.

(** X14. With the store up, the product list of the database manager
    holds the products of the platform and category as they are given,
    those with the highest stored popularity score: the list is in
    descending order of that score, it and a remainder make up the
    matching products, its length is the smaller of [limit] and their
    number, and no product of the remainder has a higher score than a
    listed one. *)
Theorem stored_products_by_popularity_score (db : DB)
  (platform category : option string) (limit : nat) :
  exists out rest,
    DatabaseManager.get_products (connect db) platform category limit = Ok out
    /\ sorted_desc Product.popularity_score out
    /\ Permutation (out ++ rest) (candidates_as_given db platform category)
    /\ List.length out
       = Nat.min limit
           (List.length (candidates_as_given db platform category))
    /\ (forall p q, In p out -> In q rest ->
                    Product.popularity_score q <= Product.popularity_score p).
Proof.
  set (sorted := sort (desc_by Product.popularity_score)
                   (candidates_as_given db platform category)).
  exists (firstn limit sorted), (skipn limit sorted).
  split; [apply get_products_connect |]. split; [| split; [| split]].
  - apply Sorted_firstn, sort_desc_sorted.
  - rewrite firstn_skipn. apply sort_perm.
  - rewrite length_firstn. unfold sorted. rewrite sort_length. reflexivity.
  - intros p q Hp Hq.
    apply firstn_before_skipn
      with (R := fun x y => Product.popularity_score y
                            <= Product.popularity_score x)
           (n := limit) (l := sorted); try assumption.
    apply sort_desc_strongly_sorted.
Qed.

Lemma get_categories_connect (db : DB) (platform : option string) :
  DatabaseManager.get_categories (connect db) platform
  = Ok (sort String.leb
          (filter non_empty
             (distinct String.eqb
                (map Product.category
                   (candidates_as_given db platform None))))).
Proof.
  unfold candidates_as_given.
  pose proof (candidate_query (fun v => v) db platform None) as Hq.
  cbn [truthy] in Hq. rewrite <- Hq.
  unfold DatabaseManager.get_categories.
  destruct (truthy platform); reflexivity.
Qed.

Lemma non_empty_spec (c : string) : non_empty c = true <-> c <> ""%string.
Proof.
  destruct c; simpl; split; intro H; try reflexivity; try discriminate.
  contradiction.
Qed.

Lemma sort_names_increasing (l : list string) :
  NoDup l -> Sorted (fun a b => String.ltb a b = true) (sort String.leb l).
Proof.
  intro Hnd.
  assert (Hs : Sorted (fun a b => String.leb a b = true) (sort String.leb l)).
  { apply sort_sorted. intros a b H.
    destruct (String.leb_total a b) as [H' | H']; [congruence | exact H']. }
  assert (Hnd' : NoDup (sort String.leb l))
    by (apply (Permutation_NoDup (Permutation_sym (sort_perm String.leb l))),
          Hnd).
  induction Hs as [|a s Hs IH Hhd]; constructor.
  - apply IH. inversion Hnd'; assumption.
  - inversion Hnd' as [|? ? Ha _]; subst.
    destruct Hhd as [|b s Hab]; constructor.
    unfold String.leb in Hab. unfold String.ltb.
    destruct (String.compare a b) eqn:E; try reflexivity; try discriminate.
    apply String.compare_eq_iff in E. subst b. exfalso. apply Ha.
    left. reflexivity.
Qed.

(** X15. With the store up, the category list of the database manager is
    in strictly ascending order, so it names no category twice, and it
    names exactly the categories, other than the empty one, of the
    products whose platform is the given one. *)
Theorem stored_categories_sorted_and_complete (db : DB)
  (platform : option string) :
  exists out,
    DatabaseManager.get_categories (connect db) platform = Ok out
    /\ Sorted (fun a b => String.ltb a b = true) out
    /\ (forall c,
          In c out
          <-> c <> ""%string
              /\ exists p, In p (candidates_as_given db platform None)
                           /\ Product.category p = c).
Proof.
  eexists. split; [apply get_categories_connect |]. split.
  - apply sort_names_increasing, NoDup_filter, distinct_NoDup, String.eqb_eq.
  - intro c. rewrite sort_In, filter_In, non_empty_spec.
    rewrite (@distinct_In _ _ String.eqb_eq), in_map_iff.
    split.
    + intros [(p & Hc & Hp) Hne]. split; [exact Hne | eauto].
    + intros [Hne (p & Hp & Hc)]. split; [eauto | exact Hne].
Qed.

End StoredLists.

(** ** The orchestrator *)

Section Orchestrator.
Import Store RankingEngine Spec.

Lemma named_category_candidates (db : DB) (platform : option string)
  (c : string) (p : Product.t) :
  c <> ""%string ->
  In p (candidates db platform (Some c))
  <-> In p (candidates db platform None) /\ Product.category p = c.
Proof.
  intro Hc. unfold candidates. rewrite !filter_In. unfold selected_by.
  destruct c as [|a c]; [contradiction |]. cbn [truthy].
  rewrite andb_true_r, andb_true_iff, String.eqb_eq. tauto.
Qed.

(** What the ranking engine stores for a named category whose hot ranking
    is not empty. *)
Lemma engine_category_entries (db : DB) (platform : option string)
  (limit_per_category : nat) :
  exists res,
    RankingEngine.get_category_rankings (connect db) platform
      limit_per_category = Ok res
    /\ forall c ranked,
         c <> ""%string -> ranked <> [] ->
         RankingEngine.get_hot_products (connect db) platform (Some c) "week"
           limit_per_category = Ok ranked ->
         In (c, ranked) res.
Proof.
  set (ranking := fun c : string =>
         with_rank
           (firstn limit_per_category
              (sort (desc_by hot_score) (candidates db platform (Some c))))).
  assert (Hhot : forall c, RankingEngine.get_hot_products (connect db)
                             platform (Some c) "week" limit_per_category
                           = Ok (ranking c))
    by (intro c; apply hot_products_connect).
  set (categories :=
         filter non_empty
           (distinct String.eqb
              (map Product.category (candidates db platform None)))).
  destruct (@result_map_loop string (fun c => c) ranking
              (fun result category =>
                 products <- RankingEngine.get_hot_products (connect db)
                               platform (Some category) "week"
                               limit_per_category ;;
                 match products with
                 | [] => Ok result
                 | _ => Ok (dict_set result category products)
                 end))
    with (l := categories) (acc := @nil (string * list RankedProduct))
    as (res & Hres & Hin & Hkeys & _ & _).
  { intros acc c. rewrite Hhot. cbn [bind]. destruct (ranking c); reflexivity. }
  exists res. split.
  - unfold RankingEngine.get_category_rankings. cbn zeta.
    cbn [connect all_products bind try_except try_finally close].
    pose proof (candidate_query lower db platform None) as Hq.
    cbn [truthy] in Hq. rewrite Hq. fold (candidates db platform None).
    fold categories. rewrite Hres. reflexivity.
  - intros c ranked Hc Hne Hranked. rewrite Hhot in Hranked.
    injection Hranked as <-.
    assert (Hcat : In c categories).
    { destruct (sort (desc_by hot_score) (candidates db platform (Some c)))
        as [|p l] eqn:E.
      - exfalso. apply Hne. unfold ranking. rewrite E.
        now rewrite firstn_nil.
      - assert (Hp : In p (candidates db platform (Some c))).
        { apply (sort_In (desc_by hot_score)). rewrite E. left. reflexivity. }
        apply named_category_candidates in Hp as [Hp Hpc]; [| exact Hc].
        unfold categories. apply filter_In. split.
        + apply (proj2 (@distinct_In _ _ String.eqb_eq _ _)).
          rewrite <- Hpc. apply in_map, Hp.
        + apply non_empty_spec, Hc. }
    pose proof (Hkeys c Hcat Hne) as Hkey. simpl in Hkey.
    apply in_map_iff in Hkey as ([c' r] & Hfst & Hentry). simpl in Hfst.
    subst c'.
    destruct (Hin c r Hentry) as [[] | (x & _ & Hx & Hr & _)].
    simpl in Hx. subst x r. exact Hentry.
Qed.

(** X16. With the store up, the category rankings of the orchestrator
    have at most ten entries, each under its own category, which is one
    of the first ten of the database manager's category list; none is
    empty; and each is an entry of the category rankings of the ranking
    engine for the same platform and limit. *)
Theorem orchestrator_category_rankings_of_first_ten (db : DB)
  (platform : option string) (limit_per_category : nat) :
  exists result categories engine_result,
    SystemOrchestrator.get_category_rankings (connect db) platform
      limit_per_category = Ok result
    /\ DatabaseManager.get_categories (connect db) platform = Ok categories
    /\ RankingEngine.get_category_rankings (connect db) platform
         limit_per_category = Ok engine_result
    /\ (List.length result <= 10)%nat
    /\ NoDup (map fst result)
    /\ (forall c ranked,
          In (c, ranked) result ->
          In c (firstn 10 categories)
          /\ ranked <> []
          /\ In (c, ranked) engine_result).
Proof.
  set (ranking := fun c : string =>
         with_rank
           (firstn limit_per_category
              (sort (desc_by hot_score) (candidates db platform (Some c))))).
  assert (Hhot : forall c, RankingEngine.get_hot_products (connect db)
                             platform (Some c) "week" limit_per_category
                           = Ok (ranking c))
    by (intro c; apply hot_products_connect).
  pose proof (get_categories_connect db platform) as Hcats.
  set (categories := sort String.leb _) in Hcats.
  destruct (@result_map_loop string (fun c => c) ranking
              (fun result category =>
                 products <- SystemOrchestrator.get_hot_products (connect db)
                               platform (Some category) "week"
                               limit_per_category ;;
                 match products with
                 | [] => Ok result
                 | _ => Ok (dict_set result category products)
                 end))
    with (l := firstn 10 categories)
         (acc := @nil (string * list RankedProduct))
    as (res & Hres & Hin & _ & _ & Hnd).
  { intros acc c. unfold SystemOrchestrator.get_hot_products.
    rewrite Hhot. cbn [bind]. destruct (ranking c); reflexivity. }
  destruct (engine_category_entries db platform limit_per_category)
    as (engine_result & Hengine & Hentries).
  assert (Hfrom : forall c ranked,
             In (c, ranked) res ->
             In c (firstn 10 categories) /\ ranked = ranking c
             /\ ranked <> []).
  { intros c ranked H.
    destruct (Hin c ranked H) as [[] | (x & Hx & <- & <- & Hne)].
    repeat split; assumption. }
  exists res, categories, engine_result.
  split; [| split; [exact Hcats | split; [exact Hengine |]]].
  - unfold SystemOrchestrator.get_category_rankings,
      SystemOrchestrator.get_categories.
    rewrite Hcats. cbn [bind]. exact Hres.
  - split; [| split; [apply Hnd; constructor |]].
    + rewrite <- (length_map fst).
      apply Nat.le_trans with (List.length (firstn 10 categories));
        [| apply firstn_le_length].
      apply NoDup_incl_length; [apply Hnd; constructor |].
      intros c Hc. apply in_map_iff in Hc as ([c' r] & <- & Hentry).
      apply (Hfrom c' r Hentry).
    + intros c ranked H. destruct (Hfrom c ranked H) as (Hc & Hr & Hne).
      split; [exact Hc |]. split; [exact Hne |].
      apply Hentries; [| exact Hne | rewrite Hr; apply Hhot].
      apply In_firstn in Hc. unfold categories in Hc.
      apply sort_In in Hc. apply filter_In in Hc as [_ Hc].
      apply non_empty_spec, Hc.
Qed.

End Orchestrator.

(** ** The rating distribution *)

Section RatingBuckets.
Import Store RankingEngine Spec SystemOrchestrator.

Lemma Qle_bool_false (a b : Q) : Qle_bool a b = false <-> b < a.
Proof.
  split; intro H.
  - apply Qnot_le_lt. intro Hle. apply Qle_bool_iff in Hle. congruence.
  - destruct (Qle_bool a b) eqn:E; [| reflexivity].
    apply Qle_bool_iff in E. exfalso. exact (Qlt_not_le _ _ H E).
Qed.

(** A rating that is not negative falls into one bucket when it is below
    5, and into none otherwise. *)
Lemma rating_in_one_bucket (r : Q) :
  0 <= r ->
  fold_right Nat.add 0%nat
    (map (fun i => if Qle_bool (bucket_lower i) r && Qltb r (bucket_upper i)
                   then 1%nat else 0%nat)
         [0; 1; 2; 3; 4; 5]%Z)
  = if Qltb r 5 then 1%nat else 0%nat.
Proof.
  intro Hr. cbn [map fold_right]. unfold Qltb.
  change (bucket_lower 0) with 0. change (bucket_upper 0) with (1 # 2).
  change (bucket_lower 1) with (1 # 2). change (bucket_upper 1) with (3 # 2).
  change (bucket_lower 2) with (3 # 2). change (bucket_upper 2) with (5 # 2).
  change (bucket_lower 3) with (5 # 2). change (bucket_upper 3) with (7 # 2).
  change (bucket_lower 4) with (7 # 2). change (bucket_upper 4) with (9 # 2).
  change (bucket_lower 5) with (9 # 2). change (bucket_upper 5) with 5.
  destruct (Qle_bool 0 r) eqn:E0;
    [| apply Qle_bool_false in E0; exfalso; lra].
  destruct (Qle_bool (1 # 2) r) eqn:E1, (Qle_bool (3 # 2) r) eqn:E2,
    (Qle_bool (5 # 2) r) eqn:E3, (Qle_bool (7 # 2) r) eqn:E4,
    (Qle_bool (9 # 2) r) eqn:E5, (Qle_bool 5 r) eqn:E6;
    try reflexivity; exfalso;
    repeat match goal with
           | H : Qle_bool _ _ = true |- _ => apply Qle_bool_iff in H
           | H : Qle_bool _ _ = false |- _ => apply Qle_bool_false in H
           end; lra.
Qed.

Lemma bucket_counts_total (l : list Q) :
  (forall r, In r l -> 0 <= r) ->
  fold_right Nat.add 0%nat
    (map (fun i => bucket_count l i) [0; 1; 2; 3; 4; 5]%Z)
  = List.length (filter (fun r => Qltb r 5) l).
Proof.
  induction l as [|r l IH]; intro H; [reflexivity |].
  assert (Hr : 0 <= r) by (apply H; left; reflexivity).
  specialize (IH (fun x Hx => H x (or_intror Hx))).
  pose proof (rating_in_one_bucket Hr) as Hone.
  cbn [map fold_right] in *. unfold bucket_count in *. cbn [filter].
  destruct (Qltb r 5); cbn [List.length]; rewrite <- IH; clear IH;
    repeat match goal with
           | |- context [if ?b then _ else _] => destruct b
           end; cbn [List.length] in *; lia.
Qed.

Lemma np_median_bounds (l : list Q) (a b : Q) :
  l <> [] -> (forall x, In x l -> a <= x <= b) -> a <= np_median l <= b.
Proof.
  intros Hne H. unfold np_median.
  assert (Hlen : (0 < List.length l)%nat)
    by (destruct l; [contradiction | simpl; lia]).
  assert (Hnth : forall i, (i < List.length l)%nat ->
                           a <= nth i (sort (asc_by (fun x => x)) l) 0 <= b).
  { intros i Hi. apply H. apply (sort_In (asc_by (fun x => x))).
    apply nth_In. rewrite sort_length. exact Hi. }
  assert (Hhalf : (List.length l / 2 < List.length l)%nat)
    by (apply Nat.div_lt; lia).
  destruct (Nat.even (List.length l)); [| apply Hnth, Hhalf].
  assert (Hprev : (List.length l / 2 - 1 < List.length l)%nat) by lia.
  destruct (Hnth _ Hhalf) as [H1 H2], (Hnth _ Hprev) as [H3 H4].
  revert H1 H2 H3 H4.
  generalize (nth (List.length l / 2) (sort (asc_by (fun x => x)) l) 0),
    (nth (List.length l / 2 - 1) (sort (asc_by (fun x => x)) l) 0).
  intros u v H1 H2 H3 H4. split.
  - apply Qle_shift_div_l; [reflexivity | lra].
  - apply Qle_shift_div_r; [reflexivity | lra].
Qed.

(** X17. With the store up, the rating analysis of the orchestrator is
    empty exactly when no product of the given platform has a positive
    rating.  Otherwise [count] is the number of positive ratings, mean and
    median lie between minimum and maximum, and the distribution has the
    six buckets 0 to 5, whose counts add up to the number of positive
    ratings below 5: a rating of 5 or more is counted in [count] and in no
    bucket. *)
Theorem rating_distribution_counts_ratings_below_five (db : DB)
  (platform : option string) :
  exists out,
    analyze_rating_distribution (connect db) platform = Ok out
    /\ let rated :=
         filter (Qltb 0)
           (map Product.rating (candidates_as_given db platform None)) in
       match out with
       | None => rated = []
       | Some d =>
           stats_count (rating_array_stats d) = List.length rated
           /\ (0 < stats_count (rating_array_stats d))%nat
           /\ stats_min (rating_array_stats d)
              <= stats_mean (rating_array_stats d)
              <= stats_max (rating_array_stats d)
           /\ stats_min (rating_array_stats d)
              <= stats_median (rating_array_stats d)
              <= stats_max (rating_array_stats d)
           /\ map fst (rating_distribution d) = [0; 1; 2; 3; 4; 5]%Z
           /\ fold_right Nat.add 0%nat (map snd (rating_distribution d))
              = List.length (filter (fun r => Qltb r 5) rated)
       end.
Proof.
  unfold analyze_rating_distribution. cbn zeta.
  cbn [connect all_products bind try_except try_finally close].
  assert (Hq : run_product_query db
                 (match truthy platform with
                  | Some p => filter_platform query_Product p
                  | None => query_Product
                  end)
               = candidates_as_given db platform None).
  { pose proof (candidate_query (fun v => v) db platform None) as Hq.
    cbn [truthy] in Hq. exact Hq. }
  rewrite Hq.
  set (rated := filter (Qltb 0)
                  (map Product.rating (candidates_as_given db platform None))).
  assert (Hpos : forall r, In r rated -> 0 <= r).
  { intros r Hr. apply filter_In in Hr as [_ Hr]. apply Qltb_lt in Hr.
    apply Qlt_le_weak, Hr. }
  destruct rated as [|r0 rated'] eqn:E.
  - eexists. split; reflexivity.
  - rewrite <- E in *. eexists. split; [reflexivity |].
    cbn [rating_array_stats rating_distribution stats_count stats_min
         stats_max stats_mean stats_median].
    assert (Hne : rated <> []) by (rewrite E; discriminate).
    destruct (list_stats_bounds rated) as (Hall & _).
    split; [reflexivity |]. split; [rewrite E; simpl; lia |].
    split; [apply mean_bounds; assumption |].
    split; [apply np_median_bounds; assumption |].
    split; [reflexivity |].
    rewrite map_map. cbn [snd]. apply bucket_counts_total, Hpos.
Qed.

End RatingBuckets.

(** ** The growth rates of the categories *)

Section CategoryGrowth.
Import Store TrendAnalyzer Spec.









End CategoryGrowth.

(** ** The handling of outliers *)

Section Outliers.
Import TrendAnalyzer DataCleaner Spec.

Lemma column_set_other (df : DataFrame) (name other : string)
  (values : list (option Q)) :
  name <> other -> column (set_column df name values) other = column df other.
Proof.
  intro Hne. unfold column, set_column. simpl.
  induction (columns df) as [|[k v] d IH]; simpl.
  - destruct (String.eqb_spec name other); [contradiction | reflexivity].
  - destruct (String.eqb_spec k name) as [-> | Hk]; simpl.
    + destruct (String.eqb_spec name other); [contradiction | reflexivity].
    + destruct (String.eqb k other); [reflexivity | exact IH].
Qed.

Lemma has_column_set_column (df : DataFrame) (name other : string)
  (values : list (option Q)) :
  has_column df name = true ->
  has_column (set_column df name values) other = has_column df other.
Proof.
  unfold has_column, set_column. simpl.
  induction (columns df) as [|[k v] d IH]; simpl; [discriminate |].
  destruct (String.eqb_spec k name) as [-> | Hk]; simpl; [reflexivity |].
  intro H. rewrite IH by exact H. reflexivity.
Qed.

Lemma column_absent (df : DataFrame) (name : string) :
  has_column df name = false -> column df name = [].
Proof.
  unfold has_column, column.
  induction (columns df) as [|[k v] d IH]; simpl; [reflexivity |].
  destruct (String.eqb k name); simpl; [discriminate | exact IH].
Qed.

Lemma set_column_same (df : DataFrame) (name : string) :
  has_column df name = true -> set_column df name (column df name) = df.
Proof.
  destruct df as [idx cols]. unfold has_column, set_column, column. simpl.
  intro H. f_equal.
  induction cols as [|[k v] d IH]; simpl in *; [discriminate |].
  destruct (String.eqb k name) eqn:E; simpl; [reflexivity |].
  f_equal. apply IH, H.
Qed.

Lemma assignment_column (name : string) (cond : Q -> bool) (value : Q)
  (df : DataFrame) (other : string) :
  column (assigned_if_present name cond value df) other
  = if String.eqb name other then map (replaced cond value) (column df other)
    else column df other.
Proof.
  unfold assigned_if_present, set_where.
  destruct (String.eqb_spec name other) as [<- | Hne].
  - destruct (has_column df name) eqn:H.
    + apply column_set_column.
    + rewrite (column_absent _ _ H). reflexivity.
  - destruct (has_column df name); [| reflexivity].
    apply column_set_other, Hne.
Qed.

Lemma assignment_shape (name : string) (cond : Q -> bool) (value : Q)
  (df : DataFrame) :
  index (assigned_if_present name cond value df) = index df
  /\ forall other,
       has_column (assigned_if_present name cond value df) other
       = has_column df other.
Proof.
  unfold assigned_if_present, set_where. destruct (has_column df name) eqn:H.
  - split; [reflexivity |]. intro other.
    apply has_column_set_column, H.
  - split; reflexivity.
Qed.

Lemma assignment_fixed (name : string) (cond : Q -> bool) (value : Q)
  (df : DataFrame) :
  map (replaced cond value) (column df name) = column df name ->
  assigned_if_present name cond value df = df.
Proof.
  intro H. unfold assigned_if_present, set_where.
  destruct (has_column df name) eqn:E; [| reflexivity].
  rewrite H. apply set_column_same, E.
Qed.

(** The cleaner as a sequence of guarded assignments. *)
Lemma handle_outliers_steps (df : DataFrame) :
  _handle_outliers df
  = assigned_if_present "reviews_count" (fun x => Qltb x 0) 0
      (assigned_if_present "rating" (fun x => Qltb 5 x) 5
         (assigned_if_present "rating" (fun x => Qltb x 0) 0
            (assigned_if_present "sales_volume" (fun x => Qltb x 0) 0
               (assigned_if_present "price" (fun x => Qltb x 0) 0 df)))).
Proof.
  assert (Hr : forall d,
             (if has_column d "rating"
              then set_where (set_where d "rating" (fun x => Qltb x 0) 0)
                     "rating" (fun x => Qltb 5 x) 5
              else d)
             = assigned_if_present "rating" (fun x => Qltb 5 x) 5
                 (assigned_if_present "rating" (fun x => Qltb x 0) 0 d)).
  { intro d. unfold assigned_if_present.
    destruct (has_column d "rating") eqn:H; [| rewrite H; reflexivity].
    assert (H' : has_column (set_where d "rating" (fun x => Qltb x 0) 0)
                   "rating" = true).
    { unfold set_where. rewrite has_column_set_column; exact H. }
    rewrite H'. reflexivity. }
  unfold _handle_outliers. cbv zeta. rewrite Hr. reflexivity.
Qed.

Lemma raised_values (col : list (option Q)) (bound v : Q) :
  In (Some v) (map (replaced (fun x => Qltb x bound) bound) col) ->
  bound <= v.
Proof.
  intro H. apply in_map_iff in H as ([y|] & Hy & _); [| discriminate].
  simpl in Hy. destruct (Qltb y bound) eqn:E; injection Hy as <-.
  - apply Qle_refl.
  - destruct (Qlt_le_dec y bound) as [Hlt | Hle]; [| exact Hle].
    apply Qltb_lt in Hlt. congruence.
Qed.

Lemma lowered_values (col : list (option Q)) (bound lo v : Q) :
  lo <= bound -> (forall y, In (Some y) col -> lo <= y) ->
  In (Some v) (map (replaced (fun x => Qltb bound x) bound) col) ->
  lo <= v <= bound.
Proof.
  intros Hlo Hcol H. apply in_map_iff in H as ([y|] & Hy & Hin);
    [| discriminate].
  simpl in Hy. destruct (Qltb bound y) eqn:E; injection Hy as <-.
  - split; [exact Hlo | apply Qle_refl].
  - split; [apply Hcol, Hin |].
    destruct (Qlt_le_dec bound y) as [Hlt | Hle]; [| exact Hle].
    apply Qltb_lt in Hlt. congruence.
Qed.

Lemma replaced_fixed (cond : Q -> bool) (value : Q) (col : list (option Q)) :
  (forall y, In (Some y) col -> cond y = false) ->
  map (replaced cond value) col = col.
Proof.
  induction col as [|[y|] col IH]; intro H; simpl; [reflexivity | |].
  - rewrite (H y (or_introl eq_refl)), IH; [reflexivity |].
    intros z Hz. apply H. right. exact Hz.
  - rewrite IH; [reflexivity |]. intros z Hz. apply H. right. exact Hz.
Qed.

Lemma not_below (bound v : Q) : bound <= v -> Qltb v bound = false.
Proof.
  intro H. destruct (Qltb v bound) eqn:E; [| reflexivity].
  apply Qltb_lt in E. exfalso. exact (Qlt_not_le _ _ E H).
Qed.

(** X19. The handling of outliers keeps the shape of the frame and every
    column other than price, sales_volume, rating and reviews_count;
    afterwards no price, sales volume or review count is negative and
    every rating lies between 0 and 5, NaN apart; and handling the
    outliers of its result changes nothing. *)
Theorem handle_outliers_clamps_and_is_idempotent (df : DataFrame) :
  index (_handle_outliers df) = index df
  /\ (forall name,
        has_column (_handle_outliers df) name = has_column df name)
  /\ (forall name,
        ~ In name ["price"; "sales_volume"; "rating"; "reviews_count"]%string ->
        column (_handle_outliers df) name = column df name)
  /\ (forall name v,
        In name ["price"; "sales_volume"; "reviews_count"]%string ->
        In (Some v) (column (_handle_outliers df) name) -> 0 <= v)
  /\ (forall v,
        In (Some v) (column (_handle_outliers df) "rating") -> 0 <= v <= 5)
  /\ _handle_outliers (_handle_outliers df) = _handle_outliers df.
Proof.
  assert (Hcols : forall d name,
             column (_handle_outliers d) name
             = if String.eqb name "price"
               then map (replaced (fun x => Qltb x 0) 0) (column d name)
               else if String.eqb name "sales_volume"
               then map (replaced (fun x => Qltb x 0) 0) (column d name)
               else if String.eqb name "rating"
               then map (replaced (fun x => Qltb 5 x) 5)
                      (map (replaced (fun x => Qltb x 0) 0) (column d name))
               else if String.eqb name "reviews_count"
               then map (replaced (fun x => Qltb x 0) 0) (column d name)
               else column d name).
  { intros d name. rewrite handle_outliers_steps, !assignment_column.
    rewrite !(String.eqb_sym name).
    destruct (String.eqb_spec "price" name) as [<- | _]; [reflexivity |].
    destruct (String.eqb_spec "sales_volume" name) as [<- | _];
      [reflexivity |].
    destruct (String.eqb_spec "rating" name) as [<- | _]; [reflexivity |].
    destruct (String.eqb "reviews_count" name); reflexivity. }
  assert (Hrange : forall d,
             (forall name v,
                In name ["price"; "sales_volume"; "reviews_count"]%string ->
                In (Some v) (column (_handle_outliers d) name) -> 0 <= v)
             /\ (forall v,
                   In (Some v) (column (_handle_outliers d) "rating") ->
                   0 <= v <= 5)).
  { intro d. split.
    - intros name v Hname Hv. rewrite Hcols in Hv.
      destruct Hname as [<- | [<- | [<- | []]]]; simpl in Hv;
        exact (raised_values _ _ _ Hv).
    - intros v Hv. rewrite Hcols in Hv. simpl in Hv.
      apply lowered_values with (lo := 0) in Hv; [exact Hv | discriminate |].
      intros y Hy. exact (raised_values _ _ _ Hy). }
  destruct (Hrange df) as [Hcounts Hrating].
  split; [| split; [| split; [| split; [exact Hcounts |
                                        split; [exact Hrating |]]]]].
  - rewrite handle_outliers_steps.
    repeat (etransitivity; [apply assignment_shape |]). reflexivity.
  - intro name. rewrite handle_outliers_steps.
    repeat (etransitivity; [apply assignment_shape |]). reflexivity.
  - intros name Hname. rewrite Hcols.
    destruct (String.eqb_spec name "price") as [-> | _];
      [exfalso; apply Hname; simpl; tauto |].
    destruct (String.eqb_spec name "sales_volume") as [-> | _];
      [exfalso; apply Hname; simpl; tauto |].
    destruct (String.eqb_spec name "rating") as [-> | _];
      [exfalso; apply Hname; simpl; tauto |].
    destruct (String.eqb_spec name "reviews_count") as [-> | _];
      [exfalso; apply Hname; simpl; tauto | reflexivity].
  - set (out := _handle_outliers df) in *.
    assert (Hfix : forall name,
               In name ["price"; "sales_volume"; "reviews_count"]%string ->
               map (replaced (fun x => Qltb x 0) 0) (column out name)
               = column out name).
    { intros name Hname. apply replaced_fixed. intros y Hy.
      apply not_below. exact (Hcounts name y Hname Hy). }
    assert (Hfix0 : map (replaced (fun x => Qltb x 0) 0) (column out "rating")
                    = column out "rating").
    { apply replaced_fixed. intros y Hy. apply not_below.
      apply (Hrating y Hy). }
    assert (Hfix5 : map (replaced (fun x => Qltb 5 x) 5) (column out "rating")
                    = column out "rating").
    { apply replaced_fixed. intros y Hy. apply not_below.
      apply (Hrating y Hy). }
    rewrite handle_outliers_steps.
    rewrite (assignment_fixed "price" _ _ out) by (apply Hfix; simpl; tauto).
    rewrite (assignment_fixed "sales_volume" _ _ out)
      by (apply Hfix; simpl; tauto).
    rewrite (assignment_fixed "rating" _ _ out) by exact Hfix0.
    rewrite (assignment_fixed "rating" _ _ out) by exact Hfix5.
    apply assignment_fixed. apply Hfix. simpl. tauto.
Qed.

End Outliers.

(** ** The added operations on the example stores *)

Section MoreExamples.
Import Store TrendAnalyzer.

(** The daily series lists the two days that have snapshots and leaves
    out the third; sales fell from 12 to 6. *)
Example sales_series_of_gap_store :
  get_sales_trend (connect Examples.gap_db) 259200 None None None 2
  = Ok (mkSalesSeries [1; 2]%Z [12; 6] (-50)).
Proof. vm_compute. reflexivity. Qed.

(** The trend analysis of the same window fills the third day with 0 and
    reports a growth of -100. *)
Example sales_growth_of_gap_store :
  exists r x,
    analyze_sales_trend (connect Examples.gap_db) 259200 None None 2
    = Ok (Some r)
    /\ sales_growth_rate r = Some x /\ x == -100.
Proof.
  eexists. eexists. split; [vm_compute; reflexivity |].
  split; reflexivity.
Qed.

(** A rating of 5 is counted in no bucket; 4.5 falls into bucket 5. *)
Example buckets_of_four_ratings :
  map (SystemOrchestrator.bucket_count [5; 9 # 2; 1 # 4; 3])
      [0; 1; 2; 3; 4; 5]%Z
  = [1; 0; 0; 1; 0; 1]%nat.
Proof. vm_compute. reflexivity. Qed.

(** Outliers are moved to the nearest bound, NaN and the columns the
    cleaner does not know stay. *)
Example outliers_of_a_small_frame :
  DataCleaner._handle_outliers
    (mkFrame [0; 1; 2]%Z
       [ ("price"%string, [Some (-1); None; Some 3]);
         ("rating"%string, [Some 7; Some (-2); Some 4]);
         ("discount"%string, [Some (-5); Some 0; None]) ])
  = mkFrame [0; 1; 2]%Z
      [ ("price"%string, [Some 0; None; Some 3]);
        ("rating"%string, [Some 5; Some 0; Some 4]);
        ("discount"%string, [Some (-5); Some 0; None]) ].
Proof. vm_compute. reflexivity. Qed.

End MoreExamples.
